(** * Aerodrome decoder (rotkehlchen/chain/base/modules/aerodrome/decoder.py)

    A shallow embedding of [AerodromeDecoder]: the handlers that walk the
    decoded events of one transaction and reclassify them in place
    ([_decode_add_liquidity_events], [_decode_remove_liquidity_events],
    [_decode_swap], [_decode_gauge_events]) and the dispatch on the first
    topic of the log ([_decode_pool_events]).

    The Python handlers mutate event objects that live in the list
    [context.decoded_events], raise exceptions in the middle of a walk and
    write to the logger and to the global asset database.  The embedding is
    a state-and-exception monad over a record holding the event list, the
    asset database and the logged errors; an event object is referred to by
    its position in the list, which is stable for the whole walk. *)

From Stdlib Require Import ZArith QArith String Ascii Lia.
From Stdlib Require Import Strings.Byte.
From stdpp Require Import base option list gmap sets strings.

Open Scope string_scope.
Open Scope list_scope.

(** ** Enumerations

    The enumerations are declared outside the decoder; they list the members
    the decoder and its tests mention. *)

Module HistoryEventType.
Inductive t := TRADE | DEPOSIT | WITHDRAWAL | SPEND | RECEIVE | INFORMATIONAL.
#[global] Instance eq_dec : EqDecision t.
Proof. solve_decision. Defined.
End HistoryEventType.

Module HistoryEventSubType.
Inductive t :=
  | NONE | SPEND | RECEIVE | FEE | APPROVE
  | DEPOSIT_ASSET | REMOVE_ASSET | RECEIVE_WRAPPED | RETURN_WRAPPED | REWARD.
#[global] Instance eq_dec : EqDecision t.
Proof. solve_decision. Defined.
End HistoryEventSubType.

Module EvmProduct.
Inductive t := POOL | GAUGE.
#[global] Instance eq_dec : EqDecision t.
Proof. solve_decision. Defined.
End EvmProduct.

(** ** Data *)

(** [bytes] values: log topics, log payload, transaction hash. *)
Abbreviation bytes := (list byte).

#[global] Instance byte_eq_dec : EqDecision byte := Byte.byte_eq_dec.

(** [ChecksumEvmAddress] is a Python [str]. *)
Abbreviation ChecksumEvmAddress := string.

(** [FVal], the decimal of [balance.amount]; [==] on it is numeric equality,
    which is [Qeq_bool] here. *)
Abbreviation FVal := Q.

(** The fields of [EvmEvent] that the handlers read or write.  [asset] is the
    asset identifier, [balance_amount] is [event.balance.amount]. *)
Record EvmEvent := mkEvmEvent {
  event_type : HistoryEventType.t;
  event_subtype : HistoryEventSubType.t;
  asset : string;
  balance_amount : FVal;
  location_label : option string;
  address : option ChecksumEvmAddress;
  counterparty : option string;
  product : option EvmProduct.t;
  notes : option string;
}.

(** Attribute assignments [event.f = v]. *)
Definition set_event_type (v : HistoryEventType.t) (e : EvmEvent) : EvmEvent :=
  mkEvmEvent v (event_subtype e) (asset e) (balance_amount e) (location_label e)
    (address e) (counterparty e) (product e) (notes e).
Definition set_event_subtype (v : HistoryEventSubType.t) (e : EvmEvent) : EvmEvent :=
  mkEvmEvent (event_type e) v (asset e) (balance_amount e) (location_label e)
    (address e) (counterparty e) (product e) (notes e).
Definition set_counterparty (v : string) (e : EvmEvent) : EvmEvent :=
  mkEvmEvent (event_type e) (event_subtype e) (asset e) (balance_amount e)
    (location_label e) (address e) (Some v) (product e) (notes e).
Definition set_product (v : EvmProduct.t) (e : EvmEvent) : EvmEvent :=
  mkEvmEvent (event_type e) (event_subtype e) (asset e) (balance_amount e)
    (location_label e) (address e) (counterparty e) (Some v) (notes e).
Definition set_notes (v : string) (e : EvmEvent) : EvmEvent :=
  mkEvmEvent (event_type e) (event_subtype e) (asset e) (balance_amount e)
    (location_label e) (address e) (counterparty e) (product e) (Some v).

(** [EvmTxReceiptLog]: emitter address, topic words, payload. *)
Record EvmTxReceiptLog := mkEvmTxReceiptLog {
  log_address : ChecksumEvmAddress;
  topics : list bytes;
  data : bytes;
}.

(** [EvmTransaction], of which the handlers read the hash. *)
Record EvmTransaction := mkEvmTransaction {
  tx_hash : bytes;
}.

(** [DecoderContext] without its event list, which is part of the state. *)
Record DecoderContext := mkDecoderContext {
  tx_log : EvmTxReceiptLog;
  transaction : EvmTransaction;
}.

(** Modelled from the spec: [DecodingOutput] and [DEFAULT_DECODING_OUTPUT]
    (rotkehlchen/chain/evm/decoding/structures.py is not part of the sources).
    The result carries the flag telling the caller whether balances must be
    refreshed; the default result is the no-op one. *)
Record DecodingOutput := mkDecodingOutput { refresh_balances : bool }.
Definition DEFAULT_DECODING_OUTPUT : DecodingOutput := mkDecodingOutput false.

(** Modelled from the spec: the token metadata collaborator
    (rotkehlchen/assets is not part of the sources).  An identifier is known
    or not; a known asset is of some kind, and has a display symbol, a
    decimal scale and a protocol tag that is unset until written. *)
Inductive AssetKind := FIAT | CRYPTO_ASSET | EVM_TOKEN.
#[global] Instance AssetKind_eq_dec : EqDecision AssetKind.
Proof. solve_decision. Defined.

Record AssetData := mkAssetData {
  asset_kind : AssetKind;
  symbol : string;
  decimals : nat;
  protocol : option string;
}.

(** The exceptions the handlers can raise. *)
Inductive Exn :=
  | UnknownAsset (identifier : string)
  | WrongAssetType (identifier : string)
  | IndexError.

(** ** State and exceptions *)

Record State := mkState {
  decoded_events : list EvmEvent;
  globaldb : gmap string AssetData;
  error_log : list string;
}.

Inductive Outcome (A : Type) :=
  | Return (a : A)
  | Raise (x : Exn).
Arguments Return {A} a.
Arguments Raise {A} x.

Definition M (A : Type) : Type := State -> Outcome A * State.

#[global] Instance M_ret : MRet M := fun A a σ => (Return a, σ).
#[global] Instance M_bind : MBind M := fun A B k m σ =>
  match m σ with
  | (Return a, σ') => k a σ'
  | (Raise x, σ') => (Raise x, σ')
  end.

Definition raise {A} (x : Exn) : M A := fun σ => (Raise x, σ).

Definition set_events (l : list EvmEvent) (σ : State) : State :=
  mkState l (globaldb σ) (error_log σ).
Definition set_globaldb (db : gmap string AssetData) (σ : State) : State :=
  mkState (decoded_events σ) db (error_log σ).

(** Read the event object behind a reference. *)
Definition read_event (i : nat) : M (option EvmEvent) :=
  fun σ => (Return (decoded_events σ !! i), σ).

(** Write the fields of the event object behind a reference. *)
Definition write_event (i : nat) (e : EvmEvent) : M unit :=
  fun σ => (Return tt, set_events (<[i := e]> (decoded_events σ)) σ).

(** [log.error(msg)] *)
Definition log_error (msg : string) : M unit :=
  fun σ => (Return tt, mkState (decoded_events σ) (globaldb σ) (error_log σ ++ [msg])).

(** [for event in context.decoded_events: body], with loop-carried locals.
    Python's list iterator keeps a position and stops when the position is
    past the end of the list; no body changes the length of the list, so the
    initial length bounds the number of rounds. *)
Fixpoint for_in {L} (body : nat -> EvmEvent -> L -> M L)
    (rounds i : nat) (locals : L) : M L :=
  match rounds with
  | O => mret locals
  | S rounds' => fun σ =>
      match decoded_events σ !! i with
      | None => (Return locals, σ)
      | Some event =>
          match body i event locals σ with
          | (Return locals', σ') => for_in body rounds' (S i) locals' σ'
          | (Raise x, σ') => (Raise x, σ')
          end
      end
  end.

Definition for_event_in_decoded_events {L}
    (body : nat -> EvmEvent -> L -> M L) (locals : L) : M L :=
  fun σ => for_in body (length (decoded_events σ)) 0 locals σ.

(** ** Collaborators of the decoder *)

(** Modelled from the spec: [Asset.resolve_to_crypto_asset] (not part of the
    sources; the docstring of [_decode_add_liquidity_events] names its two
    exceptions).  The asset reference is unresolvable when the identifier is
    unknown or the asset is of the wrong kind. *)
Definition resolve_to_crypto_asset (identifier : string) : M AssetData :=
  fun σ =>
    match globaldb σ !! identifier with
    | None => (Raise (UnknownAsset identifier), σ)
    | Some a =>
        match asset_kind a with
        | FIAT => (Raise (WrongAssetType identifier), σ)
        | CRYPTO_ASSET | EVM_TOKEN => (Return a, σ)
        end
    end.

(** Modelled from the spec: [Asset.resolve_to_evm_token] (not part of the
    sources), the same resolution for the narrower kind; its result stands
    for the token object, named by its identifier. *)
Definition resolve_to_evm_token (identifier : string) : M string :=
  fun σ =>
    match globaldb σ !! identifier with
    | None => (Raise (UnknownAsset identifier), σ)
    | Some a =>
        match asset_kind a with
        | EVM_TOKEN => (Return identifier, σ)
        | FIAT | CRYPTO_ASSET => (Raise (WrongAssetType identifier), σ)
        end
    end.

(** An asset with the protocol tag [p]. *)
Definition tagged (p : string) (a : AssetData) : AssetData :=
  mkAssetData (asset_kind a) (symbol a) (decimals a) (Some p).

(** Modelled from the spec: [set_token_protocol_if_missing]
    (rotkehlchen/assets/utils.py is not part of the sources): a write-once
    protocol tag on token metadata, "settable only if currently empty". *)
Definition set_token_protocol_if_missing (evm_token : string) (protocol' : string)
    : M unit :=
  fun σ =>
    match globaldb σ !! evm_token with
    | Some a =>
        match protocol a with
        | Some _ => (Return tt, σ)
        | None =>
            (Return tt, set_globaldb (<[evm_token := tagged protocol' a]> (globaldb σ)) σ)
        end
    | None => (Return tt, σ)
    end.

(** Modelled from the spec: [asset_normalized_value]
    (rotkehlchen/chain/ethereum/utils.py is not part of the sources):
    "normalizes the raw integer to the asset's human-decimal scale". *)
Definition asset_normalized_value (amount : Z) (asset' : AssetData) : FVal :=
  (inject_Z amount / inject_Z (10 ^ Z.of_nat (decimals asset')))%Q.

(** Modelled from the spec: [hex_or_bytes_to_int]
    (rotkehlchen/utils/misc.py is not part of the sources): the raw integer
    amount of the payload, big-endian. *)
Definition hex_or_bytes_to_int (value : bytes) : Z :=
  fold_left (fun acc b => (acc * 256 + Z.of_N (Byte.to_N b))%Z) value 0%Z.

(** [bytes.hex()] *)
Definition hex_digit (n : N) : string :=
  match String.get (N.to_nat n) "0123456789abcdef" with
  | Some c => String c EmptyString
  | None => EmptyString
  end.
Definition hex (value : bytes) : string :=
  fold_right (fun b s =>
    hex_digit (Byte.to_N b / 16) +:+ hex_digit (Byte.to_N b mod 16) +:+ s) "" value.

(** [ZERO_ADDRESS] of rotkehlchen/chain/evm/constants.py, the zero address. *)
Definition ZERO_ADDRESS : ChecksumEvmAddress :=
  "0x0000000000000000000000000000000000000000".

Definition ROUTER : ChecksumEvmAddress :=
  "0xcF77a3Ba9A5CA399B7c97c74d54e5b1Beb874E43".

Definition ADD_LIQUIDITY_EVENT : bytes :=
  [x4c; x20; x9b; x5f; xc8; xad; x50; x75; x8f; x13; xe2; xe1; x08; x8b; xa5; x6a;
   x56; x0d; xff; x69; x0a; x1c; x6f; xef; x26; x39; x4f; x4c; x03; x82; x1c; x4f].
Definition REMOVE_LIQUIDITY_EVENT : bytes :=
  [x5d; x62; x4a; xa9; xc1; x48; x15; x3a; xb3; x44; x6c; x1b; x15; x4f; x66; x0e;
   xe7; x70; x1e; x54; x9f; xe9; xb6; x2d; xab; x71; x71; xb1; xc8; x0e; x6f; xa2].
Definition SWAP : bytes :=
  [xb3; xe2; x77; x36; x06; xab; xfd; x36; xb5; xbd; x91; x39; x4b; x3a; x54; xd1;
   x39; x83; x36; xc6; x50; x05; xba; xf7; xbf; x7a; x05; xef; xef; xfa; xf7; x5b].
Definition GAUGE_DEPOSIT : bytes :=
  [x55; x48; xc8; x37; xab; x06; x8c; xf5; x6a; x2c; x24; x79; xdf; x08; x82; xa4;
   x92; x2f; xd2; x03; xed; xb7; x51; x73; x21; x83; x1d; x95; x07; x8c; x5f; x62].
Definition GAUGE_WITHDRAW : bytes :=
  [x88; x4e; xda; xd9; xce; x6f; xa2; x44; x0d; x8a; x54; xcc; x12; x34; x90; xeb;
   x96; xd2; x76; x84; x79; xd4; x9f; xf9; xc7; x36; x61; x25; xa9; x42; x43; x64].
Definition CLAIM_REWARDS : bytes :=
  [x1f; x89; xf9; x63; x33; xd3; x13; x30; x00; xee; x44; x74; x73; x15; x1f; xa9;
   x60; x65; x43; x36; x8f; x02; x27; x1c; x9d; x95; xae; x14; xf1; x3b; xcc; x67].

(** What the decoder imports and this development leaves open: the two
    string constants of rotkehlchen/.../constants.py and rotkehlchen/types.py,
    the rendering of an [FVal] and of an [EvmEvent] inside an f-string, and
    the conversion of a topic word to a checksummed address. *)
Class Imports := mkImports {
  CPT_AERODROME : string;
  AERODROME_POOL_PROTOCOL : string;
  str_FVal : FVal -> string;
  str_EvmEvent : EvmEvent -> string;
  hex_or_bytes_to_address : bytes -> ChecksumEvmAddress;
}.

(** [f'{x}'] for an [Optional] value. *)
Definition str_optional {A} (str : A -> string) (x : option A) : string :=
  match x with
  | Some a => str a
  | None => "None"
  end.

(** ** The decoder *)

(** [self]: the address registry the handlers test membership in. *)
Record AerodromeDecoder := mkAerodromeDecoder {
  pools : gset ChecksumEvmAddress;
  gauges : gset ChecksumEvmAddress;
  protocol_addresses : gset ChecksumEvmAddress;
}.

(** [__init__]: [self.protocol_addresses = {ROUTER}.union(self.pools)]. *)
Definition __init__ (pools' gauges' : gset ChecksumEvmAddress) : AerodromeDecoder :=
  mkAerodromeDecoder pools' gauges' ({[ROUTER]} ∪ pools').

(** [event.address in addresses] for the [Optional] address of an event. *)
Definition address_in (a : option ChecksumEvmAddress) (addresses : gset ChecksumEvmAddress)
    : bool :=
  match a with
  | Some x => bool_decide (x ∈ addresses)
  | None => false
  end.

(** [event.event_type == t and event.event_subtype == NONE] *)
Definition is_raw (t : HistoryEventType.t) (event : EvmEvent) : bool :=
  bool_decide (event_type event = t) &&
  bool_decide (event_subtype event = HistoryEventSubType.NONE).

(** [xs[i]], raising [IndexError] out of range. *)
Definition getitem {A} (xs : list A) (i : nat) : M A :=
  match xs !! i with
  | Some x => mret x
  | None => raise IndexError
  end.

Section Decoder.
Context {imports : Imports}.

(** *** [_decode_add_liquidity_events] *)

Definition add_liquidity_body (self : AerodromeDecoder) (tx_log' : EvmTxReceiptLog)
    (i : nat) (event : EvmEvent) (_ : unit) : M unit :=
  crypto_asset ← resolve_to_crypto_asset (asset event);
  if is_raw HistoryEventType.SPEND event && address_in (address event) (pools self) then
    let event := set_event_type HistoryEventType.DEPOSIT event in
    let event := set_event_subtype HistoryEventSubType.DEPOSIT_ASSET event in
    let event := set_counterparty CPT_AERODROME event in
    let event := set_notes
      ("Deposit " +:+ str_FVal (balance_amount event) +:+ " " +:+ symbol crypto_asset
         +:+ " in aerodrome pool " +:+ str_optional id (address event)) event in
    let event := set_product EvmProduct.POOL event in
    write_event i event
  else if is_raw HistoryEventType.RECEIVE event
          && bool_decide (address event = Some ZERO_ADDRESS) then
    let event := set_event_subtype HistoryEventSubType.RECEIVE_WRAPPED event in
    let event := set_counterparty CPT_AERODROME event in
    let event := set_notes
      ("Receive " +:+ str_FVal (balance_amount event) +:+ " " +:+ symbol crypto_asset
         +:+ " after depositing in aerodrome pool " +:+ log_address tx_log') event in
    let event := set_product EvmProduct.POOL event in
    write_event i event;;
    evm_token ← resolve_to_evm_token (asset event);
    set_token_protocol_if_missing evm_token AERODROME_POOL_PROTOCOL
  else mret tt.

Definition _decode_add_liquidity_events (self : AerodromeDecoder)
    (tx_log' : EvmTxReceiptLog) : M DecodingOutput :=
  for_event_in_decoded_events (add_liquidity_body self tx_log') tt;;
  mret DEFAULT_DECODING_OUTPUT.

(** *** [_decode_remove_liquidity_events] *)

Definition remove_liquidity_body (self : AerodromeDecoder) (tx_log' : EvmTxReceiptLog)
    (i : nat) (event : EvmEvent) (_ : unit) : M unit :=
  crypto_asset ← resolve_to_crypto_asset (asset event);
  if is_raw HistoryEventType.SPEND event && address_in (address event) (pools self) then
    let event := set_event_subtype HistoryEventSubType.RETURN_WRAPPED event in
    let event := set_counterparty CPT_AERODROME event in
    let event := set_notes
      ("Return " +:+ str_FVal (balance_amount event) +:+ " " +:+ symbol crypto_asset)
      event in
    let event := set_product EvmProduct.POOL event in
    write_event i event
  else if is_raw HistoryEventType.RECEIVE event
          && address_in (address event) (pools self) then
    let event := set_event_type HistoryEventType.WITHDRAWAL event in
    let event := set_event_subtype HistoryEventSubType.REMOVE_ASSET event in
    let event := set_counterparty CPT_AERODROME event in
    let event := set_notes
      ("Remove " +:+ str_FVal (balance_amount event) +:+ " " +:+ symbol crypto_asset
         +:+ " from aerodrome pool " +:+ log_address tx_log') event in
    let event := set_product EvmProduct.POOL event in
    write_event i event
  else mret tt.

Definition _decode_remove_liquidity_events (self : AerodromeDecoder)
    (tx_log' : EvmTxReceiptLog) : M DecodingOutput :=
  for_event_in_decoded_events (remove_liquidity_body self tx_log') tt;;
  mret DEFAULT_DECODING_OUTPUT.

(** *** [_decode_swap] *)

(** The locals [spend_event, receive_event]: references to event objects of
    the list, or [None]. *)
Definition SwapLocals : Type := option nat * option nat.

Definition swap_body (self : AerodromeDecoder)
    (i : nat) (event : EvmEvent) (locals : SwapLocals) : M SwapLocals :=
  let '(spend_event, receive_event) := locals in
  crypto_asset ← resolve_to_crypto_asset (asset event);
  if is_raw HistoryEventType.SPEND event
     && address_in (address event) (protocol_addresses self) then
    let event := set_event_type HistoryEventType.TRADE event in
    let event := set_event_subtype HistoryEventSubType.SPEND event in
    let event := set_counterparty CPT_AERODROME event in
    let event := set_notes
      ("Swap " +:+ str_FVal (balance_amount event) +:+ " " +:+ symbol crypto_asset
         +:+ " in " +:+ CPT_AERODROME) event in
    write_event i event;;
    mret (Some i, receive_event)
  else if is_raw HistoryEventType.RECEIVE event
          && address_in (address event) (protocol_addresses self) then
    let event := set_event_type HistoryEventType.TRADE event in
    let event := set_event_subtype HistoryEventSubType.RECEIVE event in
    let event := set_counterparty CPT_AERODROME event in
    let event := set_notes
      ("Receive " +:+ str_FVal (balance_amount event) +:+ " " +:+ symbol crypto_asset
         +:+ " as the result of a swap in " +:+ CPT_AERODROME) event in
    write_event i event;;
    mret (spend_event, Some i)
  else mret (spend_event, receive_event).

(** The event sequence with the receive leg taken out and put back right
    after the spend leg. *)
Definition splice_after (out_event in_event : nat) (events : list EvmEvent)
    : list EvmEvent :=
  match events !! in_event with
  | None => events
  | Some leg =>
      let rest := delete in_event events in
      let out_event' := if decide (in_event < out_event) then out_event - 1 else out_event in
      take (S out_event') rest ++ leg :: drop (S out_event') rest
  end.

(** Modelled from the spec: [maybe_reshuffle_events]
    (rotkehlchen/chain/evm/decoding/utils.py is not part of the sources),
    called with [ordered_events=[spend_event, receive_event]] and
    [events_list=context.decoded_events].  It "enforces ordering: the spend
    leg must immediately precede the receive leg in the transaction's final
    event sequence, re-splicing the sequence if the upstream order differed,
    while preserving the relative order of all other untouched events". *)
Definition maybe_reshuffle_events (out_event in_event : nat) : M unit :=
  fun σ => (Return tt, set_events (splice_after out_event in_event (decoded_events σ)) σ).

(** [f'{ref}'] for a local that is [None] or refers to an event object. *)
Definition str_event_ref (ref : option nat) : M string :=
  match ref with
  | None => mret "None"
  | Some i => event ← read_event i; mret (str_optional str_EvmEvent event)
  end.

Definition _decode_swap (self : AerodromeDecoder) (context : DecoderContext)
    : M DecodingOutput :=
  '(spend_event, receive_event) ←
    for_event_in_decoded_events (swap_body self) (None, None);
  match spend_event, receive_event with
  | Some spend_event, Some receive_event =>
      maybe_reshuffle_events spend_event receive_event;;
      mret DEFAULT_DECODING_OUTPUT
  | _, _ =>
      spend_str ← str_event_ref spend_event;
      receive_str ← str_event_ref receive_event;
      log_error
        ("A swap in aerodrome pool must have both a spend and a receive event but one or "
         +:+ "both of them are missing for transaction hash: "
         +:+ hex (tx_hash (transaction context)) +:+ ". "
         +:+ "Spend event: " +:+ spend_str +:+ ", receive event: " +:+ receive_str +:+ ".");;
      mret DEFAULT_DECODING_OUTPUT
  end.

(** *** [_decode_pool_events] *)

Definition _decode_pool_events (self : AerodromeDecoder) (context : DecoderContext)
    : M DecodingOutput :=
  topic0 ← getitem (topics (tx_log context)) 0;
  if bool_decide (topic0 = REMOVE_LIQUIDITY_EVENT) then
    _decode_remove_liquidity_events self (tx_log context)
  else
    topic0 ← getitem (topics (tx_log context)) 0;
    if bool_decide (topic0 = ADD_LIQUIDITY_EVENT) then
      _decode_add_liquidity_events self (tx_log context)
    else
      topic0 ← getitem (topics (tx_log context)) 0;
      if bool_decide (topic0 = SWAP) then _decode_swap self context
      else mret DEFAULT_DECODING_OUTPUT.

(** *** [_decode_gauge_events] *)

Definition gauge_body (topic0 : bytes) (user_or_contract_address gauge_address : string)
    (raw_amount : Z)
    (i : nat) (event : EvmEvent) (found_event_modifying_balances : bool) : M bool :=
  crypto_asset ← resolve_to_crypto_asset (asset event);
  if bool_decide (location_label event = Some user_or_contract_address)
     && bool_decide (address event = Some gauge_address)
     && Qeq_bool (balance_amount event) (asset_normalized_value raw_amount crypto_asset)
  then
    let event := set_counterparty CPT_AERODROME event in
    let event := set_product EvmProduct.GAUGE event in
    let found_event_modifying_balances := true in
    if bool_decide (topic0 = GAUGE_DEPOSIT) then
      let event := set_event_type HistoryEventType.DEPOSIT event in
      let event := set_event_subtype HistoryEventSubType.DEPOSIT_ASSET event in
      let event := set_notes
        ("Deposit " +:+ str_FVal (balance_amount event) +:+ " " +:+ symbol crypto_asset
           +:+ " into " +:+ gauge_address +:+ " aerodrome gauge") event in
      write_event i event;;
      evm_token ← resolve_to_evm_token (asset event);
      set_token_protocol_if_missing evm_token AERODROME_POOL_PROTOCOL;;
      mret found_event_modifying_balances
    else if bool_decide (topic0 = GAUGE_WITHDRAW) then
      let event := set_event_type HistoryEventType.WITHDRAWAL event in
      let event := set_event_subtype HistoryEventSubType.REMOVE_ASSET event in
      let event := set_notes
        ("Withdraw " +:+ str_FVal (balance_amount event) +:+ " " +:+ symbol crypto_asset
           +:+ " from " +:+ gauge_address +:+ " aerodrome gauge") event in
      write_event i event;;
      mret found_event_modifying_balances
    else
      let event := set_event_type HistoryEventType.WITHDRAWAL event in
      let event := set_event_subtype HistoryEventSubType.REWARD event in
      let event := set_notes
        ("Receive " +:+ str_FVal (balance_amount event) +:+ " " +:+ symbol crypto_asset
           +:+ " rewards from " +:+ gauge_address +:+ " aerodrome gauge") event in
      write_event i event;;
      mret found_event_modifying_balances
  else mret found_event_modifying_balances.

Definition _decode_gauge_events (context : DecoderContext) : M DecodingOutput :=
  topic0 ← getitem (topics (tx_log context)) 0;
  if negb (bool_decide (topic0 ∈ [GAUGE_DEPOSIT; GAUGE_WITHDRAW; CLAIM_REWARDS])) then
    mret DEFAULT_DECODING_OUTPUT
  else
    topic1 ← getitem (topics (tx_log context)) 1;
    let user_or_contract_address := hex_or_bytes_to_address topic1 in
    let gauge_address := log_address (tx_log context) in
    let raw_amount := hex_or_bytes_to_int (data (tx_log context)) in
    let found_event_modifying_balances := false in
    found_event_modifying_balances ←
      for_event_in_decoded_events
        (gauge_body topic0 user_or_contract_address gauge_address raw_amount)
        found_event_modifying_balances;
    mret (mkDecodingOutput found_event_modifying_balances).

End Decoder.

(** ** The walks as functions on lists

    Every handler runs the same loop: resolve the asset of the event, then
    test the shape of the event, rewrite the event when it matches, update
    the loop's locals, and (add-liquidity, gauge deposit) tag the token.  A
    [Round] collects what one round does once the asset has resolved. *)

Record Round (L : Type) := mkRound {
  reclassify : AssetData -> EvmEvent -> EvmEvent;
  locals_after : nat -> AssetData -> EvmEvent -> L -> L;
  tags_token : AssetData -> EvmEvent -> bool;
}.
Arguments reclassify {L} _ _ _.
Arguments locals_after {L} _ _ _ _ _.
Arguments tags_token {L} _ _ _.

(** An asset without its protocol tag: what a round reads of it. *)
Definition untagged (a : AssetData) : AssetData :=
  mkAssetData (asset_kind a) (symbol a) (decimals a) None.

(** The result of [resolve_to_crypto_asset] on a database. *)
Definition crypto_asset_of (db : gmap string AssetData) (identifier : string)
    : Outcome AssetData :=
  match db !! identifier with
  | None => Raise (UnknownAsset identifier)
  | Some a =>
      match asset_kind a with
      | FIAT => Raise (WrongAssetType identifier)
      | CRYPTO_ASSET | EVM_TOKEN => Return (untagged a)
      end
  end.

(** The asset of the event resolves to a crypto asset. *)
Definition resolves (db : gmap string AssetData) (e : EvmEvent) : bool :=
  match crypto_asset_of db (asset e) with
  | Return _ => true
  | Raise _ => false
  end.

Section Rounds.
Context {L : Type} (R : Round L) (db : gmap string AssetData).

(** One round on one event: the outcome and the event afterwards. *)
Definition round (i : nat) (e : EvmEvent) (locals : L) : Outcome L * EvmEvent :=
  match crypto_asset_of db (asset e) with
  | Raise x => (Raise x, e)
  | Return a =>
      if tags_token R a e && negb (bool_decide (asset_kind a = EVM_TOKEN))
      then (Raise (WrongAssetType (asset e)), reclassify R a e)
      else (Return (locals_after R i a e locals), reclassify R a e)
  end.

(** The whole walk, from position [i]. *)
Fixpoint walk (i : nat) (events : list EvmEvent) (locals : L)
    : Outcome L * list EvmEvent :=
  match events with
  | [] => (Return locals, [])
  | e :: rest =>
      match round i e locals with
      | (Return locals', e') =>
          let '(o, rest') := walk (S i) rest locals' in (o, e' :: rest')
      | (Raise x, e') => (Raise x, e' :: rest)
      end
  end.

(** The round on this event raises nothing. *)
Definition round_ok (e : EvmEvent) : bool :=
  match crypto_asset_of db (asset e) with
  | Return a => implb (tags_token R a e) (bool_decide (asset_kind a = EVM_TOKEN))
  | Raise _ => false
  end.

(** The event after its round. *)
Definition reclassified (e : EvmEvent) : EvmEvent :=
  match crypto_asset_of db (asset e) with
  | Return a => reclassify R a e
  | Raise _ => e
  end.

(** The locals after a walk in which no round raises. *)
Fixpoint walk_locals (i : nat) (events : list EvmEvent) (locals : L) : L :=
  match events with
  | [] => locals
  | e :: rest =>
      match crypto_asset_of db (asset e) with
      | Return a => walk_locals (S i) rest (locals_after R i a e locals)
      | Raise _ => locals
      end
  end.

End Rounds.

(** The database [db'] is [db] with protocol tags written where there were
    none. *)
Definition tagged_from (p : string) (db db' : gmap string AssetData) : Prop :=
  ∀ id, db' !! id = db !! id ∨
        ∃ a, db !! id = Some a ∧ protocol a = None ∧ db' !! id = Some (tagged p a).

(** The position of the last event satisfying [P], counting from [i]. *)
Fixpoint last_candidate_from (P : EvmEvent -> bool) (i : nat) (events : list EvmEvent)
    (found : option nat) : option nat :=
  match events with
  | [] => found
  | e :: rest => last_candidate_from P (S i) rest (if P e then Some i else found)
  end.

Definition last_candidate (P : EvmEvent -> bool) (events : list EvmEvent) : option nat :=
  last_candidate_from P 0 events None.

Section Reclassifications.
Context {imports : Imports}.

(** *** Add liquidity *)

(** The shapes [_decode_add_liquidity_events] looks for. *)
Definition add_liquidity_deposit (self : AerodromeDecoder) (e : EvmEvent) : bool :=
  is_raw HistoryEventType.SPEND e && address_in (address e) (pools self).

Definition add_liquidity_receive (e : EvmEvent) : bool :=
  is_raw HistoryEventType.RECEIVE e && bool_decide (address e = Some ZERO_ADDRESS).

(** The events as it leaves them. *)
Definition add_liquidity_deposited (sym : string) (e : EvmEvent) : EvmEvent :=
  set_product EvmProduct.POOL
    (set_notes
       ("Deposit " +:+ str_FVal (balance_amount e) +:+ " " +:+ sym
          +:+ " in aerodrome pool " +:+ str_optional id (address e))
       (set_counterparty CPT_AERODROME
          (set_event_subtype HistoryEventSubType.DEPOSIT_ASSET
             (set_event_type HistoryEventType.DEPOSIT e)))).

Definition add_liquidity_received (tx_log' : EvmTxReceiptLog) (sym : string) (e : EvmEvent)
    : EvmEvent :=
  set_product EvmProduct.POOL
    (set_notes
       ("Receive " +:+ str_FVal (balance_amount e) +:+ " " +:+ sym
          +:+ " after depositing in aerodrome pool " +:+ log_address tx_log')
       (set_counterparty CPT_AERODROME
          (set_event_subtype HistoryEventSubType.RECEIVE_WRAPPED e))).

Definition add_liquidity_round (self : AerodromeDecoder) (tx_log' : EvmTxReceiptLog)
    : Round unit :=
  mkRound unit
    (fun a e =>
       if add_liquidity_deposit self e then add_liquidity_deposited (symbol a) e
       else if add_liquidity_receive e then add_liquidity_received tx_log' (symbol a) e
       else e)
    (fun _ _ _ locals => locals)
    (fun _ e => negb (add_liquidity_deposit self e) && add_liquidity_receive e).

(** *** Remove liquidity *)

(** The shapes [_decode_remove_liquidity_events] looks for. *)
Definition remove_liquidity_return (self : AerodromeDecoder) (e : EvmEvent) : bool :=
  is_raw HistoryEventType.SPEND e && address_in (address e) (pools self).

Definition remove_liquidity_withdrawal (self : AerodromeDecoder) (e : EvmEvent) : bool :=
  is_raw HistoryEventType.RECEIVE e && address_in (address e) (pools self).

(** The events as it leaves them. *)
Definition remove_liquidity_returned (sym : string) (e : EvmEvent) : EvmEvent :=
  set_product EvmProduct.POOL
    (set_notes
       ("Return " +:+ str_FVal (balance_amount e) +:+ " " +:+ sym)
       (set_counterparty CPT_AERODROME
          (set_event_subtype HistoryEventSubType.RETURN_WRAPPED e))).

Definition remove_liquidity_withdrawn (tx_log' : EvmTxReceiptLog) (sym : string)
    (e : EvmEvent) : EvmEvent :=
  set_product EvmProduct.POOL
    (set_notes
       ("Remove " +:+ str_FVal (balance_amount e) +:+ " " +:+ sym
          +:+ " from aerodrome pool " +:+ log_address tx_log')
       (set_counterparty CPT_AERODROME
          (set_event_subtype HistoryEventSubType.REMOVE_ASSET
             (set_event_type HistoryEventType.WITHDRAWAL e)))).

Definition remove_liquidity_round (self : AerodromeDecoder) (tx_log' : EvmTxReceiptLog)
    : Round unit :=
  mkRound unit
    (fun a e =>
       if remove_liquidity_return self e then remove_liquidity_returned (symbol a) e
       else if remove_liquidity_withdrawal self e
       then remove_liquidity_withdrawn tx_log' (symbol a) e
       else e)
    (fun _ _ _ locals => locals)
    (fun _ _ => false).

(** *** Swap *)

(** The shapes the scan of [_decode_swap] looks for. *)
Definition swap_spend_candidate (self : AerodromeDecoder) (e : EvmEvent) : bool :=
  is_raw HistoryEventType.SPEND e && address_in (address e) (protocol_addresses self).

Definition swap_receive_candidate (self : AerodromeDecoder) (e : EvmEvent) : bool :=
  is_raw HistoryEventType.RECEIVE e && address_in (address e) (protocol_addresses self).

(** The two legs as the scan leaves them. *)
Definition swap_spend_leg (sym : string) (e : EvmEvent) : EvmEvent :=
  set_notes
    ("Swap " +:+ str_FVal (balance_amount e) +:+ " " +:+ sym +:+ " in " +:+ CPT_AERODROME)
    (set_counterparty CPT_AERODROME
       (set_event_subtype HistoryEventSubType.SPEND
          (set_event_type HistoryEventType.TRADE e))).

Definition swap_receive_leg (sym : string) (e : EvmEvent) : EvmEvent :=
  set_notes
    ("Receive " +:+ str_FVal (balance_amount e) +:+ " " +:+ sym
       +:+ " as the result of a swap in " +:+ CPT_AERODROME)
    (set_counterparty CPT_AERODROME
       (set_event_subtype HistoryEventSubType.RECEIVE
          (set_event_type HistoryEventType.TRADE e))).

Definition swap_round (self : AerodromeDecoder) : Round SwapLocals :=
  mkRound SwapLocals
    (fun a e =>
       if swap_spend_candidate self e then swap_spend_leg (symbol a) e
       else if swap_receive_candidate self e then swap_receive_leg (symbol a) e
       else e)
    (fun i _ e locals =>
       if swap_spend_candidate self e then (Some i, snd locals)
       else if swap_receive_candidate self e then (fst locals, Some i)
       else locals)
    (fun _ _ => false).

(** The diagnostic of [_decode_swap]. *)
Definition swap_diagnostic (context : DecoderContext) (spend_str receive_str : string)
    : string :=
  "A swap in aerodrome pool must have both a spend and a receive event but one or "
  +:+ "both of them are missing for transaction hash: "
  +:+ hex (tx_hash (transaction context)) +:+ ". "
  +:+ "Spend event: " +:+ spend_str +:+ ", receive event: " +:+ receive_str +:+ ".".

(** The position of the spend leg once the receive leg has been taken out. *)
Definition spend_position (out_event in_event : nat) : nat :=
  if decide (in_event < out_event) then out_event - 1 else out_event.

(** *** Gauge *)

Definition gauge_matches (user_or_contract_address gauge_address : string) (raw_amount : Z)
    (a : AssetData) (e : EvmEvent) : bool :=
  bool_decide (location_label e = Some user_or_contract_address)
  && bool_decide (address e = Some gauge_address)
  && Qeq_bool (balance_amount e) (asset_normalized_value raw_amount a).

Definition gauge_event (topic0 : bytes) (gauge_address : string) (sym : string)
    (e : EvmEvent) : EvmEvent :=
  let e := set_product EvmProduct.GAUGE (set_counterparty CPT_AERODROME e) in
  if bool_decide (topic0 = GAUGE_DEPOSIT) then
    set_notes
      ("Deposit " +:+ str_FVal (balance_amount e) +:+ " " +:+ sym
         +:+ " into " +:+ gauge_address +:+ " aerodrome gauge")
      (set_event_subtype HistoryEventSubType.DEPOSIT_ASSET
         (set_event_type HistoryEventType.DEPOSIT e))
  else if bool_decide (topic0 = GAUGE_WITHDRAW) then
    set_notes
      ("Withdraw " +:+ str_FVal (balance_amount e) +:+ " " +:+ sym
         +:+ " from " +:+ gauge_address +:+ " aerodrome gauge")
      (set_event_subtype HistoryEventSubType.REMOVE_ASSET
         (set_event_type HistoryEventType.WITHDRAWAL e))
  else
    set_notes
      ("Receive " +:+ str_FVal (balance_amount e) +:+ " " +:+ sym
         +:+ " rewards from " +:+ gauge_address +:+ " aerodrome gauge")
      (set_event_subtype HistoryEventSubType.REWARD
         (set_event_type HistoryEventType.WITHDRAWAL e)).

Definition gauge_round (topic0 : bytes) (user_or_contract_address gauge_address : string)
    (raw_amount : Z) : Round bool :=
  mkRound bool
    (fun a e =>
       if gauge_matches user_or_contract_address gauge_address raw_amount a e
       then gauge_event topic0 gauge_address (symbol a) e
       else e)
    (fun _ a e found =>
       if gauge_matches user_or_contract_address gauge_address raw_amount a e
       then true else found)
    (fun a e =>
       gauge_matches user_or_contract_address gauge_address raw_amount a e
       && bool_decide (topic0 = GAUGE_DEPOSIT)).

(** The log is one the gauge handler walks the events for. *)
Definition is_gauge_topic (topic0 : bytes) : bool :=
  bool_decide (topic0 ∈ [GAUGE_DEPOSIT; GAUGE_WITHDRAW; CLAIM_REWARDS]).

End Reclassifications.

(** What a loop body has to do to be the round [R]: it writes the event of
    the round, changes the database only along [T], and logs nothing. *)
Definition body_is_round {L} (R : Round L) (T : relation (gmap string AssetData))
    (body : nat -> EvmEvent -> L -> M L) : Prop :=
  ∀ i event locals σ,
    decoded_events σ !! i = Some event →
    ∃ db', T (globaldb σ) db' ∧
      body i event locals σ =
        (fst (round R (globaldb σ) i event locals),
         mkState (<[i := snd (round R (globaldb σ) i event locals)]> (decoded_events σ))
           db' (error_log σ)).

(** [f'{ref}'] read off an event list. *)
Definition str_ref {imports : Imports} (ref : option nat) (events : list EvmEvent) : string :=
  match ref with
  | None => "None"
  | Some i => str_optional str_EvmEvent (events !! i)
  end.

(** Every event of the state has an asset that resolves to a crypto asset. *)
Definition all_resolve (σ : State) : bool :=
  forallb (resolves (globaldb σ)) (decoded_events σ).

(** No round of the walk [R] raises on the events of the state: every asset
    resolves to a crypto asset, and to an EVM token where the round tags the
    token. *)
Definition raises_nothing {L} (R : Round L) (σ : State) : bool :=
  forallb (round_ok R (globaldb σ)) (decoded_events σ).

(** The asset of the event is a known EVM token. *)
Definition is_evm_token (db : gmap string AssetData) (e : EvmEvent) : bool :=
  match db !! asset e with
  | Some a => bool_decide (asset_kind a = EVM_TOKEN)
  | None => false
  end.

(** What the scan of [_decode_swap] leaves of an event. *)
Definition swap_scanned {imports : Imports} (self : AerodromeDecoder)
    (db : gmap string AssetData) (e : EvmEvent) : EvmEvent :=
  reclassified (swap_round self) db e.

(** No event has a shape the scan of [_decode_swap] looks for. *)
Definition no_swap_candidate (self : AerodromeDecoder) (events : list EvmEvent) : bool :=
  forallb (fun e => negb (swap_spend_candidate self e) && negb (swap_receive_candidate self e))
    events.

(** The handler raises whenever its walk does, leaving the events as the
    walk left them and the log as it was. *)
Definition raises_with_walk {A L} (handler : M A) (R : Round L) (init : L) : Prop :=
  ∀ σ x,
    fst (walk R (globaldb σ) 0 (decoded_events σ) init) = Raise x →
    fst (handler σ) = Raise x ∧
    decoded_events (snd (handler σ)) = snd (walk R (globaldb σ) 0 (decoded_events σ) init) ∧
    error_log (snd (handler σ)) = error_log σ.

(** The event is one the gauge walk rewrites: its asset is known and its
    triple matches. *)
Definition gauge_hit (user_or_contract_address gauge_address : string) (raw_amount : Z)
    (db : gmap string AssetData) (e : EvmEvent) : bool :=
  match db !! asset e with
  | Some a => gauge_matches user_or_contract_address gauge_address raw_amount a e
  | None => false
  end.

(** The handler raises [x] on the state, the events from position [n] on
    are [rest], and nothing is logged. *)
Definition aborts_at {A} (handler : M A) (σ : State) (x : Exn) (n : nat)
    (rest : list EvmEvent) : Prop :=
  fst (handler σ) = Raise x ∧
  drop n (decoded_events (snd (handler σ))) = rest ∧
  error_log (snd (handler σ)) = error_log σ.

(** The handler raises on the state and the first events are [pre']. *)
Definition raises_keeping {A} (handler : M A) (σ : State) (pre' : list EvmEvent) : Prop :=
  (∃ x, fst (handler σ) = Raise x) ∧
  take (length pre') (decoded_events (snd (handler σ))) = pre'.

(** ** Proof automation *)

(** Unfold the monad and the collaborators in a loop body. *)
Ltac unfold_body :=
  unfold mbind, M_bind, mret, M_ret, resolve_to_crypto_asset, resolve_to_evm_token,
    set_token_protocol_if_missing, write_event, set_events, set_globaldb,
    round, crypto_asset_of; cbn.

(** ** A transaction for the closed examples

    The constants are the ones of the decoder's tests; the renderings of
    amounts and events are placeholders, and a topic word is turned into
    the lower-case hexadecimal form of its last twenty bytes. *)
Module Example.

Definition imports : Imports :=
  mkImports "aerodrome" "aerodrome_pool"
    (fun _ => "<amount>") (fun _ => "<event>")
    (fun value => "0x" +:+ hex (drop 12 value)).

Definition user : ChecksumEvmAddress := "0x15718b9b0dade1c17d8329a13bb9553f3b38e172".
Definition WETH_USDBC_POOL_ADDRESS : ChecksumEvmAddress :=
  "0xB4885Bc63399BF5518b994c1d0C153334Ee579D0".
Definition WUSDR_USDBC_POOL_ADDRESS : ChecksumEvmAddress :=
  "0x16119F4820f78189370a9Df276F725DCfa1fD007".
Definition WETH_USDBC_GAUGE_ADDRESS : ChecksumEvmAddress :=
  "0xeca7Ff920E7162334634c721133F3183B83B0323".
Definition WETH_USDBC_LP_TOKEN : string :=
  "eip155:8453/erc20:0xB4885Bc63399BF5518b994c1d0C153334Ee579D0".
Definition A_USDBC : string :=
  "eip155:8453/erc20:0xd9aAEc86B65D86f6A7B5B1b0c42FFA531710b6CA".

Definition self : AerodromeDecoder :=
  __init__ {[WETH_USDBC_POOL_ADDRESS; WUSDR_USDBC_POOL_ADDRESS]} {[WETH_USDBC_GAUGE_ADDRESS]}.

Definition db : gmap string AssetData :=
  <["ETH" := mkAssetData CRYPTO_ASSET "ETH" 18 None]>
  (<[A_USDBC := mkAssetData EVM_TOKEN "USDbC" 6 None]>
  (<[WETH_USDBC_LP_TOKEN := mkAssetData EVM_TOKEN "vAMM-WETH/USDbC" 18 None]>
  (<["USD" := mkAssetData FIAT "USD" 2 None]> ∅))).

(** The same database after the pool token has been tagged by another
    protocol. *)
Definition db_tagged : gmap string AssetData :=
  <[WETH_USDBC_LP_TOKEN := mkAssetData EVM_TOKEN "vAMM-WETH/USDbC" 18 (Some "velodrome_pool")]> db.

Definition gas : EvmEvent :=
  mkEvmEvent HistoryEventType.SPEND HistoryEventSubType.FEE "ETH"
    (32616099395201 # 1000000000000000000) (Some user) None (Some "gas") None
    (Some "Burned 0.000032616099395201 ETH for gas").

(** Swap of ETH for USDbC, sent to the router and received from a pool. *)
Definition spend_eth : EvmEvent :=
  mkEvmEvent HistoryEventType.SPEND HistoryEventSubType.NONE "ETH"
    (1 # 10000) (Some user) (Some ROUTER) None None None.
Definition receive_usdbc : EvmEvent :=
  mkEvmEvent HistoryEventType.RECEIVE HistoryEventSubType.NONE A_USDBC
    (163519 # 1000000) (Some user) (Some WUSDR_USDBC_POOL_ADDRESS) None None None.

(** A second spend through the same protocol. *)
Definition spend_usdbc : EvmEvent :=
  mkEvmEvent HistoryEventType.SPEND HistoryEventSubType.NONE A_USDBC
    (16186 # 100000) (Some user) (Some WETH_USDBC_POOL_ADDRESS) None None None.

(** An event whose asset is not in the database, with no shape any handler
    looks for. *)
Definition approval_of_unknown : EvmEvent :=
  mkEvmEvent HistoryEventType.INFORMATIONAL HistoryEventSubType.APPROVE "eip155:8453/erc20:0x0"
    0 (Some user) (Some ROUTER) None None None.

(** The pool token minted from the zero address, and the same amount
    staked in the gauge. *)
Definition receive_lp : EvmEvent :=
  mkEvmEvent HistoryEventType.RECEIVE HistoryEventSubType.NONE WETH_USDBC_LP_TOKEN
    (4023175857 # 1000000000000000000) (Some user) (Some ZERO_ADDRESS) None None None.
Definition stake_lp : EvmEvent :=
  mkEvmEvent HistoryEventType.SPEND HistoryEventSubType.NONE WETH_USDBC_LP_TOKEN
    (4023175857 # 1000000000000000000) (Some user) (Some WETH_USDBC_GAUGE_ADDRESS)
    None None None.

Definition tx_hash' : bytes := [xfe; xf2; x01; xa3].

Definition context_of (emitter : ChecksumEvmAddress) (topic0 : bytes) : DecoderContext :=
  mkDecoderContext (mkEvmTxReceiptLog emitter [topic0] []) (mkEvmTransaction tx_hash').

(** The word of the user's address and the payload 4023175857. *)
Definition user_word : bytes :=
  [x00; x00; x00; x00; x00; x00; x00; x00; x00; x00; x00; x00;
   x15; x71; x8b; x9b; x0d; xad; xe1; xc1; x7d; x83; x29; xa1; x3b; xb9; x55; x3f;
   x3b; x38; xe1; x72].
Definition amount_word : bytes :=
  [x00; x00; x00; x00; x00; x00; x00; x00; x00; x00; x00; x00; x00; x00; x00; x00;
   x00; x00; x00; x00; x00; x00; x00; x00; x00; x00; x00; x00; xef; xcc; xca; xb1].

Definition gauge_context (topic0 : bytes) : DecoderContext :=
  mkDecoderContext
    (mkEvmTxReceiptLog WETH_USDBC_GAUGE_ADDRESS [topic0; user_word] amount_word) (mkEvmTransaction tx_hash').

Definition state (events : list EvmEvent) : State := mkState events db [].

Definition swap_context : DecoderContext := context_of WUSDR_USDBC_POOL_ADDRESS SWAP.

(** The swap of the tests, the same swap without its receive leg, a
    transaction with two spends through the protocol, and one with an
    event of an unknown asset after the spend. *)
Definition swap : State := state [gas; spend_eth; receive_usdbc].
Definition only_spend : State := state [gas; spend_eth].
Definition two_spends : State := state [spend_eth; spend_usdbc; receive_usdbc].
Definition spend_then_unknown : State := state [spend_eth; approval_of_unknown; receive_usdbc].

(** A deposit into the pool followed by the staking of the pool token, with
    the pool token untagged and tagged by another protocol. *)
Definition add_context : DecoderContext := context_of WETH_USDBC_POOL_ADDRESS ADD_LIQUIDITY_EVENT.
Definition remove_context : DecoderContext :=
  context_of WETH_USDBC_POOL_ADDRESS REMOVE_LIQUIDITY_EVENT.
Definition deposit : State := state [gas; spend_usdbc; receive_lp].
Definition deposit_tagged : State := mkState [gas; spend_usdbc; receive_lp] db_tagged [].
Definition stake : State := state [gas; stake_lp].
Definition stake_tagged : State := mkState [gas; stake_lp] db_tagged [].

(** Two assets leaving the pool against the pool token. *)
Definition return_lp : EvmEvent :=
  mkEvmEvent HistoryEventType.SPEND HistoryEventSubType.NONE WETH_USDBC_LP_TOKEN
    (4023175857 # 1000000000000000000) (Some user) (Some WETH_USDBC_POOL_ADDRESS)
    None None None.
Definition receive_usdbc_from_pool : EvmEvent :=
  mkEvmEvent HistoryEventType.RECEIVE HistoryEventSubType.NONE A_USDBC
    (163143 # 1000000) (Some user) (Some WETH_USDBC_POOL_ADDRESS) None None None.
Definition withdrawal : State := state [gas; return_lp; receive_usdbc_from_pool].

(** A deposit with an event of an unknown asset in the middle. *)
Definition deposit_then_unknown : State :=
  state [spend_usdbc; approval_of_unknown; receive_lp].
Definition return_then_unknown : State :=
  state [return_lp; approval_of_unknown; receive_usdbc_from_pool].
Definition stake_then_unknown : State := state [stake_lp; approval_of_unknown; stake_lp].

(** The swap of the tests once decoded. *)
Definition swapped : State :=
  state (map (swap_scanned (imports := imports) self db) [gas; spend_eth; receive_usdbc]).

End Example.

(** ** Registration and listings of the decoder

    The remaining methods of [AerodromeDecoder]: [addresses_to_decoders],
    [possible_events], [possible_products] and [counterparties]. *)

(** [EventCategory], with the members [possible_events] mentions. *)
Module EventCategory.
Inductive t := SWAP_OUT | SWAP_IN | WITHDRAW | RECEIVE | CLAIM_REWARD | SEND | DEPOSIT.
End EventCategory.

(** [CounterpartyDetails] *)
Record CounterpartyDetails := mkCounterpartyDetails {
  identifier : string;
  label : string;
  image : string;
}.

(** [d.get(k)] for a dict written as a literal, in the order of the literal. *)
Fixpoint dict_get {K V} `{EqDecision K} (d : list (K * V)) (k : K) : option V :=
  match d with
  | [] => None
  | (k', v) :: d' => if decide (k' = k) then Some v else dict_get d' k
  end.

Section Listings.
Context {imports : Imports}.

(** [addresses_to_decoders]: the pools are mapped to the pool handler, then
    the mapping is updated with the gauges mapped to the gauge handler, so an
    address that is both gets the gauge handler. *)
Definition addresses_to_decoders (self : AerodromeDecoder)
    : gmap ChecksumEvmAddress (list (DecoderContext -> M DecodingOutput)) :=
  let mapping := gset_to_gmap [_decode_pool_events self] (pools self) in
  gset_to_gmap [_decode_gauge_events] (gauges self) ∪ mapping.

(** [possible_events] *)
Definition possible_events
    : list (string *
            list (HistoryEventType.t * list (HistoryEventSubType.t * EventCategory.t))) :=
  [(CPT_AERODROME,
    [(HistoryEventType.TRADE,
      [(HistoryEventSubType.SPEND, EventCategory.SWAP_OUT);
       (HistoryEventSubType.RECEIVE, EventCategory.SWAP_IN)]);
     (HistoryEventType.WITHDRAWAL,
      [(HistoryEventSubType.REMOVE_ASSET, EventCategory.WITHDRAW)]);
     (HistoryEventType.RECEIVE,
      [(HistoryEventSubType.RECEIVE_WRAPPED, EventCategory.RECEIVE);
       (HistoryEventSubType.REWARD, EventCategory.CLAIM_REWARD)]);
     (HistoryEventType.SPEND,
      [(HistoryEventSubType.RETURN_WRAPPED, EventCategory.SEND)]);
     (HistoryEventType.DEPOSIT,
      [(HistoryEventSubType.DEPOSIT_ASSET, EventCategory.DEPOSIT)])])].

(** [possible_products] *)
Definition possible_products : list (string * list EvmProduct.t) :=
  [(CPT_AERODROME, [EvmProduct.POOL; EvmProduct.GAUGE])].

(** [counterparties] *)
Definition counterparties : list CounterpartyDetails :=
  [mkCounterpartyDetails CPT_AERODROME "aerodrome_finance" "aerodrome.svg"].

(** The entry of [possible_events] under the counterparty, type and subtype
    of an event: [possible_events()[counterparty][event_type][event_subtype]]
    where all three keys are present. *)
Definition listed_category (e : EvmEvent) : option EventCategory.t :=
  match counterparty e with
  | None => None
  | Some cpt =>
      match dict_get possible_events cpt with
      | None => None
      | Some by_type =>
          match dict_get by_type (event_type e) with
          | None => None
          | Some by_subtype => dict_get by_subtype (event_subtype e)
          end
      end
  end.

(** The product of the event is one [possible_products] lists under the
    counterparty of the event. *)
Definition listed_product (e : EvmEvent) : bool :=
  match counterparty e, product e with
  | Some cpt, Some p =>
      match dict_get possible_products cpt with
      | Some products => bool_decide (p ∈ products)
      | None => false
      end
  | _, _ => false
  end.

(** The event carries the counterparty that [counterparties] declares, and
    a type and subtype that [possible_events] lists under it. *)
Definition well_listed (e' : EvmEvent) : Prop :=
  is_Some (listed_category e') ∧
  (∃ c, c ∈ counterparties ∧ counterparty e' = Some (identifier c)).

End Listings.

(** ** What the handlers leave alone *)

(** The fields of an event that come from upstream and identify the
    transfer. *)
Definition upstream_fields (e : EvmEvent)
    : string * FVal * option string * option ChecksumEvmAddress :=
  (asset e, balance_amount e, location_label e, address e).

(** The event has been classified: it is neither SPEND/NONE nor
    RECEIVE/NONE. *)
Definition is_classified (e : EvmEvent) : bool :=
  negb (is_raw HistoryEventType.SPEND e) && negb (is_raw HistoryEventType.RECEIVE e).

(** The event [e'] is what a round [R] can leave of the event [e]: the
    event itself, or the rewritten event when the asset resolved. *)
Definition round_result {L} (R : Round L) (db : gmap string AssetData)
    (e e' : EvmEvent) : Prop :=
  e' = e ∨ ∃ a, crypto_asset_of db (asset e) = Return a ∧ e' = reclassify R a e.

(** More transactions for the closed examples. *)
Module Example2.

(** The minted pool token recorded with ETH as its asset: a crypto asset
    that is no EVM token. *)
Definition receive_eth_from_zero : EvmEvent :=
  mkEvmEvent HistoryEventType.RECEIVE HistoryEventSubType.NONE "ETH"
    (1 # 10000) (Some Example.user) (Some ZERO_ADDRESS) None None None.
Definition stake_eth : EvmEvent :=
  mkEvmEvent HistoryEventType.SPEND HistoryEventSubType.NONE "ETH"
    (4023175857 # 1000000000000000000) (Some Example.user)
    (Some Example.WETH_USDBC_GAUGE_ADDRESS) None None None.

Definition mint_of_eth : State :=
  Example.state [Example.spend_usdbc; receive_eth_from_zero; Example.receive_lp].
Definition stake_of_eth : State :=
  Example.state [Example.stake_lp; stake_eth; Example.stake_lp].

(** An unknown first topic, and a log without topics. *)
Definition unknown_topic : bytes := [x00; x01].
Definition unknown_context : DecoderContext :=
  Example.context_of Example.WETH_USDBC_POOL_ADDRESS unknown_topic.
Definition no_topics_context : DecoderContext :=
  mkDecoderContext (mkEvmTxReceiptLog Example.WETH_USDBC_POOL_ADDRESS [] [])
    (mkEvmTransaction Example.tx_hash').
Definition gauge_one_topic_context : DecoderContext :=
  Example.context_of Example.WETH_USDBC_GAUGE_ADDRESS GAUGE_DEPOSIT.

(** A deposit and a withdrawal in one transaction. *)
Definition deposit_and_withdrawal : State :=
  Example.state [Example.gas; Example.spend_usdbc; Example.receive_usdbc_from_pool].

End Example2.

(** ** The walks refine the loops *)

Lemma tagged_from_refl p db : tagged_from p db db.
Proof. intros id. by left. Qed.

Lemma tagged_from_trans p db1 db2 db3 :
  tagged_from p db1 db2 → tagged_from p db2 db3 → tagged_from p db1 db3.
Proof.
  intros H12 H23 id.
  destruct (H12 id) as [E12 | (a & Ha & Hnone & E12)];
    destruct (H23 id) as [E23 | (b & Hb & Hbnone & E23)].
  - left. congruence.
  - right. exists b. rewrite <- E12. done.
  - right. exists a. rewrite E23. done.
  - rewrite E12 in Hb. injection Hb as <-. discriminate Hbnone.
Qed.

Lemma crypto_asset_of_tagged p db db' id :
  tagged_from p db db' → crypto_asset_of db' id = crypto_asset_of db id.
Proof.
  intros H. unfold crypto_asset_of.
  destruct (H id) as [-> | (a & -> & _ & ->)]; [done |].
  simpl. by destruct (asset_kind a).
Qed.

Section Refinement.
Context {L : Type} (R : Round L) (T : relation (gmap string AssetData))
  (body : nat -> EvmEvent -> L -> M L).
Hypothesis T_refl : ∀ db, T db db.
Hypothesis T_trans : ∀ db1 db2 db3, T db1 db2 → T db2 db3 → T db1 db3.
Hypothesis T_resolve : ∀ db db' id, T db db' → crypto_asset_of db' id = crypto_asset_of db id.

Lemma walk_related db db' events :
  T db db' → ∀ i locals, walk R db' i events locals = walk R db i events locals.
Proof.
  intros H. induction events as [| e rest IH]; intros i locals; [done |].
  cbn [walk]. unfold round. rewrite (T_resolve db db') by done.
  fold (round R db i e locals).
  destruct (round R db i e locals) as [[locals' | x] e']; [| done].
  by rewrite IH.
Qed.

Lemma for_in_walk (Hbody : body_is_round R T body) todo :
  ∀ done locals σ,
    decoded_events σ = done ++ todo →
    ∃ db', T (globaldb σ) db' ∧
      for_in body (length todo) (length done) locals σ =
        (fst (walk R (globaldb σ) (length done) todo locals),
         mkState (done ++ snd (walk R (globaldb σ) (length done) todo locals))
           db' (error_log σ)).
Proof.
  induction todo as [| e rest IH]; intros done locals σ Hσ.
  - exists (globaldb σ). split; [apply T_refl |].
    destruct σ as [evs db log]. simpl in *. by subst.
  - assert (Hi : decoded_events σ !! length done = Some e)
      by (rewrite Hσ; apply list_lookup_middle; done).
    destruct (Hbody _ _ locals _ Hi) as (db1 & Htag1 & Hb).
    cbn [length for_in walk]. rewrite Hi, Hb.
    destruct (round R (globaldb σ) (length done) e locals) as [[locals' | x] e'];
      cbn [fst snd].
    + set (σ1 := mkState (<[length done := e']> (decoded_events σ)) db1 (error_log σ)).
      assert (Hσ1 : decoded_events σ1 = (done ++ [e']) ++ rest).
      { subst σ1. cbn. rewrite Hσ, insert_app_r_alt, Nat.sub_diag by lia.
        cbn. by rewrite <- app_assoc. }
      destruct (IH (done ++ [e']) locals' σ1 Hσ1) as (db2 & Htag2 & Hfor).
      exists db2. split; [by eapply T_trans |].
      rewrite length_app, Nat.add_1_r in Hfor. cbn [length] in Hfor.
      rewrite Hfor. subst σ1. cbn [globaldb error_log].
      rewrite (walk_related (globaldb σ) db1) by done.
      destruct (walk R (globaldb σ) (S (length done)) rest locals') as [o rest'].
      cbn. by rewrite <- app_assoc.
    + exists db1. split; [done |].
      rewrite Hσ, insert_app_r_alt, Nat.sub_diag by lia. done.
Qed.

(** The loop over the whole list. *)
Lemma for_event_in_walk (Hbody : body_is_round R T body) locals σ :
  ∃ db', T (globaldb σ) db' ∧
    for_event_in_decoded_events body locals σ =
      (fst (walk R (globaldb σ) 0 (decoded_events σ) locals),
       mkState (snd (walk R (globaldb σ) 0 (decoded_events σ) locals)) db' (error_log σ)).
Proof.
  destruct (for_in_walk Hbody (decoded_events σ) [] locals σ eq_refl) as (db' & Htag & H).
  exists db'. split; [done |]. exact H.
Qed.

End Refinement.

(** ** Each loop body is its round *)

Lemma tagged_from_insert p db id a :
  db !! id = Some a → protocol a = None →
  tagged_from p db (<[id := tagged p a]> db).
Proof.
  intros Ha Hnone id'. destruct (decide (id = id')) as [<- | Hne].
  - right. exists a. by rewrite lookup_insert_eq.
  - left. by rewrite lookup_insert_ne.
Qed.

Lemma state_eta σ : mkState (decoded_events σ) (globaldb σ) (error_log σ) = σ.
Proof. by destruct σ. Qed.

Lemma unwritten_event σ i e :
  decoded_events σ !! i = Some e →
  mkState (<[i := e]> (decoded_events σ)) (globaldb σ) (error_log σ) = σ.
Proof. intros H. rewrite list_insert_id by done. apply state_eta. Qed.

(** Close a goal about a body that leaves the database as it is. *)
Ltac same_db :=
  eexists; split; [first [reflexivity | apply tagged_from_refl] |]; rewrite ?unwritten_event by eassumption.

Section Bodies.
Context {imports : Imports}.

Lemma swap_body_round self : body_is_round (swap_round self) eq (swap_body self).
Proof.
  intros i e [s r] σ Hi. exists (globaldb σ). split; [done |].
  unfold swap_body. unfold_body.
  destruct (globaldb σ !! asset e) as [a |]; [| by rewrite unwritten_event].
  destruct (asset_kind a); cbn; try (by rewrite unwritten_event);
    fold (swap_spend_candidate self e); fold (swap_receive_candidate self e);
    destruct (swap_spend_candidate self e); cbn; try done;
    destruct (swap_receive_candidate self e); cbn; try done;
    by rewrite unwritten_event.
Qed.

Lemma remove_liquidity_body_round self tx_log' :
  body_is_round (remove_liquidity_round self tx_log') eq (remove_liquidity_body self tx_log').
Proof.
  intros i e [] σ Hi. exists (globaldb σ). split; [done |].
  unfold remove_liquidity_body. unfold_body.
  destruct (globaldb σ !! asset e) as [a |]; [| by rewrite unwritten_event].
  destruct (asset_kind a); cbn; try (by rewrite unwritten_event);
    fold (remove_liquidity_return self e); fold (remove_liquidity_withdrawal self e);
    destruct (remove_liquidity_return self e); cbn; try done;
    destruct (remove_liquidity_withdrawal self e); cbn; try done;
    by rewrite unwritten_event.
Qed.

Lemma add_liquidity_body_round self tx_log' :
  body_is_round (add_liquidity_round self tx_log') (tagged_from AERODROME_POOL_PROTOCOL)
    (add_liquidity_body self tx_log').
Proof.
  intros i e [] σ Hi.
  unfold add_liquidity_body. unfold_body.
  destruct (globaldb σ !! asset e) as [a |] eqn:Ha; [| by same_db].
  fold (add_liquidity_deposit self e). fold (add_liquidity_receive e).
  destruct (asset_kind a) eqn:Hkind; cbn; [by same_db | |].
  all: destruct (add_liquidity_deposit self e); cbn; [by same_db |].
  all: destruct (add_liquidity_receive e); cbn; [| by same_db].
  all: rewrite Ha, Hkind; cbn.
  - by same_db.
  - rewrite Ha. destruct (protocol a) eqn:Hp; [by same_db |].
    eexists. split; [by apply tagged_from_insert | done].
Qed.

Lemma gauge_body_round topic0 user gauge_address raw_amount :
  body_is_round (gauge_round topic0 user gauge_address raw_amount)
    (tagged_from AERODROME_POOL_PROTOCOL)
    (gauge_body topic0 user gauge_address raw_amount).
Proof.
  intros i e found σ Hi.
  unfold gauge_body. unfold_body.
  destruct (globaldb σ !! asset e) as [a |] eqn:Ha; [| by same_db].
  destruct (asset_kind a) eqn:Hkind; cbn; [by same_db | |].
  all: change (bool_decide (location_label e = Some user)
               && bool_decide (address e = Some gauge_address)
               && Qeq_bool (balance_amount e) (asset_normalized_value raw_amount a))
         with (gauge_matches user gauge_address raw_amount a e).
  all: change (gauge_matches user gauge_address raw_amount (untagged a) e)
         with (gauge_matches user gauge_address raw_amount a e).
  all: destruct (gauge_matches user gauge_address raw_amount a e); cbn; [| by same_db].
  all: unfold gauge_event; destruct (bool_decide (topic0 = GAUGE_DEPOSIT)); cbn;
    [| by destruct (bool_decide (topic0 = GAUGE_WITHDRAW)); cbn; same_db].
  all: rewrite Ha, Hkind; cbn.
  - by same_db.
  - rewrite Ha. destruct (protocol a) eqn:Hp; [by same_db |].
    eexists. split; [by apply tagged_from_insert | done].
Qed.

End Bodies.

(** ** Facts about walks *)

Section WalkFacts.
Context {L : Type} (R : Round L) (db : gmap string AssetData).

Lemma round_of_ok i e locals :
  round_ok R db e = true →
  ∃ a, crypto_asset_of db (asset e) = Return a ∧
       round R db i e locals = (Return (locals_after R i a e locals), reclassify R a e).
Proof.
  unfold round_ok, round. destruct (crypto_asset_of db (asset e)) as [a | x]; [| done].
  intros Hok. exists a. split; [done |].
  destruct (tags_token R a e); [| done].
  cbn in Hok. by rewrite Hok.
Qed.

(** A walk in which no round raises returns, and rewrites every event. *)
Lemma walk_ok events :
  ∀ i locals,
    forallb (round_ok R db) events = true →
    walk R db i events locals =
      (Return (walk_locals R db i events locals), map (reclassified R db) events).
Proof.
  induction events as [| e rest IH]; intros i locals Hok; [done |].
  cbn in Hok. apply andb_prop in Hok as [He Hrest].
  destruct (round_of_ok i e locals He) as (a & Ha & Hround).
  cbn [walk walk_locals map]. unfold reclassified at 1. rewrite Hround, Ha.
  by rewrite IH.
Qed.

(** A walk runs through a prefix in which no round raises. *)
Lemma walk_app pre post :
  ∀ i locals,
    forallb (round_ok R db) pre = true →
    walk R db i (pre ++ post) locals =
      (fst (walk R db (i + length pre) post (walk_locals R db i pre locals)),
       map (reclassified R db) pre
         ++ snd (walk R db (i + length pre) post (walk_locals R db i pre locals))).
Proof.
  induction pre as [| e rest IH]; intros i locals Hok.
  - cbn. rewrite Nat.add_0_r. by destruct (walk R db i post locals).
  - cbn in Hok. apply andb_prop in Hok as [He Hrest].
    destruct (round_of_ok i e locals He) as (a & Ha & Hround).
    cbn [app walk walk_locals map length]. unfold reclassified at 1.
    rewrite Hround, Ha, IH by done.
    by replace (S i + length rest) with (i + S (length rest)) by lia.
Qed.

(** The walk stops at the first event whose asset does not resolve; the
    events before it are rewritten, that event and the ones after it are
    not. *)
Lemma walk_unresolved pre e post x i locals :
  forallb (round_ok R db) pre = true →
  crypto_asset_of db (asset e) = Raise x →
  walk R db i (pre ++ e :: post) locals =
    (Raise x, map (reclassified R db) pre ++ e :: post).
Proof.
  intros Hpre He. rewrite walk_app by done.
  cbn [walk]. unfold round. by rewrite He.
Qed.

(** The walk also stops at an event it has rewritten when the token of
    that event is to be tagged and is no EVM token. *)
Lemma walk_not_token pre e post a i locals :
  forallb (round_ok R db) pre = true →
  crypto_asset_of db (asset e) = Return a →
  tags_token R a e = true →
  asset_kind a ≠ EVM_TOKEN →
  walk R db i (pre ++ e :: post) locals =
    (Raise (WrongAssetType (asset e)),
     map (reclassified R db) pre ++ reclassify R a e :: post).
Proof.
  intros Hpre He Htag Hkind. rewrite walk_app by done.
  cbn [walk]. unfold round. rewrite He, Htag.
  by rewrite bool_decide_eq_false_2.
Qed.

(** Either no round raises, or there is a first one that does. *)
Lemma first_raise events :
  forallb (round_ok R db) events = true ∨
  ∃ pre e post, events = pre ++ e :: post ∧
    forallb (round_ok R db) pre = true ∧ round_ok R db e = false.
Proof.
  induction events as [| e rest IH]; [by left |].
  destruct (round_ok R db e) eqn:He.
  - destruct IH as [Hok | (pre & e' & post & -> & Hpre & He')].
    + left. cbn. by rewrite He.
    + right. exists (e :: pre), e', post. cbn. by rewrite He.
  - right. by exists [], e, rest.
Qed.

Lemma round_not_ok e :
  round_ok R db e = false →
  (∃ x, crypto_asset_of db (asset e) = Raise x) ∨
  (∃ a, crypto_asset_of db (asset e) = Return a ∧ tags_token R a e = true
        ∧ asset_kind a ≠ EVM_TOKEN).
Proof.
  unfold round_ok. destruct (crypto_asset_of db (asset e)) as [a | x]; [| by eauto].
  intros H. right. exists a. destruct (tags_token R a e); [| done].
  cbn in H. by apply bool_decide_eq_false_1 in H.
Qed.

(** A walk that returns has met no round that raises. *)
Lemma walk_returns events i locals locals' :
  fst (walk R db i events locals) = Return locals' →
  forallb (round_ok R db) events = true.
Proof.
  intros Hret.
  destruct (first_raise events) as [Hok | (pre & e & post & -> & Hpre & He)]; [done |].
  destruct (round_not_ok e He) as [[x Hx] | (a & Ha & Htag & Hkind)].
  - by rewrite (walk_unresolved pre e post x) in Hret.
  - by rewrite (walk_not_token pre e post a) in Hret.
Qed.

(** A walk keeps the events in place. *)
Lemma walk_length events : ∀ i locals, length (snd (walk R db i events locals)) = length events.
Proof.
  induction events as [| e rest IH]; intros i locals; [done |].
  cbn [walk]. destruct (round R db i e locals) as [[locals' | x] e']; [| done].
  specialize (IH (S i) locals'). destruct (walk R db (S i) rest locals'). cbn in *. lia.
Qed.

(** A walk over events that no round rewrites changes nothing, whether it
    raises or not. *)
Lemma walk_fixed events :
  (∀ e a, e ∈ events → reclassify R a e = e) →
  ∀ i locals, snd (walk R db i events locals) = events.
Proof.
  induction events as [| e rest IH]; intros Hfix i locals; [done |].
  cbn [walk]. unfold round.
  destruct (crypto_asset_of db (asset e)) as [a | x]; [| done].
  rewrite (Hfix e a) by apply list_elem_of_here.
  destruct (tags_token R a e && negb (bool_decide (asset_kind a = EVM_TOKEN))); [done |].
  specialize (IH (λ e' a' H, Hfix e' a' (list_elem_of_further _ _ _ H))
                 (S i) (locals_after R i a e locals)).
  destruct (walk R db (S i) rest (locals_after R i a e locals)). cbn in *. by subst.
Qed.

Lemma reclassified_lookup events i e :
  events !! i = Some e →
  map (reclassified R db) events !! i = Some (reclassified R db e).
Proof. intros H. by rewrite list_lookup_fmap, H. Qed.

End WalkFacts.

(** ** Last candidates *)

Section LastCandidate.
Context (P : EvmEvent -> bool).

Lemma last_candidate_from_none events :
  ∀ i found,
    last_candidate_from P i events found = None ↔
    found = None ∧ forallb (λ e, negb (P e)) events = true.
Proof.
  induction events as [| e rest IH]; intros i found; cbn.
  - by intuition.
  - rewrite IH. destruct (P e); cbn; [by intuition | tauto].
Qed.

Lemma last_candidate_from_some events :
  ∀ i found k,
    last_candidate_from P i events found = Some k →
    (found = Some k ∧ forallb (λ e, negb (P e)) events = true) ∨
    ((i ≤ k)%nat ∧ ∃ e, events !! (k - i) = Some e ∧ P e = true ∧
       forallb (λ e, negb (P e)) (drop (S (k - i)) events) = true).
Proof.
  induction events as [| e rest IH]; intros i found k; cbn.
  - by left.
  - intros H. apply IH in H as [[Hfound Hrest] | (Hle & e' & He' & HP & Hafter)].
    + destruct (P e) eqn:HPe.
      * injection Hfound as <-. right. split; [done |].
        exists e. rewrite Nat.sub_diag. cbn. by rewrite drop_0.
      * left. by rewrite Hfound.
    + right. split; [lia |]. exists e'.
      replace (k - i) with (S (k - S i)) by lia. done.
Qed.

Lemma last_candidate_none events :
  last_candidate P events = None ↔ forallb (λ e, negb (P e)) events = true.
Proof. unfold last_candidate. rewrite last_candidate_from_none. tauto. Qed.

Lemma last_candidate_some events k :
  last_candidate P events = Some k →
  ∃ e, events !! k = Some e ∧ P e = true ∧
       forallb (λ e, negb (P e)) (drop (S k) events) = true.
Proof.
  intros H. apply last_candidate_from_some in H as [[? _] | (_ & e & H)]; [done |].
  rewrite Nat.sub_0_r in H. by exists e.
Qed.

End LastCandidate.

(** ** The handlers in terms of their walks *)

Lemma eq_trans_db (db1 db2 db3 : gmap string AssetData) : db1 = db2 → db2 = db3 → db1 = db3.
Proof. congruence. Qed.

Lemma eq_resolve (db db' : gmap string AssetData) id :
  db = db' → crypto_asset_of db' id = crypto_asset_of db id.
Proof. by intros ->. Qed.

Section Handlers.
Context {imports : Imports}.

Lemma decode_swap_run self context σ :
  _decode_swap self context σ =
    let w := walk (swap_round self) (globaldb σ) 0 (decoded_events σ) (None, None) in
    match fst w with
    | Raise x => (Raise x, set_events (snd w) σ)
    | Return (Some s, Some r) =>
        (Return DEFAULT_DECODING_OUTPUT, set_events (splice_after s r (snd w)) σ)
    | Return (s, r) =>
        (Return DEFAULT_DECODING_OUTPUT,
         mkState (snd w) (globaldb σ)
           (error_log σ ++ [swap_diagnostic context (str_ref s (snd w)) (str_ref r (snd w))]))
    end.
Proof.
  unfold _decode_swap, mbind, M_bind.
  destruct (for_event_in_walk (swap_round self) eq (swap_body self)
              (λ _, eq_refl) eq_trans_db eq_resolve (swap_body_round self) (None, None) σ)
    as (db' & <- & ->).
  cbn zeta.
  destruct (walk (swap_round self) (globaldb σ) 0 (decoded_events σ) (None, None))
    as [[[[s |] [r |]] | x] evs]; cbn; done.
Qed.

Lemma decode_remove_liquidity_run self tx_log' σ :
  _decode_remove_liquidity_events self tx_log' σ =
    let w := walk (remove_liquidity_round self tx_log') (globaldb σ) 0 (decoded_events σ) tt in
    (match fst w with
     | Raise x => Raise x
     | Return _ => Return DEFAULT_DECODING_OUTPUT
     end, set_events (snd w) σ).
Proof.
  unfold _decode_remove_liquidity_events, mbind, M_bind.
  destruct (for_event_in_walk (remove_liquidity_round self tx_log') eq
              (remove_liquidity_body self tx_log')
              (λ _, eq_refl) eq_trans_db eq_resolve
              (remove_liquidity_body_round self tx_log') tt σ)
    as (db' & <- & ->).
  cbn zeta.
  by destruct (walk (remove_liquidity_round self tx_log') (globaldb σ) 0 (decoded_events σ) tt)
    as [[[] | x] evs].
Qed.

Lemma decode_add_liquidity_run self tx_log' σ :
  ∃ db', tagged_from AERODROME_POOL_PROTOCOL (globaldb σ) db' ∧
    _decode_add_liquidity_events self tx_log' σ =
      let w := walk (add_liquidity_round self tx_log') (globaldb σ) 0 (decoded_events σ) tt in
      (match fst w with
       | Raise x => Raise x
       | Return _ => Return DEFAULT_DECODING_OUTPUT
       end, mkState (snd w) db' (error_log σ)).
Proof.
  unfold _decode_add_liquidity_events, mbind, M_bind.
  destruct (for_event_in_walk (add_liquidity_round self tx_log')
              (tagged_from AERODROME_POOL_PROTOCOL)
              (add_liquidity_body self tx_log')
              (tagged_from_refl _) (tagged_from_trans _) (crypto_asset_of_tagged _)
              (add_liquidity_body_round self tx_log') tt σ)
    as (db' & Htag & ->).
  exists db'. split; [done |]. cbn zeta.
  by destruct (walk (add_liquidity_round self tx_log') (globaldb σ) 0 (decoded_events σ) tt)
    as [[[] | x] evs].
Qed.

(** The gauge handler past its guard, for a log with two topics. *)
Lemma decode_gauge_run context topic0 topic1 σ :
  topics (tx_log context) !! 0 = Some topic0 →
  topics (tx_log context) !! 1 = Some topic1 →
  is_gauge_topic topic0 = true →
  ∃ db', tagged_from AERODROME_POOL_PROTOCOL (globaldb σ) db' ∧
    _decode_gauge_events context σ =
      let w := walk (gauge_round topic0 (hex_or_bytes_to_address topic1)
                       (log_address (tx_log context))
                       (hex_or_bytes_to_int (data (tx_log context))))
                 (globaldb σ) 0 (decoded_events σ) false in
      (match fst w with
       | Raise x => Raise x
       | Return found => Return (mkDecodingOutput found)
       end, mkState (snd w) db' (error_log σ)).
Proof.
  intros H0 H1 Htopic.
  unfold _decode_gauge_events, mbind, M_bind, getitem. rewrite H0. cbn.
  unfold is_gauge_topic in Htopic. rewrite Htopic. cbn. rewrite H1. cbn.
  destruct (for_event_in_walk
              (gauge_round topic0 (hex_or_bytes_to_address topic1)
                 (log_address (tx_log context)) (hex_or_bytes_to_int (data (tx_log context))))
              (tagged_from AERODROME_POOL_PROTOCOL)
              (gauge_body topic0 (hex_or_bytes_to_address topic1)
                 (log_address (tx_log context)) (hex_or_bytes_to_int (data (tx_log context))))
              (tagged_from_refl _) (tagged_from_trans _) (crypto_asset_of_tagged _)
              (gauge_body_round _ _ _ _) false σ)
    as (db' & Htag & ->).
  exists db'. split; [done |].
  by destruct (walk _ (globaldb σ) 0 (decoded_events σ) false) as [[found | x] evs].
Qed.

(** The dispatch of [_decode_pool_events] on the first topic. *)
Lemma decode_pool_events_swap self context :
  topics (tx_log context) !! 0 = Some SWAP →
  _decode_pool_events self context = _decode_swap self context.
Proof.
  intros H. unfold _decode_pool_events, getitem, mbind, M_bind. rewrite H. done.
Qed.

Lemma decode_pool_events_add self context :
  topics (tx_log context) !! 0 = Some ADD_LIQUIDITY_EVENT →
  _decode_pool_events self context = _decode_add_liquidity_events self (tx_log context).
Proof.
  intros H. unfold _decode_pool_events, getitem, mbind, M_bind. rewrite H. done.
Qed.

Lemma decode_pool_events_remove self context :
  topics (tx_log context) !! 0 = Some REMOVE_LIQUIDITY_EVENT →
  _decode_pool_events self context = _decode_remove_liquidity_events self (tx_log context).
Proof.
  intros H. unfold _decode_pool_events, getitem, mbind, M_bind. rewrite H. done.
Qed.

End Handlers.

(** ** Splicing the receive leg after the spend leg *)

Section Splice.
Context (events : list EvmEvent) (s r : nat) (spend receive : EvmEvent).
Hypothesis Hs : events !! s = Some spend.
Hypothesis Hr : events !! r = Some receive.
Hypothesis Hsr : s ≠ r.

Lemma spend_position_lookup : delete r events !! spend_position s r = Some spend.
Proof.
  unfold spend_position. destruct (decide (r < s)).
  - rewrite list_lookup_delete_ge by lia. by replace (S (s - 1)) with s by lia.
  - rewrite list_lookup_delete_lt by lia. done.
Qed.

Lemma spend_position_lt : spend_position s r < length (delete r events).
Proof. eapply lookup_lt_Some, spend_position_lookup. Qed.

Lemma splice_after_unfold :
  splice_after s r events =
    take (S (spend_position s r)) (delete r events)
      ++ receive :: drop (S (spend_position s r)) (delete r events).
Proof. unfold splice_after. by rewrite Hr. Qed.

Lemma splice_after_spend : splice_after s r events !! spend_position s r = Some spend.
Proof.
  rewrite splice_after_unfold, lookup_app_l.
  - rewrite lookup_take_lt by lia. apply spend_position_lookup.
  - rewrite length_take. pose proof spend_position_lt. lia.
Qed.

Lemma splice_after_receive :
  splice_after s r events !! S (spend_position s r) = Some receive.
Proof.
  rewrite splice_after_unfold.
  assert (Hlen : length (take (S (spend_position s r)) (delete r events))
                 = S (spend_position s r))
    by (rewrite length_take; pose proof spend_position_lt; lia).
  rewrite <- Hlen at 1. by apply list_lookup_middle.
Qed.

Lemma splice_after_others :
  delete (S (spend_position s r)) (splice_after s r events) = delete r events.
Proof.
  rewrite splice_after_unfold.
  assert (Hlen : length (take (S (spend_position s r)) (delete r events))
                 = S (spend_position s r))
    by (rewrite length_take; pose proof spend_position_lt; lia).
  rewrite <- Hlen at 1. rewrite delete_middle. apply take_drop.
Qed.

Lemma splice_after_perm : splice_after s r events ≡ₚ events.
Proof.
  rewrite splice_after_unfold, <- Permutation_middle, take_drop.
  symmetry. by apply delete_Permutation.
Qed.

End Splice.

(** ** The scan of the swap handler *)

Lemma resolves_lookup db e :
  resolves db e = true →
  ∃ a, db !! asset e = Some a ∧ asset_kind a ≠ FIAT
       ∧ crypto_asset_of db (asset e) = Return (untagged a).
Proof.
  unfold resolves, crypto_asset_of.
  destruct (db !! asset e) as [a |]; [| done].
  intros H. exists a. by destruct (asset_kind a).
Qed.

Lemma unresolved_lookup db e :
  resolves db e = false →
  (db !! asset e = None ∧ crypto_asset_of db (asset e) = Raise (UnknownAsset (asset e))) ∨
  (∃ a, db !! asset e = Some a ∧ asset_kind a = FIAT
        ∧ crypto_asset_of db (asset e) = Raise (WrongAssetType (asset e))).
Proof.
  unfold resolves, crypto_asset_of.
  destruct (db !! asset e) as [a |]; [| by left].
  intros H. right. exists a. by destruct (asset_kind a).
Qed.

Lemma round_ok_resolves {L} (R : Round L) db e :
  round_ok R db e = true → resolves db e = true.
Proof. unfold round_ok, resolves. by destruct (crypto_asset_of db (asset e)). Qed.

(** A round that tags no token raises only when the asset does not resolve. *)
Lemma round_ok_untagging {L} (R : Round L) db e :
  (∀ a, tags_token R a e = false) → round_ok R db e = resolves db e.
Proof.
  intros H. unfold round_ok, resolves.
  destruct (crypto_asset_of db (asset e)) as [a | x]; [| done]. by rewrite H.
Qed.

Lemma forallb_ext_eq {A} (f g : A → bool) (l : list A) :
  (∀ x, f x = g x) → forallb f l = forallb g l.
Proof. intros H. induction l as [| x l IH]; [done |]. cbn. by rewrite H, IH. Qed.

Section SwapScan.
Context {imports : Imports} (self : AerodromeDecoder).

Lemma swap_candidates_exclusive e :
  swap_spend_candidate self e = true → swap_receive_candidate self e = false.
Proof.
  unfold swap_spend_candidate, swap_receive_candidate, is_raw.
  destruct (event_type e); done.
Qed.

Lemma swap_raises_nothing σ : raises_nothing (swap_round self) σ = all_resolve σ.
Proof. apply forallb_ext_eq. intros e. by apply round_ok_untagging. Qed.

(** The locals of the scan are the last candidate of each kind. *)
Lemma swap_walk_locals db events :
  ∀ i s r,
    forallb (resolves db) events = true →
    walk_locals (swap_round self) db i events (s, r) =
      (last_candidate_from (swap_spend_candidate self) i events s,
       last_candidate_from (swap_receive_candidate self) i events r).
Proof.
  induction events as [| e rest IH]; intros i s r Hres; [done |].
  cbn in Hres. apply andb_prop in Hres as [He Hrest].
  destruct (resolves_lookup db e He) as (a & _ & _ & Ha).
  cbn [walk_locals last_candidate_from]. rewrite Ha. cbn [locals_after swap_round].
  destruct (swap_spend_candidate self e) eqn:Hspend.
  - rewrite (swap_candidates_exclusive e Hspend). by apply IH.
  - destruct (swap_receive_candidate self e); by apply IH.
Qed.

Lemma swap_scanned_resolved db e a :
  db !! asset e = Some a → asset_kind a ≠ FIAT →
  swap_scanned self db e =
    if swap_spend_candidate self e then swap_spend_leg (symbol a) e
    else if swap_receive_candidate self e then swap_receive_leg (symbol a) e
    else e.
Proof.
  intros Ha Hkind. unfold swap_scanned, reclassified, crypto_asset_of. rewrite Ha.
  by destruct (asset_kind a).
Qed.

Lemma swap_scanned_other db e :
  swap_spend_candidate self e = false → swap_receive_candidate self e = false →
  swap_scanned self db e = e.
Proof.
  intros Hs Hr. unfold swap_scanned, reclassified.
  destruct (crypto_asset_of db (asset e)); [| done]. cbn. by rewrite Hs, Hr.
Qed.

(** After the scan no event has a shape the scan looks for. *)
Lemma swap_scanned_no_candidate db e :
  resolves db e = true →
  swap_spend_candidate self (swap_scanned self db e) = false ∧
  swap_receive_candidate self (swap_scanned self db e) = false.
Proof.
  intros He. destruct (resolves_lookup db e He) as (a & Ha & Hkind & _).
  rewrite (swap_scanned_resolved db e a Ha Hkind).
  destruct (swap_spend_candidate self e) eqn:Hs; [done |].
  destruct (swap_receive_candidate self e) eqn:Hr; [done |]. done.
Qed.

Lemma swap_walk σ :
  all_resolve σ = true →
  walk (swap_round self) (globaldb σ) 0 (decoded_events σ) (None, None) =
    (Return (last_candidate (swap_spend_candidate self) (decoded_events σ),
             last_candidate (swap_receive_candidate self) (decoded_events σ)),
     map (swap_scanned self (globaldb σ)) (decoded_events σ)).
Proof.
  intros Hres. rewrite walk_ok by (by rewrite <- swap_raises_nothing in Hres).
  by rewrite swap_walk_locals.
Qed.

End SwapScan.

(** ** The swap handler *)

Section Swap.
Context {imports : Imports} (self : AerodromeDecoder).

Lemma swap_scan_run σ :
  for_event_in_decoded_events (swap_body self) (None, None) σ =
    (fst (walk (swap_round self) (globaldb σ) 0 (decoded_events σ) (None, None)),
     set_events (snd (walk (swap_round self) (globaldb σ) 0 (decoded_events σ) (None, None))) σ).
Proof.
  by destruct (for_event_in_walk (swap_round self) eq (swap_body self)
              (λ _, eq_refl) eq_trans_db eq_resolve (swap_body_round self) (None, None) σ)
    as (db' & <- & ->).
Qed.

Lemma swap_scanned_lookup σ i e :
  all_resolve σ = true →
  decoded_events σ !! i = Some e →
  ∃ a, globaldb σ !! asset e = Some a ∧
    map (swap_scanned self (globaldb σ)) (decoded_events σ) !! i =
      Some (if swap_spend_candidate self e then swap_spend_leg (symbol a) e
            else if swap_receive_candidate self e then swap_receive_leg (symbol a) e
            else e).
Proof.
  intros Hres Hi.
  assert (He : resolves (globaldb σ) e = true).
  { unfold all_resolve in Hres. rewrite forallb_forall in Hres.
    apply Hres, list_elem_of_In, list_elem_of_lookup. by exists i. }
  destruct (resolves_lookup _ _ He) as (a & Ha & Hkind & _).
  exists a. split; [done |].
  by rewrite list_lookup_fmap, Hi, <- (swap_scanned_resolved self _ e a Ha Hkind).
Qed.

Lemma no_swap_candidate_last events :
  no_swap_candidate self events = true ↔
  last_candidate (swap_spend_candidate self) events = None ∧
  last_candidate (swap_receive_candidate self) events = None.
Proof.
  rewrite !last_candidate_none. unfold no_swap_candidate.
  induction events as [| e rest IH]; cbn; [done |].
  rewrite !andb_true_iff, IH. tauto.
Qed.

Lemma no_swap_candidate_fixed events :
  no_swap_candidate self events = true →
  ∀ e a, e ∈ events → reclassify (swap_round self) a e = e.
Proof.
  unfold no_swap_candidate. rewrite forallb_forall. intros H e a He.
  apply list_elem_of_In, H, andb_prop in He as [Hs Hr].
  apply negb_true_iff in Hs, Hr. cbn. by rewrite Hs, Hr.
Qed.

Lemma no_swap_candidate_perm events events' :
  events ≡ₚ events' → no_swap_candidate self events = no_swap_candidate self events'.
Proof.
  intros Hperm. unfold no_swap_candidate.
  induction Hperm as [| x l l' _ IH | x y l | l1 l2 l3 _ IH1 _ IH2]; cbn.
  - done.
  - by rewrite IH.
  - destruct (negb _ && negb _), (negb _ && negb _); done.
  - congruence.
Qed.

Lemma swap_scanned_no_swap_candidate db events :
  forallb (resolves db) events = true →
  no_swap_candidate self (map (swap_scanned self db) events) = true.
Proof.
  induction events as [| e rest IH]; [done |]. cbn.
  intros [He Hrest]%andb_prop.
  destruct (swap_scanned_no_candidate self db e He) as [-> ->]. cbn. by apply IH.
Qed.

(** Both legs found: the positions are different and hold the two legs. *)
Lemma swap_legs_found σ s r :
  all_resolve σ = true →
  last_candidate (swap_spend_candidate self) (decoded_events σ) = Some s →
  last_candidate (swap_receive_candidate self) (decoded_events σ) = Some r →
  ∃ spend receive a_spend a_receive,
    decoded_events σ !! s = Some spend ∧ decoded_events σ !! r = Some receive ∧
    swap_spend_candidate self spend = true ∧ swap_receive_candidate self receive = true ∧
    globaldb σ !! asset spend = Some a_spend ∧ globaldb σ !! asset receive = Some a_receive ∧
    s ≠ r ∧
    map (swap_scanned self (globaldb σ)) (decoded_events σ) !! s
      = Some (swap_spend_leg (symbol a_spend) spend) ∧
    map (swap_scanned self (globaldb σ)) (decoded_events σ) !! r
      = Some (swap_receive_leg (symbol a_receive) receive).
Proof.
  intros Hres Hs Hr.
  apply last_candidate_some in Hs as (spend & Hspend & Hsc & _).
  apply last_candidate_some in Hr as (receive & Hreceive & Hrc & _).
  destruct (swap_scanned_lookup σ s spend Hres Hspend) as (a_s & Has & Hs').
  destruct (swap_scanned_lookup σ r receive Hres Hreceive) as (a_r & Har & Hr').
  rewrite Hsc in Hs'.
  assert (Hex : swap_spend_candidate self receive = false).
  { destruct (swap_spend_candidate self receive) eqn:E; [| done].
    apply swap_candidates_exclusive in E. congruence. }
  rewrite Hex, Hrc in Hr'.
  exists spend, receive, a_s, a_r. repeat split; try done.
  intros ->. congruence.
Qed.

End Swap.

(** ** Claims about the swap handler *)

(** C1 (amended).  A SWAP log dispatched on events whose assets all resolve
    and among which at most one of the two legs is found is a soft failure:
    the handler returns the default output and logs exactly one diagnostic,
    which contains the transaction hash; no event is added, removed or
    moved, and an event that is no candidate is left as it was.  A leg that
    is found has already been reclassified by the scan (a found spend leg
    is TRADE/SPEND with counterparty and notes set). *)
Theorem swap_missing_leg_soft_failure {imports : Imports} self context σ :
  topics (tx_log context) !! 0 = Some SWAP →
  all_resolve σ = true →
  last_candidate (swap_spend_candidate self) (decoded_events σ) = None ∨
  last_candidate (swap_receive_candidate self) (decoded_events σ) = None →
  ∃ events' msg pre post,
    _decode_pool_events self context σ =
      (Return DEFAULT_DECODING_OUTPUT,
       mkState events' (globaldb σ) (error_log σ ++ [msg])) ∧
    msg = pre +:+ hex (tx_hash (transaction context)) +:+ post ∧
    length events' = length (decoded_events σ) ∧
    ∀ i e, decoded_events σ !! i = Some e →
      ∃ a, globaldb σ !! asset e = Some a ∧
        events' !! i =
          Some (if swap_spend_candidate self e then swap_spend_leg (symbol a) e
                else if swap_receive_candidate self e then swap_receive_leg (symbol a) e
                else e).
Proof.
  intros Htopic Hres Hmissing.
  rewrite decode_pool_events_swap, decode_swap_run, swap_walk by done. cbn zeta.
  cbn [fst snd].
  exists (map (swap_scanned self (globaldb σ)) (decoded_events σ)).
  set (s := last_candidate (swap_spend_candidate self) (decoded_events σ)) in *.
  set (r := last_candidate (swap_receive_candidate self) (decoded_events σ)) in *.
  exists (swap_diagnostic context
            (str_ref s (map (swap_scanned self (globaldb σ)) (decoded_events σ)))
            (str_ref r (map (swap_scanned self (globaldb σ)) (decoded_events σ)))).
  exists ("A swap in aerodrome pool must have both a spend and a receive event but one or "
          +:+ "both of them are missing for transaction hash: ").
  eexists. split; [| split; [reflexivity | split]].
  - destruct s as [s |], r as [r |]; try done. by destruct Hmissing.
  - apply length_map.
  - intros i e Hi. by apply swap_scanned_lookup.
Qed.

Lemma swap_missing_leg_soft_failure_witness :
  ∃ events' msg pre post,
    _decode_pool_events (imports := Example.imports) Example.self Example.swap_context
      Example.only_spend =
      (Return DEFAULT_DECODING_OUTPUT,
       mkState events' (globaldb Example.only_spend)
         (error_log Example.only_spend ++ [msg])) ∧
    msg = pre +:+ hex (tx_hash (transaction Example.swap_context)) +:+ post ∧
    length events' = length (decoded_events Example.only_spend) ∧
    ∀ i e, decoded_events Example.only_spend !! i = Some e →
      ∃ a, globaldb Example.only_spend !! asset e = Some a ∧
        events' !! i =
          Some (if swap_spend_candidate Example.self e
                then swap_spend_leg (imports := Example.imports) (symbol a) e
                else if swap_receive_candidate Example.self e
                then swap_receive_leg (imports := Example.imports) (symbol a) e
                else e).
Proof.
  apply (@swap_missing_leg_soft_failure Example.imports Example.self Example.swap_context
           Example.only_spend);
    [reflexivity | vm_compute; reflexivity | right; vm_compute; reflexivity].
Defined.

(** C1 fails as stated: with the spend leg alone and no receive candidate,
    the spend event does not keep SPEND/NONE; it is TRADE/SPEND, with
    counterparty and notes, after the dispatch. *)
Lemma swap_missing_leg_mutates_found_leg :
  last_candidate (swap_receive_candidate Example.self) (decoded_events Example.only_spend) = None
  ∧ decoded_events Example.only_spend !! 1 = Some Example.spend_eth
  ∧ event_type Example.spend_eth = HistoryEventType.SPEND
  ∧ event_subtype Example.spend_eth = HistoryEventSubType.NONE
  ∧ decoded_events
      (snd (_decode_pool_events (imports := Example.imports) Example.self
              Example.swap_context Example.only_spend)) !! 1
    = Some (mkEvmEvent HistoryEventType.TRADE HistoryEventSubType.SPEND "ETH" (1 # 10000)
              (Some Example.user) (Some ROUTER) (Some "aerodrome") None
              (Some "Swap <amount> ETH in aerodrome"))
  ∧ length (error_log
              (snd (_decode_pool_events (imports := Example.imports) Example.self
                      Example.swap_context Example.only_spend))) = 1.
Proof. vm_compute. repeat split. Qed.

(** C2.  A SWAP log dispatched on events whose assets all resolve and among
    which the scan finds a spend leg (position [s]) and a receive leg
    (position [r]): the handler returns the default output and logs
    nothing; the spend leg is TRADE/SPEND with notes
    "Swap {amount} {symbol} in {protocol}", the receive leg is TRADE/RECEIVE
    with notes "Receive {amount} {symbol} as the result of a swap in
    {protocol}", the counterparty is set on both; in the final sequence the
    receive leg stands right after the spend leg, and the final sequence
    without the receive leg is the scanned sequence without it, so all other
    events keep their order.  The router is a protocol address of every
    decoder built by [__init__]. *)
Theorem swap_both_legs {imports : Imports} self context σ s r :
  topics (tx_log context) !! 0 = Some SWAP →
  all_resolve σ = true →
  last_candidate (swap_spend_candidate self) (decoded_events σ) = Some s →
  last_candidate (swap_receive_candidate self) (decoded_events σ) = Some r →
  ∃ spend receive a_spend a_receive events',
    decoded_events σ !! s = Some spend ∧ decoded_events σ !! r = Some receive ∧
    globaldb σ !! asset spend = Some a_spend ∧
    globaldb σ !! asset receive = Some a_receive ∧
    _decode_pool_events self context σ =
      (Return DEFAULT_DECODING_OUTPUT, mkState events' (globaldb σ) (error_log σ)) ∧
    events' !! spend_position s r = Some (swap_spend_leg (symbol a_spend) spend) ∧
    events' !! S (spend_position s r) = Some (swap_receive_leg (symbol a_receive) receive) ∧
    delete (S (spend_position s r)) events'
      = delete r (map (swap_scanned self (globaldb σ)) (decoded_events σ)) ∧
    (event_type (swap_spend_leg (symbol a_spend) spend) = HistoryEventType.TRADE ∧
     event_subtype (swap_spend_leg (symbol a_spend) spend) = HistoryEventSubType.SPEND ∧
     counterparty (swap_spend_leg (symbol a_spend) spend) = Some CPT_AERODROME ∧
     notes (swap_spend_leg (symbol a_spend) spend)
       = Some ("Swap " +:+ str_FVal (balance_amount spend) +:+ " " +:+ symbol a_spend
                 +:+ " in " +:+ CPT_AERODROME)) ∧
    (event_type (swap_receive_leg (symbol a_receive) receive) = HistoryEventType.TRADE ∧
     event_subtype (swap_receive_leg (symbol a_receive) receive)
       = HistoryEventSubType.RECEIVE ∧
     counterparty (swap_receive_leg (symbol a_receive) receive) = Some CPT_AERODROME ∧
     notes (swap_receive_leg (symbol a_receive) receive)
       = Some ("Receive " +:+ str_FVal (balance_amount receive) +:+ " " +:+ symbol a_receive
                 +:+ " as the result of a swap in " +:+ CPT_AERODROME)) ∧
    ∀ pools' gauges',
      address_in (Some ROUTER) (protocol_addresses (__init__ pools' gauges')) = true.
Proof.
  intros Htopic Hres Hs Hr.
  destruct (swap_legs_found self σ s r Hres Hs Hr)
    as (spend & receive & a_s & a_r & Hspend & Hreceive & _ & _ & Has & Har & Hsr & Hs' & Hr').
  exists spend, receive, a_s, a_r,
    (splice_after s r (map (swap_scanned self (globaldb σ)) (decoded_events σ))).
  rewrite decode_pool_events_swap, decode_swap_run, swap_walk, Hs, Hr by done.
  repeat split; try done.
  - by eapply splice_after_spend.
  - by eapply splice_after_receive.
  - by eapply splice_after_others.
  - intros pools' gauges'. cbn. apply bool_decide_eq_true_2. set_solver.
Qed.

Lemma swap_both_legs_witness :
  ∃ spend receive a_spend a_receive events',
    decoded_events Example.swap !! 1 = Some spend ∧
    decoded_events Example.swap !! 2 = Some receive ∧
    globaldb Example.swap !! asset spend = Some a_spend ∧
    globaldb Example.swap !! asset receive = Some a_receive ∧
    _decode_pool_events (imports := Example.imports) Example.self Example.swap_context
      Example.swap =
      (Return DEFAULT_DECODING_OUTPUT,
       mkState events' (globaldb Example.swap) (error_log Example.swap)) ∧
    events' !! 1 = Some (swap_spend_leg (imports := Example.imports) (symbol a_spend) spend) ∧
    events' !! 2
      = Some (swap_receive_leg (imports := Example.imports) (symbol a_receive) receive).
Proof.
  destruct (@swap_both_legs Example.imports Example.self Example.swap_context Example.swap 1 2)
    as (spend & receive & a_s & a_r & events' & H1 & H2 & H3 & H4 & H5 & H6 & H7 & _);
    [reflexivity | vm_compute; reflexivity | vm_compute; reflexivity
    | vm_compute; reflexivity |].
  exists spend, receive, a_s, a_r, events'. repeat split; assumption.
Defined.

(** The receive leg recorded before the gas fee and the spend leg is moved
    behind the spend leg; the gas fee stays in front. *)
Example swap_receive_first :
  decoded_events
    (snd (_decode_pool_events (imports := Example.imports) Example.self Example.swap_context
            (Example.state [Example.receive_usdbc; Example.gas; Example.spend_eth])))
  = [Example.gas;
     swap_spend_leg (imports := Example.imports) "ETH" Example.spend_eth;
     swap_receive_leg (imports := Example.imports) "USDbC" Example.receive_usdbc].
Proof. vm_compute. reflexivity. Qed.

(** C3 (amended).  A SWAP log dispatched on events whose assets all resolve:
    the scan keeps at most one reference to a spend event and at most one to
    a receive event, the last event of each shape; it reclassifies every
    event of either shape, kept or not; an event of neither shape is left as
    it was; and the final sequence holds the scanned events, each once. *)
Theorem swap_scan_reclassifies_each_candidate {imports : Imports} self context σ :
  topics (tx_log context) !! 0 = Some SWAP →
  all_resolve σ = true →
  for_event_in_decoded_events (swap_body self) (None, None) σ =
    (Return (last_candidate (swap_spend_candidate self) (decoded_events σ),
             last_candidate (swap_receive_candidate self) (decoded_events σ)),
     set_events (map (swap_scanned self (globaldb σ)) (decoded_events σ)) σ) ∧
  decoded_events (snd (_decode_pool_events self context σ))
    ≡ₚ map (swap_scanned self (globaldb σ)) (decoded_events σ) ∧
  ∀ e, e ∈ decoded_events σ →
    ∃ a, globaldb σ !! asset e = Some a ∧
      swap_scanned self (globaldb σ) e =
        (if swap_spend_candidate self e then swap_spend_leg (symbol a) e
         else if swap_receive_candidate self e then swap_receive_leg (symbol a) e
         else e).
Proof.
  intros Htopic Hres. split; [| split].
  - by rewrite swap_scan_run, swap_walk.
  - rewrite decode_pool_events_swap, decode_swap_run, swap_walk by done. cbn zeta.
    cbn [fst snd].
    destruct (last_candidate (swap_spend_candidate self) (decoded_events σ)) as [s |] eqn:Hs;
      [| by destruct (last_candidate (swap_receive_candidate self) (decoded_events σ))].
    destruct (last_candidate (swap_receive_candidate self) (decoded_events σ)) as [r |] eqn:Hr;
      [| done].
    destruct (swap_legs_found self σ s r Hres Hs Hr)
      as (spend & receive & a_s & a_r & _ & _ & _ & _ & _ & _ & Hsr & Hs' & Hr').
    cbn. by eapply splice_after_perm.
  - intros e He. unfold all_resolve in Hres. rewrite forallb_forall in Hres.
    apply list_elem_of_In, Hres in He.
    destruct (resolves_lookup _ _ He) as (a & Ha & Hkind & _).
    exists a. split; [done |]. by apply swap_scanned_resolved.
Qed.

Lemma swap_scan_reclassifies_each_candidate_witness :
  decoded_events
    (snd (_decode_pool_events (imports := Example.imports) Example.self Example.swap_context
            Example.two_spends))
  ≡ₚ map (swap_scanned (imports := Example.imports) Example.self (globaldb Example.two_spends))
       (decoded_events Example.two_spends).
Proof.
  apply (@swap_scan_reclassifies_each_candidate Example.imports Example.self
           Example.swap_context Example.two_spends);
    [reflexivity | vm_compute; reflexivity].
Defined.

(** C3 fails as stated: of two spend events through the protocol the scan
    keeps the second for the pair, and the first is reclassified all the
    same. *)
Lemma swap_reclassifies_outside_the_pair :
  last_candidate (swap_spend_candidate Example.self) (decoded_events Example.two_spends)
    = Some 1
  ∧ last_candidate (swap_receive_candidate Example.self) (decoded_events Example.two_spends)
    = Some 2
  ∧ decoded_events Example.two_spends !! 0 = Some Example.spend_eth
  ∧ decoded_events
      (snd (_decode_pool_events (imports := Example.imports) Example.self
              Example.swap_context Example.two_spends)) !! 0
    = Some (mkEvmEvent HistoryEventType.TRADE HistoryEventSubType.SPEND "ETH" (1 # 10000)
              (Some Example.user) (Some ROUTER) (Some "aerodrome") None
              (Some "Swap <amount> ETH in aerodrome")).
Proof. vm_compute. repeat split. Qed.

(** C8.  A SWAP log dispatched on events none of which has the shape of a
    spend or receive candidate: the scan finds no candidate (it returns no
    reference when it returns, and it returns when all assets resolve) and
    the dispatch changes no event and no asset.  In particular, dispatching
    the log again on the events a first dispatch has left changes no
    event. *)
Theorem swap_rerun_changes_nothing {imports : Imports} self context :
  topics (tx_log context) !! 0 = Some SWAP →
  (∀ σ, no_swap_candidate self (decoded_events σ) = true →
     decoded_events (snd (_decode_pool_events self context σ)) = decoded_events σ ∧
     globaldb (snd (_decode_pool_events self context σ)) = globaldb σ ∧
     (∀ locals, fst (for_event_in_decoded_events (swap_body self) (None, None) σ)
                = Return locals → locals = (None, None)) ∧
     (all_resolve σ = true →
      fst (for_event_in_decoded_events (swap_body self) (None, None) σ)
        = Return (None, None))) ∧
  (∀ σ, all_resolve σ = true →
     decoded_events
       (snd (_decode_pool_events self context (snd (_decode_pool_events self context σ))))
     = decoded_events (snd (_decode_pool_events self context σ))).
Proof.
  intros Htopic.
  assert (Hnone : ∀ σ, no_swap_candidate self (decoded_events σ) = true →
     decoded_events (snd (_decode_pool_events self context σ)) = decoded_events σ ∧
     globaldb (snd (_decode_pool_events self context σ)) = globaldb σ ∧
     (∀ locals, fst (for_event_in_decoded_events (swap_body self) (None, None) σ)
                = Return locals → locals = (None, None)) ∧
     (all_resolve σ = true →
      fst (for_event_in_decoded_events (swap_body self) (None, None) σ)
        = Return (None, None))).
  { intros σ Hno.
    pose proof (walk_fixed (swap_round self) (globaldb σ) (decoded_events σ)
                  (no_swap_candidate_fixed self _ Hno) 0 (None, None)) as Hfixed.
    apply no_swap_candidate_last in Hno as [Hs Hr].
    assert (Hlocals : ∀ locals,
      fst (walk (swap_round self) (globaldb σ) 0 (decoded_events σ) (None, None))
        = Return locals → locals = (None, None)).
    { intros locals Hret. pose proof (walk_returns _ _ _ _ _ _ Hret) as Hok.
      rewrite walk_ok in Hret by done. cbn in Hret.
      rewrite swap_walk_locals in Hret
        by (rewrite forallb_forall in *; intros e He; by eapply round_ok_resolves, Hok).
      fold (last_candidate (swap_spend_candidate self) (decoded_events σ)) in Hret.
      fold (last_candidate (swap_receive_candidate self) (decoded_events σ)) in Hret.
      rewrite Hs, Hr in Hret. congruence. }
    rewrite decode_pool_events_swap, decode_swap_run, swap_scan_run by done. cbn zeta.
    destruct (walk (swap_round self) (globaldb σ) 0 (decoded_events σ) (None, None))
      as [[locals | x] evs] eqn:Hw; cbn [fst snd] in *.
    - rewrite (Hlocals locals eq_refl). subst evs. repeat split; try done.
      by intros locals' [= <-].
    - subst evs. repeat split; try done. intros Hres.
      rewrite swap_walk in Hw by done. congruence. }
  split; [exact Hnone |].
  intros σ Hres. apply Hnone.
  rewrite decode_pool_events_swap, decode_swap_run, swap_walk by done. cbn zeta.
  cbn [fst snd].
  pose proof (swap_scanned_no_swap_candidate self (globaldb σ) (decoded_events σ) Hres)
    as Hscanned.
  destruct (last_candidate (swap_spend_candidate self) (decoded_events σ)) as [s |] eqn:Hs;
    [| by destruct (last_candidate (swap_receive_candidate self) (decoded_events σ))].
  destruct (last_candidate (swap_receive_candidate self) (decoded_events σ)) as [r |] eqn:Hr;
    [| done].
  destruct (swap_legs_found self σ s r Hres Hs Hr)
    as (spend & receive & a_s & a_r & _ & _ & _ & _ & _ & _ & Hsr & Hs' & Hr').
  unfold set_events. cbn [snd decoded_events].
  by rewrite (no_swap_candidate_perm self _ _ (splice_after_perm _ s r _ Hr')).
Qed.

Lemma swap_rerun_changes_nothing_witness :
  decoded_events
    (snd (_decode_pool_events (imports := Example.imports) Example.self Example.swap_context
            Example.swapped))
  = decoded_events Example.swapped
  ∧ decoded_events
      (snd (_decode_pool_events (imports := Example.imports) Example.self Example.swap_context
              (snd (_decode_pool_events (imports := Example.imports) Example.self
                      Example.swap_context Example.swap))))
    = decoded_events
        (snd (_decode_pool_events (imports := Example.imports) Example.self
                Example.swap_context Example.swap)).
Proof.
  destruct (@swap_rerun_changes_nothing Example.imports Example.self Example.swap_context
              eq_refl) as [Hnone Hagain].
  split.
  - apply (Hnone Example.swapped). vm_compute. reflexivity.
  - apply (Hagain Example.swap). vm_compute. reflexivity.
Defined.

(** ** The liquidity handlers *)

Lemma raises_nothing_lookup {L} (R : Round L) σ i e :
  raises_nothing R σ = true →
  decoded_events σ !! i = Some e →
  ∃ a, globaldb σ !! asset e = Some a ∧ asset_kind a ≠ FIAT ∧
    crypto_asset_of (globaldb σ) (asset e) = Return (untagged a) ∧
    map (reclassified R (globaldb σ)) (decoded_events σ) !! i
      = Some (reclassify R (untagged a) e).
Proof.
  intros Hok Hi. unfold raises_nothing in Hok. rewrite forallb_forall in Hok.
  assert (He : round_ok R (globaldb σ) e = true).
  { apply Hok, list_elem_of_In, list_elem_of_lookup. by exists i. }
  destruct (resolves_lookup _ _ (round_ok_resolves R _ _ He)) as (a & Ha & Hkind & Hres).
  exists a. repeat split; try done.
  rewrite list_lookup_fmap, Hi. cbn. unfold reclassified. by rewrite Hres.
Qed.

Section Liquidity.
Context {imports : Imports} (self : AerodromeDecoder).

Lemma remove_raises_nothing tx_log' σ :
  raises_nothing (remove_liquidity_round self tx_log') σ = all_resolve σ.
Proof. apply forallb_ext_eq. intros e. by apply round_ok_untagging. Qed.

End Liquidity.

(** C5.  An ADD_LIQUIDITY log dispatched on events on which no round raises
    turns every SPEND/NONE event addressed to a pool into
    DEPOSIT/DEPOSIT_ASSET with counterparty and product POOL, and gives
    every RECEIVE/NONE event from the zero address the subtype
    RECEIVE_WRAPPED; a REMOVE_LIQUIDITY log dispatched on events whose
    assets resolve gives every SPEND/NONE event addressed to a pool the
    subtype RETURN_WRAPPED and turns every RECEIVE/NONE event addressed to a
    pool into WITHDRAWAL/REMOVE_ASSET.  Either way every event stays at its
    position, events of other shapes are left as they were, and the
    sequence keeps its length. *)
Theorem liquidity_events_reclassified {imports : Imports} self context σ :
  (topics (tx_log context) !! 0 = Some ADD_LIQUIDITY_EVENT →
   raises_nothing (add_liquidity_round self (tx_log context)) σ = true →
   ∃ events' db',
     _decode_pool_events self context σ =
       (Return DEFAULT_DECODING_OUTPUT, mkState events' db' (error_log σ)) ∧
     length events' = length (decoded_events σ) ∧
     ∀ i e, decoded_events σ !! i = Some e →
       ∃ a, globaldb σ !! asset e = Some a ∧
         events' !! i =
           Some (if add_liquidity_deposit self e then add_liquidity_deposited (symbol a) e
                 else if add_liquidity_receive e
                 then add_liquidity_received (tx_log context) (symbol a) e
                 else e)) ∧
  (topics (tx_log context) !! 0 = Some REMOVE_LIQUIDITY_EVENT →
   all_resolve σ = true →
   ∃ events',
     _decode_pool_events self context σ =
       (Return DEFAULT_DECODING_OUTPUT, mkState events' (globaldb σ) (error_log σ)) ∧
     length events' = length (decoded_events σ) ∧
     ∀ i e, decoded_events σ !! i = Some e →
       ∃ a, globaldb σ !! asset e = Some a ∧
         events' !! i =
           Some (if remove_liquidity_return self e then remove_liquidity_returned (symbol a) e
                 else if remove_liquidity_withdrawal self e
                 then remove_liquidity_withdrawn (tx_log context) (symbol a) e
                 else e)) ∧
  (∀ sym e,
     event_type (add_liquidity_deposited sym e) = HistoryEventType.DEPOSIT ∧
     event_subtype (add_liquidity_deposited sym e) = HistoryEventSubType.DEPOSIT_ASSET ∧
     counterparty (add_liquidity_deposited sym e) = Some CPT_AERODROME ∧
     product (add_liquidity_deposited sym e) = Some EvmProduct.POOL) ∧
  (∀ sym e,
     event_type (add_liquidity_received (tx_log context) sym e) = event_type e ∧
     event_subtype (add_liquidity_received (tx_log context) sym e)
       = HistoryEventSubType.RECEIVE_WRAPPED) ∧
  (∀ sym e,
     event_type (remove_liquidity_returned sym e) = event_type e ∧
     event_subtype (remove_liquidity_returned sym e) = HistoryEventSubType.RETURN_WRAPPED ∧
     notes (remove_liquidity_returned sym e)
       = Some ("Return " +:+ str_FVal (balance_amount e) +:+ " " +:+ sym)) ∧
  (∀ sym e,
     event_type (remove_liquidity_withdrawn (tx_log context) sym e)
       = HistoryEventType.WITHDRAWAL ∧
     event_subtype (remove_liquidity_withdrawn (tx_log context) sym e)
       = HistoryEventSubType.REMOVE_ASSET ∧
     notes (remove_liquidity_withdrawn (tx_log context) sym e)
       = Some ("Remove " +:+ str_FVal (balance_amount e) +:+ " " +:+ sym
                 +:+ " from aerodrome pool " +:+ log_address (tx_log context))).
Proof.
  split; [| split; [| by repeat split]].
  - intros Htopic Hok.
    destruct (decode_add_liquidity_run self (tx_log context) σ) as (db' & _ & Hrun).
    rewrite decode_pool_events_add, Hrun, walk_ok by done. cbn zeta. cbn [fst snd].
    eexists _, db'. split; [reflexivity |]. split; [apply length_map |].
    intros i e Hi.
    destruct (raises_nothing_lookup _ σ i e Hok Hi) as (a & Ha & _ & _ & Hlook).
    exists a. split; [done |]. by rewrite Hlook.
  - intros Htopic Hres.
    rewrite decode_pool_events_remove, decode_remove_liquidity_run, walk_ok
      by (done || by rewrite <- (remove_raises_nothing self (tx_log context)) in Hres).
    cbn zeta. cbn [fst snd].
    eexists. split; [reflexivity |]. split; [apply length_map |].
    intros i e Hi. rewrite <- (remove_raises_nothing self (tx_log context)) in Hres.
    destruct (raises_nothing_lookup _ σ i e Hres Hi) as (a & Ha & _ & _ & Hlook).
    exists a. split; [done |]. by rewrite Hlook.
Qed.

Lemma liquidity_events_reclassified_witness :
  (∃ events' db',
     _decode_pool_events (imports := Example.imports) Example.self Example.add_context
       Example.deposit =
       (Return DEFAULT_DECODING_OUTPUT,
        mkState events' db' (error_log Example.deposit)) ∧
     length events' = length (decoded_events Example.deposit)) ∧
  (∃ events',
     _decode_pool_events (imports := Example.imports) Example.self Example.remove_context
       Example.withdrawal =
       (Return DEFAULT_DECODING_OUTPUT,
        mkState events' (globaldb Example.withdrawal) (error_log Example.withdrawal)) ∧
     length events' = length (decoded_events Example.withdrawal)).
Proof.
  split.
  - destruct (@liquidity_events_reclassified Example.imports Example.self Example.add_context
                Example.deposit) as [Hadd _].
    destruct Hadd as (events' & db' & Hrun & Hlen & _);
      [reflexivity | vm_compute; reflexivity |].
    exists events', db'. split; assumption.
  - destruct (@liquidity_events_reclassified Example.imports Example.self
                Example.remove_context Example.withdrawal) as (_ & Hremove & _).
    destruct Hremove as (events' & Hrun & Hlen & _);
      [reflexivity | vm_compute; reflexivity |].
    exists events'. split; assumption.
Defined.

(** ** The gauge handler *)

Section Gauge.
Context {imports : Imports} (topic0 : bytes) (user gauge_address : string) (raw_amount : Z).

Lemma gauge_matches_iff a e :
  gauge_matches user gauge_address raw_amount a e = true ↔
  location_label e = Some user ∧ address e = Some gauge_address ∧
  (balance_amount e == asset_normalized_value raw_amount a)%Q.
Proof.
  unfold gauge_matches.
  rewrite !andb_true_iff, !bool_decide_eq_true, Qeq_bool_iff. tauto.
Qed.

(** The flag of the walk: set as soon as one event matches. *)
Lemma gauge_walk_locals db events :
  ∀ i found,
    forallb (resolves db) events = true →
    walk_locals (gauge_round topic0 user gauge_address raw_amount) db i events found =
      found || existsb (gauge_hit user gauge_address raw_amount db) events.
Proof.
  induction events as [| e rest IH]; intros i found Hres; [by rewrite orb_false_r |].
  cbn in Hres. apply andb_prop in Hres as [He Hrest].
  destruct (resolves_lookup db e He) as (a & Ha & _ & Hcrypto).
  cbn [walk_locals existsb]. rewrite Hcrypto. cbn [locals_after gauge_round].
  rewrite IH by done. unfold gauge_hit at 2. rewrite Ha.
  change (gauge_matches user gauge_address raw_amount (untagged a) e)
    with (gauge_matches user gauge_address raw_amount a e).
  destruct (gauge_matches user gauge_address raw_amount a e), found; done.
Qed.

Lemma gauge_no_hit_fixed db events :
  existsb (gauge_hit user gauge_address raw_amount db) events = false →
  map (reclassified (gauge_round topic0 user gauge_address raw_amount) db) events = events.
Proof.
  induction events as [| e rest IH]; [done |]. cbn.
  intros [He Hrest]%orb_false_elim. rewrite IH by done. f_equal.
  unfold reclassified, crypto_asset_of, gauge_hit in *.
  destruct (db !! asset e) as [a |]; [| done].
  destruct (asset_kind a); try done; cbn;
    change (gauge_matches user gauge_address raw_amount (untagged a) e)
      with (gauge_matches user gauge_address raw_amount a e);
    by rewrite He.
Qed.

End Gauge.

(** C4.  A GAUGE_DEPOSIT, GAUGE_WITHDRAW or CLAIM_REWARDS log with an
    account in its second topic, decoded on events on which no round raises:
    an event is reclassified exactly when its label is the account of the
    second topic, its address is the emitter of the log and its amount
    equals the payload divided by ten to the decimals of its asset; every
    such event is rewritten in the same way, wherever it stands, and any
    other event, in particular one whose amount differs, is left as it
    was. *)
Theorem gauge_reclassifies_exact_matches {imports : Imports} context σ topic0 topic1 :
  topics (tx_log context) !! 0 = Some topic0 →
  topics (tx_log context) !! 1 = Some topic1 →
  is_gauge_topic topic0 = true →
  raises_nothing
    (gauge_round topic0 (hex_or_bytes_to_address topic1) (log_address (tx_log context))
       (hex_or_bytes_to_int (data (tx_log context)))) σ = true →
  ∃ found events' db',
    _decode_gauge_events context σ =
      (Return (mkDecodingOutput found), mkState events' db' (error_log σ)) ∧
    length events' = length (decoded_events σ) ∧
    ∀ i e, decoded_events σ !! i = Some e →
      ∃ a, globaldb σ !! asset e = Some a ∧
        ((location_label e = Some (hex_or_bytes_to_address topic1) ∧
          address e = Some (log_address (tx_log context)) ∧
          (balance_amount e
           == asset_normalized_value (hex_or_bytes_to_int (data (tx_log context))) a)%Q) →
         events' !! i =
           Some (gauge_event topic0 (log_address (tx_log context)) (symbol a) e)) ∧
        (¬ (location_label e = Some (hex_or_bytes_to_address topic1) ∧
            address e = Some (log_address (tx_log context)) ∧
            (balance_amount e
             == asset_normalized_value (hex_or_bytes_to_int (data (tx_log context))) a)%Q) →
         events' !! i = Some e) ∧
        (¬ (balance_amount e
            == asset_normalized_value (hex_or_bytes_to_int (data (tx_log context))) a)%Q →
         events' !! i = Some e) ∧
        counterparty (gauge_event topic0 (log_address (tx_log context)) (symbol a) e)
          = Some CPT_AERODROME ∧
        product (gauge_event topic0 (log_address (tx_log context)) (symbol a) e)
          = Some EvmProduct.GAUGE.
Proof.
  intros H0 H1 Htopic Hok.
  destruct (decode_gauge_run context topic0 topic1 σ H0 H1 Htopic) as (db' & _ & Hrun).
  rewrite Hrun, walk_ok by done. cbn zeta. cbn [fst snd].
  eexists _, _, db'. split; [reflexivity |]. split; [apply length_map |].
  intros i e Hi.
  destruct (raises_nothing_lookup _ σ i e Hok Hi) as (a & Ha & _ & _ & Hlook).
  exists a. split; [done |]. rewrite Hlook. cbn [reclassify gauge_round].
  change (gauge_matches ?u ?g ?r (untagged a) e) with (gauge_matches u g r a e).
  pose proof (gauge_matches_iff (hex_or_bytes_to_address topic1) (log_address (tx_log context))
                (hex_or_bytes_to_int (data (tx_log context))) a e) as Hiff.
  destruct (gauge_matches _ _ _ a e).
  - repeat split; try done.
    + intros Hno. destruct Hno. by apply Hiff.
    + intros Hno. destruct Hno. by apply Hiff.
    + unfold gauge_event. by repeat case_bool_decide.
    + unfold gauge_event. by repeat case_bool_decide.
  - repeat split; try done.
    + intros Hyes. apply Hiff in Hyes. done.
    + unfold gauge_event. by repeat case_bool_decide.
    + unfold gauge_event. by repeat case_bool_decide.
Qed.

Lemma gauge_reclassifies_exact_matches_witness :
  ∃ found events' db',
    _decode_gauge_events (imports := Example.imports) (Example.gauge_context GAUGE_WITHDRAW)
      Example.stake =
      (Return (mkDecodingOutput found), mkState events' db' (error_log Example.stake)) ∧
    length events' = length (decoded_events Example.stake).
Proof.
  destruct (@gauge_reclassifies_exact_matches Example.imports
              (Example.gauge_context GAUGE_WITHDRAW) Example.stake GAUGE_WITHDRAW
              Example.user_word)
    as (found & events' & db' & Hrun & Hlen & _);
    [reflexivity | reflexivity | vm_compute; reflexivity | vm_compute; reflexivity |].
  exists found, events', db'. split; assumption.
Defined.

(** C6.  Under the same conditions the handler returns a refresh flag that
    is true exactly when it has modified an event: the flag is true if and
    only if some event whose triple matches stands, after the call, as the
    handler rewrites it (counterparty, product GAUGE, type, subtype and
    notes of the topic).  On events none of which carries the counterparty
    yet, the flag is true if and only if the events after the call differ
    from the events given.  When no triple matches the flag is false, the
    handler returns without an error and the events are the ones it was
    given. *)
Theorem gauge_refresh_flag {imports : Imports} context σ topic0 topic1 :
  topics (tx_log context) !! 0 = Some topic0 →
  topics (tx_log context) !! 1 = Some topic1 →
  is_gauge_topic topic0 = true →
  raises_nothing
    (gauge_round topic0 (hex_or_bytes_to_address topic1) (log_address (tx_log context))
       (hex_or_bytes_to_int (data (tx_log context)))) σ = true →
  ∃ found events' db',
    _decode_gauge_events context σ =
      (Return (mkDecodingOutput found), mkState events' db' (error_log σ)) ∧
    (found = true ↔
     ∃ i e a, decoded_events σ !! i = Some e ∧ globaldb σ !! asset e = Some a ∧
       location_label e = Some (hex_or_bytes_to_address topic1) ∧
       address e = Some (log_address (tx_log context)) ∧
       (balance_amount e
        == asset_normalized_value (hex_or_bytes_to_int (data (tx_log context))) a)%Q ∧
       events' !! i = Some (gauge_event topic0 (log_address (tx_log context)) (symbol a) e) ∧
       counterparty (gauge_event topic0 (log_address (tx_log context)) (symbol a) e)
         = Some CPT_AERODROME ∧
       product (gauge_event topic0 (log_address (tx_log context)) (symbol a) e)
         = Some EvmProduct.GAUGE) ∧
    ((∀ e, e ∈ decoded_events σ → counterparty e ≠ Some CPT_AERODROME) →
     (found = true ↔ events' ≠ decoded_events σ)) ∧
    (found = false → events' = decoded_events σ) ∧
    (events' ≠ decoded_events σ → found = true).
Proof.
  intros H0 H1 Htopic Hok.
  destruct (decode_gauge_run context topic0 topic1 σ H0 H1 Htopic) as (db' & _ & Hrun).
  rewrite Hrun, walk_ok by done. cbn zeta. cbn [fst snd].
  assert (Hres : forallb (resolves (globaldb σ)) (decoded_events σ) = true).
  { unfold raises_nothing in Hok. rewrite forallb_forall in *.
    intros e He. by eapply round_ok_resolves, Hok. }
  rewrite gauge_walk_locals by done. cbn [orb].
  eexists _, _, db'. split; [reflexivity |].
  assert (Hfixed : existsb (gauge_hit (hex_or_bytes_to_address topic1)
                              (log_address (tx_log context))
                              (hex_or_bytes_to_int (data (tx_log context))) (globaldb σ))
                     (decoded_events σ) = false →
                   map (reclassified
                          (gauge_round topic0 (hex_or_bytes_to_address topic1)
                             (log_address (tx_log context))
                             (hex_or_bytes_to_int (data (tx_log context)))) (globaldb σ))
                     (decoded_events σ) = decoded_events σ)
    by apply gauge_no_hit_fixed.
  assert (Hcpt : ∀ sym e,
            counterparty (gauge_event topic0 (log_address (tx_log context)) sym e)
              = Some CPT_AERODROME ∧
            product (gauge_event topic0 (log_address (tx_log context)) sym e)
              = Some EvmProduct.GAUGE).
  { intros sym e. unfold gauge_event. by repeat case_bool_decide. }
  assert (Hwritten :
    existsb (gauge_hit (hex_or_bytes_to_address topic1) (log_address (tx_log context))
               (hex_or_bytes_to_int (data (tx_log context))) (globaldb σ))
      (decoded_events σ) = true →
    ∃ i e a, decoded_events σ !! i = Some e ∧ globaldb σ !! asset e = Some a ∧
      location_label e = Some (hex_or_bytes_to_address topic1) ∧
      address e = Some (log_address (tx_log context)) ∧
      (balance_amount e
       == asset_normalized_value (hex_or_bytes_to_int (data (tx_log context))) a)%Q ∧
      map (reclassified
             (gauge_round topic0 (hex_or_bytes_to_address topic1)
                (log_address (tx_log context))
                (hex_or_bytes_to_int (data (tx_log context)))) (globaldb σ))
        (decoded_events σ) !! i
      = Some (gauge_event topic0 (log_address (tx_log context)) (symbol a) e)).
  { rewrite existsb_exists. intros (e & He & Hhit).
    apply list_elem_of_In, list_elem_of_lookup in He as [i Hi].
    destruct (raises_nothing_lookup _ σ i e Hok Hi) as (a & Ha & _ & _ & Hlook).
    unfold gauge_hit in Hhit. rewrite Ha in Hhit.
    exists i, e, a. split; [done |]. split; [done |].
    rewrite Hlook. cbn [reclassify gauge_round].
    change (gauge_matches ?u ?g ?r (untagged a) e) with (gauge_matches u g r a e).
    rewrite Hhit. apply gauge_matches_iff in Hhit. tauto. }
  split; [| split; [| split; [done |]]].
  - split.
    + intros Hhit. destruct (Hwritten Hhit) as (i & e & a & Hi & Ha & Hl & Had & Hq & Hw).
      exists i, e, a. destruct (Hcpt (symbol a) e). tauto.
    + intros (i & e & a & Hi & Ha & Hl & Had & Hq & _). rewrite existsb_exists.
      exists e. split.
      * apply list_elem_of_In, list_elem_of_lookup. by exists i.
      * unfold gauge_hit. rewrite Ha. by apply gauge_matches_iff.
  - intros Hfresh. split.
    + intros Hhit Hsame.
      destruct (Hwritten Hhit) as (i & e & a & Hi & _ & _ & _ & _ & Hw).
      rewrite Hsame, Hi in Hw. injection Hw as Hw.
      apply (Hfresh e); [apply list_elem_of_lookup; by exists i |].
      rewrite Hw. apply Hcpt.
    + intros Hne. destruct (existsb _ _) eqn:Hhit; [done |]. destruct Hne. by apply Hfixed.
  - intros Hne. destruct (existsb _ _) eqn:Hhit; [done |]. destruct Hne. by apply Hfixed.
Qed.

(** The scenario of C6: a GAUGE_DEPOSIT log with payload 4023175857 and an
    event of an 18-decimal token with amount 0.000000004023175857 at the
    same gauge and account; the flag is true and the event is
    DEPOSIT/DEPOSIT_ASSET with product GAUGE. *)
Lemma gauge_refresh_flag_witness :
  hex_or_bytes_to_int (data (tx_log (Example.gauge_context GAUGE_DEPOSIT))) = 4023175857%Z ∧
  fst (_decode_gauge_events (imports := Example.imports) (Example.gauge_context GAUGE_DEPOSIT)
         Example.stake) = Return (mkDecodingOutput true) ∧
  decoded_events
    (snd (_decode_gauge_events (imports := Example.imports)
            (Example.gauge_context GAUGE_DEPOSIT) Example.stake)) !! 1
  = Some (mkEvmEvent HistoryEventType.DEPOSIT HistoryEventSubType.DEPOSIT_ASSET
            Example.WETH_USDBC_LP_TOKEN (4023175857 # 1000000000000000000)
            (Some Example.user) (Some Example.WETH_USDBC_GAUGE_ADDRESS)
            (Some "aerodrome") (Some EvmProduct.GAUGE)
            (Some ("Deposit <amount> vAMM-WETH/USDbC into "
                     +:+ Example.WETH_USDBC_GAUGE_ADDRESS +:+ " aerodrome gauge"))).
Proof.
  destruct (@gauge_refresh_flag Example.imports (Example.gauge_context GAUGE_DEPOSIT)
              Example.stake GAUGE_DEPOSIT Example.user_word)
    as (found & events' & db' & Hrun & Hfound & _);
    [reflexivity | reflexivity | vm_compute; reflexivity | vm_compute; reflexivity |].
  split; [vm_compute; reflexivity |].
  assert (Hevents : events' = decoded_events
                                (snd (_decode_gauge_events (imports := Example.imports)
                                        (Example.gauge_context GAUGE_DEPOSIT) Example.stake)))
    by (by rewrite Hrun).
  assert (found = true) as ->.
  { apply Hfound. exists 1, Example.stake_lp.
    exists (mkAssetData EVM_TOKEN "vAMM-WETH/USDbC" 18 None).
    rewrite Hevents. repeat split; vm_compute; reflexivity. }
  split; [by rewrite Hrun |].
  vm_compute. reflexivity.
Defined.

(** ** The protocol tag *)

Lemma tagged_from_keeps p db db' id a t :
  tagged_from p db db' → db !! id = Some a → protocol a = Some t → db' !! id = Some a.
Proof.
  intros H Ha Ht. destruct (H id) as [-> | (a' & Ha' & Hnone & _)]; [done |].
  congruence.
Qed.

Lemma tagged_from_changes p db db' id :
  tagged_from p db db' → db' !! id ≠ db !! id →
  ∃ a, db !! id = Some a ∧ protocol a = None ∧ db' !! id = Some (tagged p a).
Proof. intros H Hne. by destruct (H id) as [? | ?]. Qed.

Section Tagging.
Context {imports : Imports}.

Lemma decode_add_liquidity_tagged self tx_log' σ :
  tagged_from AERODROME_POOL_PROTOCOL (globaldb σ)
    (globaldb (snd (_decode_add_liquidity_events self tx_log' σ))).
Proof.
  destruct (decode_add_liquidity_run self tx_log' σ) as (db' & Htag & ->). done.
Qed.

Lemma decode_gauge_tagged context σ :
  tagged_from AERODROME_POOL_PROTOCOL (globaldb σ)
    (globaldb (snd (_decode_gauge_events context σ))).
Proof.
  destruct (topics (tx_log context) !! 0) as [topic0 |] eqn:H0.
  - destruct (is_gauge_topic topic0) eqn:Htopic.
    + destruct (topics (tx_log context) !! 1) as [topic1 |] eqn:H1.
      * destruct (decode_gauge_run context topic0 topic1 σ H0 H1 Htopic)
          as (db' & Htag & ->). done.
      * unfold _decode_gauge_events, mbind, M_bind, getitem. rewrite H0. cbn.
        unfold is_gauge_topic in Htopic. rewrite Htopic. cbn. rewrite H1. cbn.
        apply tagged_from_refl.
    + unfold _decode_gauge_events, mbind, M_bind, getitem. rewrite H0. cbn.
      unfold is_gauge_topic in Htopic. rewrite Htopic. cbn. apply tagged_from_refl.
  - unfold _decode_gauge_events, mbind, M_bind, getitem. rewrite H0. cbn.
    apply tagged_from_refl.
Qed.

End Tagging.

(** C7.  Tagging is write-once.  [set_token_protocol_if_missing] leaves the
    state as it is when the token carries a tag and writes the tag when it
    carries none; and whatever [_decode_add_liquidity_events] and
    [_decode_gauge_events] do, an asset that carried a tag before the call
    carries the same tag after it, and an asset whose entry has changed
    carried no tag before and carries the protocol's tag after. *)
Theorem protocol_tag_is_write_once {imports : Imports} :
  (∀ evm_token p σ a,
     globaldb σ !! evm_token = Some a →
     set_token_protocol_if_missing evm_token p σ =
       (Return tt,
        match protocol a with
        | Some _ => σ
        | None => set_globaldb (<[evm_token := tagged p a]> (globaldb σ)) σ
        end)) ∧
  (∀ self tx_log' σ id a t,
     globaldb σ !! id = Some a → protocol a = Some t →
     globaldb (snd (_decode_add_liquidity_events self tx_log' σ)) !! id = Some a) ∧
  (∀ context σ id a t,
     globaldb σ !! id = Some a → protocol a = Some t →
     globaldb (snd (_decode_gauge_events context σ)) !! id = Some a) ∧
  (∀ self tx_log' σ id,
     globaldb (snd (_decode_add_liquidity_events self tx_log' σ)) !! id ≠ globaldb σ !! id →
     ∃ a, globaldb σ !! id = Some a ∧ protocol a = None ∧
       globaldb (snd (_decode_add_liquidity_events self tx_log' σ)) !! id
         = Some (tagged AERODROME_POOL_PROTOCOL a)) ∧
  (∀ context σ id,
     globaldb (snd (_decode_gauge_events context σ)) !! id ≠ globaldb σ !! id →
     ∃ a, globaldb σ !! id = Some a ∧ protocol a = None ∧
       globaldb (snd (_decode_gauge_events context σ)) !! id
         = Some (tagged AERODROME_POOL_PROTOCOL a)).
Proof.
  repeat split.
  - intros evm_token p σ a Ha. unfold set_token_protocol_if_missing. rewrite Ha.
    by destruct (protocol a).
  - intros self tx_log' σ id a t. eapply tagged_from_keeps, decode_add_liquidity_tagged.
  - intros context σ id a t. eapply tagged_from_keeps, decode_gauge_tagged.
  - intros self tx_log' σ id. eapply tagged_from_changes, decode_add_liquidity_tagged.
  - intros context σ id. eapply tagged_from_changes, decode_gauge_tagged.
Qed.

(** A pool token tagged by another protocol keeps that tag through an
    add-liquidity log and through a gauge deposit; an untagged one gets the
    tag of this protocol. *)
Lemma protocol_tag_is_write_once_witness :
  globaldb (snd (_decode_add_liquidity_events (imports := Example.imports) Example.self
                   (tx_log Example.add_context) Example.deposit_tagged))
    !! Example.WETH_USDBC_LP_TOKEN
  = Some (mkAssetData EVM_TOKEN "vAMM-WETH/USDbC" 18 (Some "velodrome_pool"))
  ∧ globaldb (snd (_decode_gauge_events (imports := Example.imports)
                     (Example.gauge_context GAUGE_DEPOSIT) Example.stake_tagged))
      !! Example.WETH_USDBC_LP_TOKEN
    = Some (mkAssetData EVM_TOKEN "vAMM-WETH/USDbC" 18 (Some "velodrome_pool"))
  ∧ globaldb (snd (_decode_add_liquidity_events (imports := Example.imports) Example.self
                     (tx_log Example.add_context) Example.deposit))
      !! Example.WETH_USDBC_LP_TOKEN
    = Some (mkAssetData EVM_TOKEN "vAMM-WETH/USDbC" 18 (Some "aerodrome_pool")).
Proof.
  destruct (@protocol_tag_is_write_once Example.imports) as (_ & Hadd & Hgauge & _).
  split; [| split].
  - apply (Hadd Example.self (tx_log Example.add_context) Example.deposit_tagged
             Example.WETH_USDBC_LP_TOKEN _ "velodrome_pool");
      [vm_compute; reflexivity | reflexivity].
  - apply (Hgauge (Example.gauge_context GAUGE_DEPOSIT) Example.stake_tagged
             Example.WETH_USDBC_LP_TOKEN _ "velodrome_pool");
      [vm_compute; reflexivity | reflexivity].
  - vm_compute. reflexivity.
Defined.

(** ** Errors in the middle of a walk *)

Lemma walk_aborts {A L} (handler : M A) (R : Round L) init σ pre e post :
  raises_with_walk handler R init →
  decoded_events σ = pre ++ e :: post →
  forallb (round_ok R (globaldb σ)) pre = true →
  resolves (globaldb σ) e = false →
  ∃ x, crypto_asset_of (globaldb σ) (asset e) = Raise x ∧
    fst (handler σ) = Raise x ∧
    decoded_events (snd (handler σ)) = map (reclassified R (globaldb σ)) pre ++ e :: post ∧
    error_log (snd (handler σ)) = error_log σ.
Proof.
  intros Hhandler Hσ Hpre He.
  assert (∃ x, crypto_asset_of (globaldb σ) (asset e) = Raise x) as [x Hx].
  { apply unresolved_lookup in He as [[_ He] | (a & _ & _ & He)]; eauto. }
  exists x. split; [done |].
  pose proof (walk_unresolved R (globaldb σ) pre e post x 0 init Hpre Hx) as Hwalk.
  rewrite <- Hσ in Hwalk.
  destruct (Hhandler σ x) as (Hfst & Hevents & Hlog); [by rewrite Hwalk |].
  by rewrite Hfst, Hevents, Hlog, Hwalk.
Qed.

Section Raising.
Context {imports : Imports}.

Lemma add_liquidity_raises self tx_log' :
  raises_with_walk (_decode_add_liquidity_events self tx_log')
    (add_liquidity_round self tx_log') tt.
Proof.
  intros σ x Hx. destruct (decode_add_liquidity_run self tx_log' σ) as (db' & _ & ->).
  cbn zeta. by rewrite Hx.
Qed.

Lemma remove_liquidity_raises self tx_log' :
  raises_with_walk (_decode_remove_liquidity_events self tx_log')
    (remove_liquidity_round self tx_log') tt.
Proof.
  intros σ x Hx. rewrite decode_remove_liquidity_run. cbn zeta. by rewrite Hx.
Qed.

Lemma swap_raises self context :
  raises_with_walk (_decode_swap self context) (swap_round self) (None, None).
Proof. intros σ x Hx. rewrite decode_swap_run. cbn zeta. by rewrite Hx. Qed.

Lemma gauge_raises context topic0 topic1 :
  topics (tx_log context) !! 0 = Some topic0 →
  topics (tx_log context) !! 1 = Some topic1 →
  is_gauge_topic topic0 = true →
  raises_with_walk (_decode_gauge_events context)
    (gauge_round topic0 (hex_or_bytes_to_address topic1) (log_address (tx_log context))
       (hex_or_bytes_to_int (data (tx_log context)))) false.
Proof.
  intros H0 H1 Htopic σ x Hx.
  destruct (decode_gauge_run context topic0 topic1 σ H0 H1 Htopic) as (db' & _ & ->).
  cbn zeta. by rewrite Hx.
Qed.

End Raising.

Lemma walk_aborts_at {A L} (handler : M A) (R : Round L) init σ pre e post x :
  raises_with_walk handler R init →
  decoded_events σ = pre ++ e :: post →
  crypto_asset_of (globaldb σ) (asset e) = Raise x →
  forallb (round_ok R (globaldb σ)) pre = true →
  aborts_at handler σ x (length pre) (e :: post).
Proof.
  intros Hhandler Hσ Hx Hpre.
  destruct (walk_aborts handler R init σ pre e post Hhandler Hσ Hpre)
    as (x' & Hx' & Hfst & Hevents & Hlog).
  { unfold resolves. by rewrite Hx. }
  assert (x' = x) as -> by congruence.
  repeat split; try done.
  rewrite Hevents, drop_app_length'; [done | by rewrite length_map].
Qed.

Lemma walk_raises_keeping {A L} (handler : M A) (R : Round L) init σ pre e post :
  raises_with_walk handler R init →
  decoded_events σ = pre ++ e :: post →
  resolves (globaldb σ) e = false →
  forallb (round_ok R (globaldb σ)) pre = true →
  raises_keeping handler σ (map (reclassified R (globaldb σ)) pre).
Proof.
  intros Hhandler Hσ He Hpre.
  destruct (walk_aborts handler R init σ pre e post Hhandler Hσ Hpre He)
    as (x & _ & Hfst & Hevents & _).
  split; [by exists x |]. by rewrite Hevents, take_app_length.
Qed.

Lemma forallb_resolves_untagging {L} (R : Round L) db events :
  (∀ a e, tags_token R a e = false) →
  forallb (resolves db) events = true → forallb (round_ok R db) events = true.
Proof.
  intros H Hres. erewrite forallb_ext_eq; [exact Hres |].
  intros e. by apply round_ok_untagging.
Qed.

(** C9.  In every handler that walks the events, an event whose asset is
    unknown or of the wrong kind makes the handler raise the resolution
    error: when the events before it raise nothing, the handler raises
    [UnknownAsset] or [WrongAssetType] for that asset, it returns no result,
    that event and all events after it are as they were, and nothing is
    logged. *)
Theorem unresolved_asset_aborts_walk {imports : Imports} self context σ pre e post :
  decoded_events σ = pre ++ e :: post →
  resolves (globaldb σ) e = false →
  ∃ x,
    (globaldb σ !! asset e = None ∧ x = UnknownAsset (asset e) ∨
     (∃ a, globaldb σ !! asset e = Some a ∧ asset_kind a = FIAT)
     ∧ x = WrongAssetType (asset e)) ∧
    (forallb (round_ok (add_liquidity_round self (tx_log context)) (globaldb σ)) pre = true →
     aborts_at (_decode_add_liquidity_events self (tx_log context)) σ x
       (length pre) (e :: post)) ∧
    (forallb (resolves (globaldb σ)) pre = true →
     aborts_at (_decode_remove_liquidity_events self (tx_log context)) σ x
       (length pre) (e :: post)) ∧
    (forallb (resolves (globaldb σ)) pre = true →
     aborts_at (_decode_swap self context) σ x (length pre) (e :: post)) ∧
    (∀ topic0 topic1,
       topics (tx_log context) !! 0 = Some topic0 →
       topics (tx_log context) !! 1 = Some topic1 →
       is_gauge_topic topic0 = true →
       forallb (round_ok
                  (gauge_round topic0 (hex_or_bytes_to_address topic1)
                     (log_address (tx_log context))
                     (hex_or_bytes_to_int (data (tx_log context)))) (globaldb σ)) pre = true →
       aborts_at (_decode_gauge_events context) σ x (length pre) (e :: post)).
Proof.
  intros Hσ He.
  assert (∃ x, crypto_asset_of (globaldb σ) (asset e) = Raise x ∧
     (globaldb σ !! asset e = None ∧ x = UnknownAsset (asset e) ∨
      (∃ a, globaldb σ !! asset e = Some a ∧ asset_kind a = FIAT)
      ∧ x = WrongAssetType (asset e))) as (x & Hx & Hkind).
  { apply unresolved_lookup in He as [[Hnone Hx] | (a & Ha & Hfiat & Hx)].
    - exists (UnknownAsset (asset e)). split; [done |]. by left.
    - exists (WrongAssetType (asset e)). split; [done |]. right. split; [by exists a | done]. }
  exists x. split; [done |]. split; [| split; [| split]].
  - intros Hpre. by eapply walk_aborts_at, Hpre; [apply add_liquidity_raises | |].
  - intros Hpre. eapply walk_aborts_at; [apply remove_liquidity_raises | done | done |].
    by apply forallb_resolves_untagging.
  - intros Hpre. eapply walk_aborts_at; [apply swap_raises | done | done |].
    by apply forallb_resolves_untagging.
  - intros topic0 topic1 H0 H1 Htopic Hpre.
    by eapply walk_aborts_at, Hpre; [apply gauge_raises | |].
Qed.

Lemma unresolved_asset_aborts_walk_witness :
  aborts_at (_decode_swap (imports := Example.imports) Example.self Example.swap_context)
    Example.spend_then_unknown (UnknownAsset "eip155:8453/erc20:0x0") 1
    [Example.approval_of_unknown; Example.receive_usdbc]
  ∧ aborts_at
      (_decode_add_liquidity_events (imports := Example.imports) Example.self
         (tx_log Example.swap_context))
      Example.spend_then_unknown (UnknownAsset "eip155:8453/erc20:0x0") 1
      [Example.approval_of_unknown; Example.receive_usdbc].
Proof.
  destruct (@unresolved_asset_aborts_walk Example.imports Example.self Example.swap_context
              Example.spend_then_unknown [Example.spend_eth] Example.approval_of_unknown
              [Example.receive_usdbc])
    as (x & Hx & Hadd & _ & Hswap & _); [reflexivity | vm_compute; reflexivity |].
  assert (x = UnknownAsset "eip155:8453/erc20:0x0") as ->.
  { destruct Hx as [[_ ->] | [(a & Ha & _) _]]; [reflexivity |].
    vm_compute in Ha. discriminate Ha. }
  split; [apply Hswap | apply Hadd]; vm_compute; reflexivity.
Defined.

(** C10.  Every handler resolves the asset of an event before it looks at
    the shape of the event, so the error of C9 is raised whatever the shape
    of the event, also when no condition of the handler matches it; and the
    events before it keep what the walk has made of them: the sequence is
    not rolled back. *)
Theorem unresolved_asset_keeps_earlier_events {imports : Imports}
    self context σ pre e post :
  decoded_events σ = pre ++ e :: post →
  resolves (globaldb σ) e = false →
  (forallb (round_ok (add_liquidity_round self (tx_log context)) (globaldb σ)) pre = true →
   raises_keeping (_decode_add_liquidity_events self (tx_log context)) σ
     (map (reclassified (add_liquidity_round self (tx_log context)) (globaldb σ)) pre)) ∧
  (forallb (resolves (globaldb σ)) pre = true →
   raises_keeping (_decode_remove_liquidity_events self (tx_log context)) σ
     (map (reclassified (remove_liquidity_round self (tx_log context)) (globaldb σ)) pre)) ∧
  (forallb (resolves (globaldb σ)) pre = true →
   raises_keeping (_decode_swap self context) σ (map (swap_scanned self (globaldb σ)) pre)) ∧
  (∀ topic0 topic1,
     topics (tx_log context) !! 0 = Some topic0 →
     topics (tx_log context) !! 1 = Some topic1 →
     is_gauge_topic topic0 = true →
     forallb (round_ok
                (gauge_round topic0 (hex_or_bytes_to_address topic1)
                   (log_address (tx_log context))
                   (hex_or_bytes_to_int (data (tx_log context)))) (globaldb σ)) pre = true →
     raises_keeping (_decode_gauge_events context) σ
       (map (reclassified
               (gauge_round topic0 (hex_or_bytes_to_address topic1)
                  (log_address (tx_log context))
                  (hex_or_bytes_to_int (data (tx_log context)))) (globaldb σ)) pre)).
Proof.
  intros Hσ He. split; [| split; [| split]].
  - intros Hpre. by eapply walk_raises_keeping, Hpre; [apply add_liquidity_raises | |].
  - intros Hpre. eapply walk_raises_keeping; [apply remove_liquidity_raises | done | done |].
    by apply forallb_resolves_untagging.
  - intros Hpre.
    apply (walk_raises_keeping (_decode_swap self context) (swap_round self) (None, None)
             σ pre e post); [apply swap_raises | done | done |].
    by apply forallb_resolves_untagging.
  - intros topic0 topic1 H0 H1 Htopic Hpre.
    by eapply walk_raises_keeping, Hpre; [apply gauge_raises | |].
Qed.

(** The spend leg reclassified by the scan stays TRADE/SPEND when the next
    event, an approval that no condition matches, has an unknown asset. *)
Lemma unresolved_asset_keeps_earlier_events_witness :
  (∃ x, fst (_decode_swap (imports := Example.imports) Example.self Example.swap_context
               Example.spend_then_unknown) = Raise x)
  ∧ take 1 (decoded_events
              (snd (_decode_swap (imports := Example.imports) Example.self
                      Example.swap_context Example.spend_then_unknown)))
    = [mkEvmEvent HistoryEventType.TRADE HistoryEventSubType.SPEND "ETH" (1 # 10000)
         (Some Example.user) (Some ROUTER) (Some "aerodrome") None
         (Some "Swap <amount> ETH in aerodrome")].
Proof.
  destruct (@unresolved_asset_keeps_earlier_events Example.imports Example.self
              Example.swap_context Example.spend_then_unknown [Example.spend_eth]
              Example.approval_of_unknown [Example.receive_usdbc])
    as (_ & _ & Hswap & _); [reflexivity | vm_compute; reflexivity |].
  apply Hswap. vm_compute. reflexivity.
Defined.

(** * The rest of the decoder *)

(** ** What a walk can leave of its events *)

Lemma round_result_refl {L} (R : Round L) db (events : list EvmEvent) :
  Forall2 (round_result R db) events events.
Proof. induction events; constructor; [by left | done]. Qed.

Lemma walk_results {L} (R : Round L) db events :
  ∀ i locals, Forall2 (round_result R db) events (snd (walk R db i events locals)).
Proof.
  induction events as [| e rest IH]; intros i locals; [constructor |].
  cbn [walk]. unfold round.
  destruct (crypto_asset_of db (asset e)) as [a | x] eqn:Ha.
  - destruct (tags_token R a e && negb (bool_decide (asset_kind a = EVM_TOKEN))).
    + cbn. constructor; [right; by exists a | apply round_result_refl].
    + specialize (IH (S i) (locals_after R i a e locals)).
      destruct (walk R db (S i) rest (locals_after R i a e locals)) as [o rest'].
      cbn in *. constructor; [right; by exists a | done].
  - cbn. constructor; [by left | apply round_result_refl].
Qed.

(** A property of events that every rewrite of the round keeps is kept by
    the walk, position by position. *)
Lemma walk_keeps {L} {B} (R : Round L) (f : EvmEvent → B) db events i locals :
  (∀ a e, f (reclassify R a e) = f e) →
  map f (snd (walk R db i events locals)) = map f events.
Proof.
  intros Hf. pose proof (walk_results R db events i locals) as H.
  induction H as [| e e' l l' [-> | (a & _ & ->)] _ IH]; cbn; [done | |];
    rewrite ?Hf; by f_equal.
Qed.

(** A walk changes an event only where the round rewrites it. *)
Lemma walk_lookup_fixed {L} (R : Round L) db events i locals j e :
  events !! j = Some e → (∀ a, reclassify R a e = e) →
  snd (walk R db i events locals) !! j = Some e.
Proof.
  intros Hj Hfix. pose proof (walk_results R db events i locals) as H.
  destruct (Forall2_lookup_l _ _ _ _ _ H Hj) as (e' & He' & [-> | (a & _ & ->)]);
    [done | by rewrite Hfix in He'].
Qed.

(** A property that holds of the rewritten events holds of every event of
    the result that is not an event of the input. *)
Lemma walk_Forall {L} (R : Round L) (P : EvmEvent → Prop) db events i locals :
  (∀ a e, e ∈ events → reclassify R a e = e ∨ P (reclassify R a e)) →
  Forall (λ e', e' ∈ events ∨ P e') (snd (walk R db i events locals)).
Proof.
  intros HP. pose proof (walk_results R db events i locals) as H.
  apply Forall_forall. intros e' He'.
  apply list_elem_of_lookup in He' as [j Hj].
  destruct (Forall2_lookup_r _ _ _ _ _ H Hj) as (e & He & [-> | (a & _ & ->)]).
  - left. by eapply list_elem_of_lookup_2.
  - destruct (HP a e) as [-> | HPe]; [by eapply list_elem_of_lookup_2 | |].
    + left. by eapply list_elem_of_lookup_2.
    + by right.
Qed.

Lemma splice_after_perm_any (events : list EvmEvent) s r : splice_after s r events ≡ₚ events.
Proof.
  destruct (events !! r) as [receive |] eqn:Hr; [by eapply splice_after_perm |].
  unfold splice_after. by rewrite Hr.
Qed.

(** ** The events, the log and the database after each handler *)

Section Outcomes.
Context {imports : Imports}.

Lemma add_liquidity_outcome self tx_log' σ :
  decoded_events (snd (_decode_add_liquidity_events self tx_log' σ))
    = snd (walk (add_liquidity_round self tx_log') (globaldb σ) 0 (decoded_events σ) tt) ∧
  error_log (snd (_decode_add_liquidity_events self tx_log' σ)) = error_log σ ∧
  ∀ out, fst (_decode_add_liquidity_events self tx_log' σ) = Return out →
         out = DEFAULT_DECODING_OUTPUT.
Proof.
  destruct (decode_add_liquidity_run self tx_log' σ) as (db' & _ & ->). cbn zeta.
  repeat split.
  destruct (fst (walk _ _ _ _ _)); cbn; congruence.
Qed.

Lemma remove_liquidity_outcome self tx_log' σ :
  decoded_events (snd (_decode_remove_liquidity_events self tx_log' σ))
    = snd (walk (remove_liquidity_round self tx_log') (globaldb σ) 0 (decoded_events σ) tt) ∧
  error_log (snd (_decode_remove_liquidity_events self tx_log' σ)) = error_log σ ∧
  globaldb (snd (_decode_remove_liquidity_events self tx_log' σ)) = globaldb σ ∧
  ∀ out, fst (_decode_remove_liquidity_events self tx_log' σ) = Return out →
         out = DEFAULT_DECODING_OUTPUT.
Proof.
  rewrite decode_remove_liquidity_run. cbn zeta. repeat split.
  destruct (fst (walk _ _ _ _ _)); cbn; congruence.
Qed.

Lemma swap_outcome self context σ :
  decoded_events (snd (_decode_swap self context σ))
    ≡ₚ snd (walk (swap_round self) (globaldb σ) 0 (decoded_events σ) (None, None)) ∧
  (∃ msgs, error_log (snd (_decode_swap self context σ)) = error_log σ ++ msgs
           ∧ (length msgs ≤ 1)%nat) ∧
  globaldb (snd (_decode_swap self context σ)) = globaldb σ ∧
  ∀ out, fst (_decode_swap self context σ) = Return out → out = DEFAULT_DECODING_OUTPUT.
Proof.
  rewrite decode_swap_run. cbn zeta.
  destruct (walk (swap_round self) (globaldb σ) 0 (decoded_events σ) (None, None))
    as [[[[s |] [r |]] | x] evs]; cbn [fst snd].
  all: split; [| split; [| split]]; cbn; try congruence; try done.
  - apply splice_after_perm_any.
  - exists []. split; [by rewrite app_nil_r | cbn; lia].
  - eexists [_]. split; [reflexivity | cbn; lia].
  - eexists [_]. split; [reflexivity | cbn; lia].
  - eexists [_]. split; [reflexivity | cbn; lia].
  - exists []. split; [by rewrite app_nil_r | cbn; lia].
Qed.

(** The gauge body tags nothing for a topic other than GAUGE_DEPOSIT. *)
Lemma gauge_body_round_untagging topic0 user gauge_address raw_amount :
  topic0 ≠ GAUGE_DEPOSIT →
  body_is_round (gauge_round topic0 user gauge_address raw_amount) eq
    (gauge_body topic0 user gauge_address raw_amount).
Proof.
  intros Hne i e found σ Hi.
  assert (Htopic : bool_decide (topic0 = GAUGE_DEPOSIT) = false)
    by (by apply bool_decide_eq_false_2).
  unfold gauge_body. unfold_body.
  destruct (globaldb σ !! asset e) as [a |] eqn:Ha; [| by same_db].
  destruct (asset_kind a) eqn:Hkind; cbn; [by same_db | |].
  all: change (bool_decide (location_label e = Some user)
               && bool_decide (address e = Some gauge_address)
               && Qeq_bool (balance_amount e) (asset_normalized_value raw_amount a))
         with (gauge_matches user gauge_address raw_amount a e).
  all: change (gauge_matches user gauge_address raw_amount (untagged a) e)
         with (gauge_matches user gauge_address raw_amount a e).
  all: destruct (gauge_matches user gauge_address raw_amount a e); cbn; [| by same_db].
  all: unfold gauge_event; rewrite Htopic; cbn.
  all: by destruct (bool_decide (topic0 = GAUGE_WITHDRAW)); cbn; same_db.
Qed.

(** The four ways through [_decode_pool_events]. *)
Lemma decode_pool_events_cases self context σ :
  (topics (tx_log context) !! 0 = None ∧
   _decode_pool_events self context σ = (Raise IndexError, σ)) ∨
  (topics (tx_log context) !! 0 = Some REMOVE_LIQUIDITY_EVENT ∧
   _decode_pool_events self context σ
     = _decode_remove_liquidity_events self (tx_log context) σ) ∨
  (topics (tx_log context) !! 0 = Some ADD_LIQUIDITY_EVENT ∧
   _decode_pool_events self context σ
     = _decode_add_liquidity_events self (tx_log context) σ) ∨
  (topics (tx_log context) !! 0 = Some SWAP ∧
   _decode_pool_events self context σ = _decode_swap self context σ) ∨
  (∃ topic0, topics (tx_log context) !! 0 = Some topic0 ∧
     topic0 ≠ REMOVE_LIQUIDITY_EVENT ∧ topic0 ≠ ADD_LIQUIDITY_EVENT ∧ topic0 ≠ SWAP ∧
     _decode_pool_events self context σ = (Return DEFAULT_DECODING_OUTPUT, σ)).
Proof.
  destruct (topics (tx_log context) !! 0) as [topic0 |] eqn:H0.
  - destruct (decide (topic0 = REMOVE_LIQUIDITY_EVENT)) as [-> | Hremove];
      [right; left; by rewrite decode_pool_events_remove |].
    destruct (decide (topic0 = ADD_LIQUIDITY_EVENT)) as [-> | Hadd];
      [right; right; left; by rewrite decode_pool_events_add |].
    destruct (decide (topic0 = SWAP)) as [-> | Hswap];
      [right; right; right; left; by rewrite decode_pool_events_swap |].
    right; right; right; right. exists topic0. repeat split; try done.
    unfold _decode_pool_events, getitem, mbind, M_bind. rewrite H0. cbn.
    by rewrite !bool_decide_eq_false_2.
  - left. split; [done |].
    unfold _decode_pool_events, getitem, mbind, M_bind. by rewrite H0.
Qed.

(** The ways through [_decode_gauge_events]. *)
Lemma decode_gauge_events_cases context σ :
  (topics (tx_log context) !! 0 = None ∧
   _decode_gauge_events context σ = (Raise IndexError, σ)) ∨
  (∃ topic0, topics (tx_log context) !! 0 = Some topic0 ∧ is_gauge_topic topic0 = false ∧
     _decode_gauge_events context σ = (Return DEFAULT_DECODING_OUTPUT, σ)) ∨
  (∃ topic0, topics (tx_log context) !! 0 = Some topic0 ∧ is_gauge_topic topic0 = true ∧
     topics (tx_log context) !! 1 = None ∧
     _decode_gauge_events context σ = (Raise IndexError, σ)) ∨
  (∃ topic0 topic1 db',
     topics (tx_log context) !! 0 = Some topic0 ∧ is_gauge_topic topic0 = true ∧
     topics (tx_log context) !! 1 = Some topic1 ∧
     tagged_from AERODROME_POOL_PROTOCOL (globaldb σ) db' ∧
     (topic0 ≠ GAUGE_DEPOSIT → db' = globaldb σ) ∧
     _decode_gauge_events context σ =
       (match fst (walk (gauge_round topic0 (hex_or_bytes_to_address topic1)
                           (log_address (tx_log context))
                           (hex_or_bytes_to_int (data (tx_log context))))
                     (globaldb σ) 0 (decoded_events σ) false) with
        | Raise x => Raise x
        | Return found => Return (mkDecodingOutput found)
        end,
        mkState
          (snd (walk (gauge_round topic0 (hex_or_bytes_to_address topic1)
                        (log_address (tx_log context))
                        (hex_or_bytes_to_int (data (tx_log context))))
                  (globaldb σ) 0 (decoded_events σ) false))
          db' (error_log σ))).
Proof.
  destruct (topics (tx_log context) !! 0) as [topic0 |] eqn:H0.
  - destruct (is_gauge_topic topic0) eqn:Htopic.
    + destruct (topics (tx_log context) !! 1) as [topic1 |] eqn:H1.
      * right; right; right.
        destruct (decide (topic0 = GAUGE_DEPOSIT)) as [Hdep | Hdep].
        -- destruct (decode_gauge_run context topic0 topic1 σ H0 H1 Htopic)
             as (db' & Htag & Hrun).
           exists topic0, topic1, db'. repeat split; try done.
        -- exists topic0, topic1, (globaldb σ).
           repeat split; try done; [apply tagged_from_refl |].
           unfold _decode_gauge_events, mbind, M_bind, getitem. rewrite H0. cbn.
           unfold is_gauge_topic in Htopic. rewrite Htopic. cbn. rewrite H1. cbn.
           destruct (for_event_in_walk _ eq _ (λ _, eq_refl) eq_trans_db eq_resolve
                       (gauge_body_round_untagging topic0 (hex_or_bytes_to_address topic1)
                          (log_address (tx_log context))
                          (hex_or_bytes_to_int (data (tx_log context))) Hdep) false σ)
             as (db' & <- & ->).
           by destruct (walk _ (globaldb σ) 0 (decoded_events σ) false) as [[found | x] evs].
      * right; right; left. exists topic0. repeat split; try done.
        unfold _decode_gauge_events, mbind, M_bind, getitem. rewrite H0. cbn.
        unfold is_gauge_topic in Htopic. rewrite Htopic. cbn. by rewrite H1.
    + right; left. exists topic0. repeat split; try done.
      unfold _decode_gauge_events, mbind, M_bind, getitem. rewrite H0. cbn.
      unfold is_gauge_topic in Htopic. by rewrite Htopic.
  - left. split; [done |].
    unfold _decode_gauge_events, mbind, M_bind, getitem. by rewrite H0.
Qed.

End Outcomes.

(** ** What the dispatchers never do *)

Section Rewrites.
Context {imports : Imports}.

Lemma add_liquidity_keeps_upstream self tx_log' a e :
  upstream_fields (reclassify (add_liquidity_round self tx_log') a e) = upstream_fields e.
Proof.
  cbn. destruct (add_liquidity_deposit self e); [done |].
  by destruct (add_liquidity_receive e).
Qed.

Lemma remove_liquidity_keeps_upstream self tx_log' a e :
  upstream_fields (reclassify (remove_liquidity_round self tx_log') a e) = upstream_fields e.
Proof.
  cbn. destruct (remove_liquidity_return self e); [done |].
  by destruct (remove_liquidity_withdrawal self e).
Qed.

Lemma swap_keeps_upstream self a e :
  upstream_fields (reclassify (swap_round self) a e) = upstream_fields e.
Proof.
  cbn. destruct (swap_spend_candidate self e); [done |].
  by destruct (swap_receive_candidate self e).
Qed.

Lemma gauge_keeps_upstream topic0 user gauge_address raw_amount a e :
  upstream_fields (reclassify (gauge_round topic0 user gauge_address raw_amount) a e)
  = upstream_fields e.
Proof.
  cbn. destruct (gauge_matches user gauge_address raw_amount a e); [| done].
  unfold gauge_event. by repeat case_bool_decide.
Qed.

End Rewrites.

(** X1.  A log that the dispatchers do not recognise, or that lacks the
    topic they read, leaves the events, the asset database and the log as
    they were, whatever the events are: the pool dispatcher and the gauge
    handler raise [IndexError] on a log without topics, return the default
    output on a first topic that is none of theirs, and the gauge handler
    raises [IndexError] on a gauge topic without a second topic, before it
    looks at any event. *)
Theorem unrecognised_logs_change_nothing {imports : Imports} self context σ :
  (topics (tx_log context) !! 0 = None →
   _decode_pool_events self context σ = (Raise IndexError, σ) ∧
   _decode_gauge_events context σ = (Raise IndexError, σ)) ∧
  (∀ topic0, topics (tx_log context) !! 0 = Some topic0 →
     topic0 ≠ REMOVE_LIQUIDITY_EVENT → topic0 ≠ ADD_LIQUIDITY_EVENT → topic0 ≠ SWAP →
     _decode_pool_events self context σ = (Return DEFAULT_DECODING_OUTPUT, σ)) ∧
  (∀ topic0, topics (tx_log context) !! 0 = Some topic0 →
     topic0 ≠ GAUGE_DEPOSIT → topic0 ≠ GAUGE_WITHDRAW → topic0 ≠ CLAIM_REWARDS →
     _decode_gauge_events context σ = (Return DEFAULT_DECODING_OUTPUT, σ)) ∧
  (∀ topic0, topics (tx_log context) !! 0 = Some topic0 →
     topic0 = GAUGE_DEPOSIT ∨ topic0 = GAUGE_WITHDRAW ∨ topic0 = CLAIM_REWARDS →
     topics (tx_log context) !! 1 = None →
     _decode_gauge_events context σ = (Raise IndexError, σ)).
Proof.
  split; [| split; [| split]].
  - intros H0. split.
    + destruct (decode_pool_events_cases self context σ)
        as [[_ H] | [[H _] | [[H _] | [[H _] | (t & H & _)]]]]; congruence.
    + destruct (decode_gauge_events_cases context σ)
        as [[_ H] | [(t & H & _) | [(t & H & _) | (t & t1 & db' & H & _)]]]; congruence.
  - intros topic0 H0 Hr Ha Hs.
    destruct (decode_pool_events_cases self context σ)
      as [[H _] | [[H _] | [[H _] | [[H _] | (t & _ & _ & _ & _ & H)]]]]; congruence.
  - intros topic0 H0 Hd Hw Hc.
    assert (Htopic : is_gauge_topic topic0 = false).
    { apply bool_decide_eq_false_2. rewrite !elem_of_cons, elem_of_nil. tauto. }
    destruct (decode_gauge_events_cases context σ)
      as [[H _] | [(t & _ & _ & H) | [(t & H & Ht & _) | (t & t1 & db' & H & Ht & _)]]];
      congruence.
  - intros topic0 H0 Htopic H1.
    assert (Hgauge : is_gauge_topic topic0 = true).
    { apply bool_decide_eq_true_2. rewrite !elem_of_cons, elem_of_nil. tauto. }
    destruct (decode_gauge_events_cases context σ)
      as [[H _] | [(t & H & Ht & _) | [(t & _ & _ & _ & H) | (t & t1 & db' & _ & _ & H & _)]]];
      congruence.
Qed.

Lemma unrecognised_logs_change_nothing_witness :
  _decode_pool_events (imports := Example.imports) Example.self Example2.no_topics_context
    Example.spend_then_unknown = (Raise IndexError, Example.spend_then_unknown)
  ∧ _decode_pool_events (imports := Example.imports) Example.self Example2.unknown_context
      Example.spend_then_unknown = (Return DEFAULT_DECODING_OUTPUT, Example.spend_then_unknown)
  ∧ _decode_gauge_events (imports := Example.imports) Example2.unknown_context
      Example.stake_then_unknown = (Return DEFAULT_DECODING_OUTPUT, Example.stake_then_unknown)
  ∧ _decode_gauge_events (imports := Example.imports) Example2.gauge_one_topic_context
      Example.stake = (Raise IndexError, Example.stake).
Proof.
  split; [| split; [| split]].
  - destruct (@unrecognised_logs_change_nothing Example.imports Example.self
                Example2.no_topics_context Example.spend_then_unknown) as (H & _).
    by apply H.
  - destruct (@unrecognised_logs_change_nothing Example.imports Example.self
                Example2.unknown_context Example.spend_then_unknown) as (_ & H & _).
    by apply (H Example2.unknown_topic).
  - destruct (@unrecognised_logs_change_nothing Example.imports Example.self
                Example2.unknown_context Example.stake_then_unknown) as (_ & _ & H & _).
    by apply (H Example2.unknown_topic).
  - destruct (@unrecognised_logs_change_nothing Example.imports Example.self
                Example2.gauge_one_topic_context Example.stake) as (_ & _ & _ & H).
    apply (H GAUGE_DEPOSIT); [reflexivity | by left | reflexivity].
Defined.

(** X2.  The pool dispatcher never asks for a refresh of balances: when
    it returns, it returns the default output, whatever the topic and the
    events.  Of all the handlers only the swap handler writes to the log,
    and at most one line per log entry; the gauge handler and the pool
    dispatcher on any other topic leave the log as it was, also when they
    raise. *)
Theorem dispatch_output_and_log {imports : Imports} self context σ :
  (∀ out, fst (_decode_pool_events self context σ) = Return out →
          refresh_balances out = false) ∧
  (∃ msgs, error_log (snd (_decode_pool_events self context σ)) = error_log σ ++ msgs ∧
           (length msgs ≤ 1)%nat ∧
           (topics (tx_log context) !! 0 ≠ Some SWAP → msgs = [])) ∧
  error_log (snd (_decode_gauge_events context σ)) = error_log σ.
Proof.
  split; [| split].
  - intros out.
    destruct (decode_pool_events_cases self context σ)
      as [[_ ->] | [[_ ->] | [[_ ->] | [[_ ->] | (t & _ & _ & _ & _ & ->)]]]]; cbn.
    + done.
    + intros H. by apply remove_liquidity_outcome in H as ->.
    + intros H. by apply add_liquidity_outcome in H as ->.
    + intros H. by apply swap_outcome in H as ->.
    + by intros [= <-].
  - destruct (decode_pool_events_cases self context σ)
      as [[H0 ->] | [[H0 ->] | [[H0 ->] | [[H0 ->] | (t & H0 & _ & _ & _ & ->)]]]].
    + exists []. rewrite app_nil_r. split; [done | split; [cbn; lia | done]].
    + exists []. rewrite app_nil_r.
      split; [apply remove_liquidity_outcome | split; [cbn; lia | done]].
    + exists []. rewrite app_nil_r.
      split; [apply add_liquidity_outcome | split; [cbn; lia | done]].
    + destruct (swap_outcome self context σ) as (_ & (msgs & Hlog & Hlen) & _).
      exists msgs. split; [done | split; [done | congruence]].
    + exists []. rewrite app_nil_r. split; [done | split; [cbn; lia | done]].
  - destruct (decode_gauge_events_cases context σ)
      as [[_ ->] | [(t & _ & _ & ->) | [(t & _ & _ & _ & ->)
                                      | (t & t1 & db' & _ & _ & _ & _ & _ & ->)]]]; done.
Qed.

(** X3.  Only an ADD_LIQUIDITY log and a GAUGE_DEPOSIT log can change the
    asset database: the pool dispatcher on any other topic, and the gauge
    handler on any other topic, leave it as it was, whatever the events
    and also when they raise. *)
Theorem only_deposits_touch_assets {imports : Imports} self context σ :
  (topics (tx_log context) !! 0 ≠ Some ADD_LIQUIDITY_EVENT →
   globaldb (snd (_decode_pool_events self context σ)) = globaldb σ) ∧
  (topics (tx_log context) !! 0 ≠ Some GAUGE_DEPOSIT →
   globaldb (snd (_decode_gauge_events context σ)) = globaldb σ).
Proof.
  split.
  - intros Hadd.
    destruct (decode_pool_events_cases self context σ)
      as [[_ ->] | [[_ ->] | [[H0 _] | [[_ ->] | (t & _ & _ & _ & _ & ->)]]]];
      try done.
    + apply remove_liquidity_outcome.
    + apply swap_outcome.
  - intros Hdeposit.
    destruct (decode_gauge_events_cases context σ)
      as [[_ ->] | [(t & _ & _ & ->) | [(t & _ & _ & _ & ->)
                                      | (t & t1 & db' & H0 & _ & _ & _ & Hdb & ->)]]];
      try done.
    cbn. apply Hdb. congruence.
Qed.

Lemma only_deposits_touch_assets_witness :
  globaldb (snd (_decode_pool_events (imports := Example.imports) Example.self
                   Example.remove_context Example.withdrawal))
    = globaldb Example.withdrawal
  ∧ globaldb (snd (_decode_gauge_events (imports := Example.imports)
                     (Example.gauge_context GAUGE_WITHDRAW) Example.stake))
    = globaldb Example.stake.
Proof.
  split.
  - destruct (@only_deposits_touch_assets Example.imports Example.self Example.remove_context
                Example.withdrawal) as [H _].
    apply H. discriminate.
  - destruct (@only_deposits_touch_assets Example.imports Example.self
                (Example.gauge_context GAUGE_WITHDRAW) Example.stake) as [_ H].
    apply H. discriminate.
Defined.

(** X4.  No handler writes the asset, the amount, the location label or the
    address of an event, and none adds or removes an event, whatever the
    outcome: after the gauge handler, and after the pool dispatcher on a
    topic other than SWAP, these fields are the same position by position;
    after a SWAP log they are the same up to the order of the events. *)
Theorem handlers_keep_upstream_fields {imports : Imports} self context σ :
  map upstream_fields (decoded_events (snd (_decode_pool_events self context σ)))
    ≡ₚ map upstream_fields (decoded_events σ) ∧
  (topics (tx_log context) !! 0 ≠ Some SWAP →
   map upstream_fields (decoded_events (snd (_decode_pool_events self context σ)))
     = map upstream_fields (decoded_events σ)) ∧
  map upstream_fields (decoded_events (snd (_decode_gauge_events context σ)))
    = map upstream_fields (decoded_events σ).
Proof.
  assert (Hpool :
    topics (tx_log context) !! 0 ≠ Some SWAP →
    map upstream_fields (decoded_events (snd (_decode_pool_events self context σ)))
      = map upstream_fields (decoded_events σ)).
  { intros Hswap.
    destruct (decode_pool_events_cases self context σ)
      as [[_ ->] | [[_ ->] | [[_ ->] | [[H0 _] | (t & _ & _ & _ & _ & ->)]]]];
      try done.
    - destruct (remove_liquidity_outcome self (tx_log context) σ) as (-> & _).
      apply walk_keeps, remove_liquidity_keeps_upstream.
    - destruct (add_liquidity_outcome self (tx_log context) σ) as (-> & _).
      apply walk_keeps, add_liquidity_keeps_upstream. }
  split; [| split; [exact Hpool |]].
  - destruct (decide (topics (tx_log context) !! 0 = Some SWAP)) as [Hswap | Hswap];
      [| by rewrite Hpool].
    rewrite decode_pool_events_swap by done.
    destruct (swap_outcome self context σ) as (Hperm & _).
    rewrite Hperm. by rewrite (walk_keeps _ _ _ _ _ _ (swap_keeps_upstream self)).
  - destruct (decode_gauge_events_cases context σ)
      as [[_ ->] | [(t & _ & _ & ->) | [(t & _ & _ & _ & ->)
                                      | (t & t1 & db' & _ & _ & _ & _ & _ & ->)]]];
      try done.
    cbn. apply walk_keeps, gauge_keeps_upstream.
Qed.

Lemma handlers_keep_upstream_fields_witness :
  map upstream_fields
    (decoded_events (snd (_decode_pool_events (imports := Example.imports) Example.self
                            Example.add_context Example.deposit_then_unknown)))
  = map upstream_fields (decoded_events Example.deposit_then_unknown).
Proof.
  destruct (@handlers_keep_upstream_fields Example.imports Example.self Example.add_context
              Example.deposit_then_unknown) as (_ & H & _).
  apply H. discriminate.
Defined.

(** ** Classified events and the pool dispatcher *)

Lemma filter_sublist_results {L} (R : Round L) db (P : EvmEvent → bool) events events' :
  Forall2 (round_result R db) events events' →
  (∀ a e, P e = true → reclassify R a e = e) →
  List.filter P events `sublist_of` events'.
Proof.
  intros H Hfix. induction H as [| e e' l l' He _ IH]; [constructor |].
  cbn. destruct (P e) eqn:HP.
  - assert (e' = e) as -> by (destruct He as [-> | (a & _ & ->)]; [done | by apply Hfix]).
    by apply sublist_skip.
  - by apply sublist_cons.
Qed.

Lemma filter_delete_false (P : EvmEvent → bool) (events : list EvmEvent) r e :
  events !! r = Some e → P e = false →
  List.filter P (delete r events) = List.filter P events.
Proof.
  revert r. induction events as [| x rest IH]; intros [| r] Hr HP; try done.
  - injection Hr as ->. cbn. by rewrite HP.
  - change (delete (S r) (x :: rest)) with (x :: delete r rest).
    cbn [List.filter]. by rewrite (IH r).
Qed.

Section Classified.
Context {imports : Imports} (self : AerodromeDecoder).

Lemma classified_not_raw e :
  is_classified e = true →
  is_raw HistoryEventType.SPEND e = false ∧ is_raw HistoryEventType.RECEIVE e = false.
Proof.
  unfold is_classified. intros [H1 H2]%andb_prop.
  by apply negb_true_iff in H1, H2.
Qed.

Lemma add_liquidity_fixes_classified tx_log' a e :
  is_classified e = true → reclassify (add_liquidity_round self tx_log') a e = e.
Proof.
  intros [Hs Hr]%classified_not_raw. cbn.
  unfold add_liquidity_deposit, add_liquidity_receive. by rewrite Hs, Hr.
Qed.

Lemma remove_liquidity_fixes_classified tx_log' a e :
  is_classified e = true → reclassify (remove_liquidity_round self tx_log') a e = e.
Proof.
  intros [Hs Hr]%classified_not_raw. cbn.
  unfold remove_liquidity_return, remove_liquidity_withdrawal. by rewrite Hs, Hr.
Qed.

Lemma swap_fixes_classified a e :
  is_classified e = true → reclassify (swap_round self) a e = e.
Proof.
  intros [Hs Hr]%classified_not_raw. cbn.
  unfold swap_spend_candidate, swap_receive_candidate. by rewrite Hs, Hr.
Qed.

Lemma swap_receive_candidate_raw e :
  swap_receive_candidate self e = true → is_classified e = false.
Proof.
  unfold swap_receive_candidate, is_classified. intros [-> _]%andb_prop.
  by rewrite andb_false_r.
Qed.

(** The receive leg that a returning scan hands to the reordering is a raw
    event of the input. *)
Lemma swap_scan_receive_raw σ s r :
  fst (walk (swap_round self) (globaldb σ) 0 (decoded_events σ) (None, None))
    = Return (s, Some r) →
  ∃ e, decoded_events σ !! r = Some e ∧ is_classified e = false.
Proof.
  intros Hret. pose proof (walk_returns _ _ _ _ _ _ Hret) as Hok.
  rewrite walk_ok in Hret by done. cbn in Hret.
  rewrite swap_walk_locals in Hret
    by (rewrite forallb_forall in *; intros e He; by eapply round_ok_resolves, Hok).
  injection Hret as _ Hr.
  apply last_candidate_some in Hr as (e & He & Hcand & _).
  exists e. split; [done |]. by apply swap_receive_candidate_raw.
Qed.

Lemma swap_classified_sublist context σ :
  List.filter is_classified (decoded_events σ)
    `sublist_of` decoded_events (snd (_decode_swap self context σ)).
Proof.
  rewrite decode_swap_run. cbn zeta.
  pose proof (walk_results (swap_round self) (globaldb σ) (decoded_events σ) 0 (None, None))
    as Hres.
  pose proof (swap_scan_receive_raw σ) as Hraw.
  destruct (walk (swap_round self) (globaldb σ) 0 (decoded_events σ) (None, None))
    as [[[[s |] [r |]] | x] evs]; cbn [fst snd] in *;
    try (by eapply filter_sublist_results, swap_fixes_classified).
  destruct (Hraw (Some s) r eq_refl) as (e & He & Hclass).
  unfold splice_after.
  destruct (evs !! r) as [leg |] eqn:Hleg;
    [| by eapply filter_sublist_results, swap_fixes_classified].
  rewrite <- (filter_delete_false is_classified _ r e He Hclass).
  transitivity (delete r evs).
  - eapply filter_sublist_results; [by apply Forall2_delete | apply swap_fixes_classified].
  - rewrite <- (take_drop (S (if decide (r < s) then s - 1 else s)) (delete r evs)) at 1.
    apply sublist_app; [done |]. by apply sublist_cons.
Qed.

End Classified.

(** X5.  The pool dispatcher rewrites raw events only: an event that is
    neither SPEND/NONE nor RECEIVE/NONE is still there after the dispatch,
    with all its fields, and these events keep their order; for a topic
    other than SWAP each of them keeps its position.  This holds for every
    topic and whatever the outcome. *)
Theorem classified_events_survive_pool_dispatch {imports : Imports} self context σ :
  List.filter is_classified (decoded_events σ)
    `sublist_of` decoded_events (snd (_decode_pool_events self context σ)) ∧
  (topics (tx_log context) !! 0 ≠ Some SWAP →
   ∀ j e, decoded_events σ !! j = Some e → is_classified e = true →
          decoded_events (snd (_decode_pool_events self context σ)) !! j = Some e).
Proof.
  split.
  - destruct (decode_pool_events_cases self context σ)
      as [[_ ->] | [[_ ->] | [[_ ->] | [[_ ->] | (t & _ & _ & _ & _ & ->)]]]].
    + eapply (filter_sublist_results (swap_round self) (globaldb σ));
        [apply round_result_refl | apply swap_fixes_classified].
    + destruct (remove_liquidity_outcome self (tx_log context) σ) as (-> & _).
      eapply filter_sublist_results;
        [apply walk_results | apply remove_liquidity_fixes_classified].
    + destruct (add_liquidity_outcome self (tx_log context) σ) as (-> & _).
      eapply filter_sublist_results;
        [apply walk_results | apply add_liquidity_fixes_classified].
    + apply swap_classified_sublist.
    + eapply (filter_sublist_results (swap_round self) (globaldb σ));
        [apply round_result_refl | apply swap_fixes_classified].
  - intros Hswap j e Hj Hclass.
    destruct (decode_pool_events_cases self context σ)
      as [[_ ->] | [[_ ->] | [[_ ->] | [[H0 _] | (t & _ & _ & _ & _ & ->)]]]];
      try done.
    + destruct (remove_liquidity_outcome self (tx_log context) σ) as (-> & _).
      apply walk_lookup_fixed; [done |].
      intros a. by apply remove_liquidity_fixes_classified.
    + destruct (add_liquidity_outcome self (tx_log context) σ) as (-> & _).
      apply walk_lookup_fixed; [done |].
      intros a. by apply add_liquidity_fixes_classified.
Qed.

Lemma classified_events_survive_pool_dispatch_witness :
  decoded_events
    (snd (_decode_pool_events (imports := Example.imports) Example.self Example.add_context
            Example.deposit)) !! 0 = Some Example.gas.
Proof.
  destruct (@classified_events_survive_pool_dispatch Example.imports Example.self
              Example.add_context Example.deposit) as [_ H].
  apply H; [discriminate | reflexivity | reflexivity].
Defined.

(** ** The listings against the handlers *)

Section Listed.
Context {imports : Imports}.

Lemma listed_category_aerodrome e :
  counterparty e = Some CPT_AERODROME →
  listed_category e =
    match dict_get (K := HistoryEventType.t)
            [(HistoryEventType.TRADE,
              [(HistoryEventSubType.SPEND, EventCategory.SWAP_OUT);
               (HistoryEventSubType.RECEIVE, EventCategory.SWAP_IN)]);
             (HistoryEventType.WITHDRAWAL,
              [(HistoryEventSubType.REMOVE_ASSET, EventCategory.WITHDRAW)]);
             (HistoryEventType.RECEIVE,
              [(HistoryEventSubType.RECEIVE_WRAPPED, EventCategory.RECEIVE);
               (HistoryEventSubType.REWARD, EventCategory.CLAIM_REWARD)]);
             (HistoryEventType.SPEND,
              [(HistoryEventSubType.RETURN_WRAPPED, EventCategory.SEND)]);
             (HistoryEventType.DEPOSIT,
              [(HistoryEventSubType.DEPOSIT_ASSET, EventCategory.DEPOSIT)])]
            (event_type e) with
    | None => None
    | Some by_subtype => dict_get by_subtype (event_subtype e)
    end.
Proof.
  intros Hcpt. unfold listed_category, possible_events. rewrite Hcpt.
  cbn [dict_get]. by rewrite decide_True.
Qed.

Lemma listed_product_aerodrome e p :
  counterparty e = Some CPT_AERODROME → product e = Some p → listed_product e = true.
Proof.
  intros Hcpt Hp. unfold listed_product, possible_products. rewrite Hcpt, Hp.
  cbn [dict_get]. rewrite decide_True by done.
  apply bool_decide_eq_true_2.
  destruct p; [apply list_elem_of_here | apply list_elem_of_further, list_elem_of_here].
Qed.

Lemma is_raw_type t e : is_raw t e = true → event_type e = t.
Proof. unfold is_raw. intros [H _]%andb_prop. by apply bool_decide_eq_true in H. Qed.

Lemma well_listed_intro e' t s c :
  counterparty e' = Some CPT_AERODROME → event_type e' = t → event_subtype e' = s →
  match dict_get (K := HistoryEventType.t)
          [(HistoryEventType.TRADE,
            [(HistoryEventSubType.SPEND, EventCategory.SWAP_OUT);
             (HistoryEventSubType.RECEIVE, EventCategory.SWAP_IN)]);
           (HistoryEventType.WITHDRAWAL,
            [(HistoryEventSubType.REMOVE_ASSET, EventCategory.WITHDRAW)]);
           (HistoryEventType.RECEIVE,
            [(HistoryEventSubType.RECEIVE_WRAPPED, EventCategory.RECEIVE);
             (HistoryEventSubType.REWARD, EventCategory.CLAIM_REWARD)]);
           (HistoryEventType.SPEND,
            [(HistoryEventSubType.RETURN_WRAPPED, EventCategory.SEND)]);
           (HistoryEventType.DEPOSIT,
            [(HistoryEventSubType.DEPOSIT_ASSET, EventCategory.DEPOSIT)])] t with
  | None => None
  | Some by_subtype => dict_get by_subtype s
  end = Some c →
  well_listed e'.
Proof.
  intros Hcpt <- <- Hc. split.
  - rewrite listed_category_aerodrome by done. by rewrite Hc.
  - exists (mkCounterpartyDetails CPT_AERODROME "aerodrome_finance" "aerodrome.svg").
    split; [apply list_elem_of_here | done].
Qed.

Lemma add_liquidity_well_listed self tx_log' a e :
  reclassify (add_liquidity_round self tx_log') a e = e ∨
  well_listed (reclassify (add_liquidity_round self tx_log') a e)
  ∧ listed_product (reclassify (add_liquidity_round self tx_log') a e) = true.
Proof.
  cbn. destruct (add_liquidity_deposit self e) eqn:Hd.
  - right. split; [by eapply well_listed_intro | by eapply listed_product_aerodrome].
  - destruct (add_liquidity_receive e) eqn:Hr; [| by left].
    right. apply andb_prop in Hr as [Hraw _]. apply is_raw_type in Hraw.
    split; [| by eapply listed_product_aerodrome].
    eapply well_listed_intro; [done | exact Hraw | done | done].
Qed.

Lemma remove_liquidity_well_listed self tx_log' a e :
  reclassify (remove_liquidity_round self tx_log') a e = e ∨
  well_listed (reclassify (remove_liquidity_round self tx_log') a e)
  ∧ listed_product (reclassify (remove_liquidity_round self tx_log') a e) = true.
Proof.
  cbn. destruct (remove_liquidity_return self e) eqn:Hd.
  - right. apply andb_prop in Hd as [Hraw _]. apply is_raw_type in Hraw.
    split; [| by eapply listed_product_aerodrome].
    eapply well_listed_intro; [done | exact Hraw | done | done].
  - destruct (remove_liquidity_withdrawal self e) eqn:Hr; [| by left].
    right. split; [by eapply well_listed_intro | by eapply listed_product_aerodrome].
Qed.

Lemma swap_well_listed self a e :
  reclassify (swap_round self) a e = e ∨ well_listed (reclassify (swap_round self) a e).
Proof.
  cbn. destruct (swap_spend_candidate self e) eqn:Hd.
  - right. by eapply well_listed_intro.
  - destruct (swap_receive_candidate self e) eqn:Hr; [| by left].
    right. by eapply well_listed_intro.
Qed.

Lemma gauge_well_listed topic0 user gauge_address raw_amount a e :
  topic0 = GAUGE_DEPOSIT ∨ topic0 = GAUGE_WITHDRAW →
  reclassify (gauge_round topic0 user gauge_address raw_amount) a e = e ∨
  well_listed (reclassify (gauge_round topic0 user gauge_address raw_amount) a e)
  ∧ listed_product (reclassify (gauge_round topic0 user gauge_address raw_amount) a e) = true.
Proof.
  intros Htopic. cbn.
  destruct (gauge_matches user gauge_address raw_amount a e); [| by left].
  right. unfold gauge_event.
  destruct Htopic as [-> | ->]; cbn;
    (split; [by eapply well_listed_intro | by eapply listed_product_aerodrome]).
Qed.

Lemma gauge_claim_not_listed user gauge_address raw_amount a e :
  reclassify (gauge_round CLAIM_REWARDS user gauge_address raw_amount) a e = e ∨
  (event_type (reclassify (gauge_round CLAIM_REWARDS user gauge_address raw_amount) a e)
     = HistoryEventType.WITHDRAWAL ∧
   event_subtype (reclassify (gauge_round CLAIM_REWARDS user gauge_address raw_amount) a e)
     = HistoryEventSubType.REWARD ∧
   listed_category (reclassify (gauge_round CLAIM_REWARDS user gauge_address raw_amount) a e)
     = None).
Proof.
  cbn. destruct (gauge_matches user gauge_address raw_amount a e); [| by left].
  right. unfold gauge_event. cbn. repeat split.
  by rewrite listed_category_aerodrome.
Qed.

Lemma gauge_listed_product topic0 user gauge_address raw_amount a e :
  reclassify (gauge_round topic0 user gauge_address raw_amount) a e = e ∨
  listed_product (reclassify (gauge_round topic0 user gauge_address raw_amount) a e) = true.
Proof.
  cbn. destruct (gauge_matches user gauge_address raw_amount a e); [| by left].
  right. unfold gauge_event.
  repeat case_bool_decide; by eapply listed_product_aerodrome.
Qed.

End Listed.

(** X6.  Every event that a handler has rewritten carries the counterparty
    that [counterparties] declares and a type and subtype that
    [possible_events] lists under it, with one exception: for a
    CLAIM_REWARDS log the gauge handler writes WITHDRAWAL/REWARD, which
    [possible_events] does not list (it lists REWARD under RECEIVE).  Every
    event after a dispatch is an event of the input or such a rewritten
    event, whatever the outcome. *)
Theorem rewritten_events_are_listed {imports : Imports} self context σ :
  Forall (λ e', e' ∈ decoded_events σ ∨ well_listed e')
    (decoded_events (snd (_decode_pool_events self context σ))) ∧
  (topics (tx_log context) !! 0 ≠ Some CLAIM_REWARDS →
   Forall (λ e', e' ∈ decoded_events σ ∨ well_listed e')
     (decoded_events (snd (_decode_gauge_events context σ)))) ∧
  (topics (tx_log context) !! 0 = Some CLAIM_REWARDS →
   Forall (λ e', e' ∈ decoded_events σ ∨
                 (event_type e' = HistoryEventType.WITHDRAWAL ∧
                  event_subtype e' = HistoryEventSubType.REWARD ∧
                  listed_category e' = None))
     (decoded_events (snd (_decode_gauge_events context σ)))).
Proof.
  assert (Hsame : ∀ P : EvmEvent → Prop,
            Forall (λ e', e' ∈ decoded_events σ ∨ P e') (decoded_events σ)).
  { intros P. apply Forall_forall. intros e He. by left. }
  split; [| split].
  - destruct (decode_pool_events_cases self context σ)
      as [[_ ->] | [[_ ->] | [[_ ->] | [[_ ->] | (t & _ & _ & _ & _ & ->)]]]];
      try apply Hsame.
    + destruct (remove_liquidity_outcome self (tx_log context) σ) as (-> & _).
      apply walk_Forall. intros a e _.
      destruct (remove_liquidity_well_listed self (tx_log context) a e) as [? | [? _]]; eauto.
    + destruct (add_liquidity_outcome self (tx_log context) σ) as (-> & _).
      apply walk_Forall. intros a e _.
      destruct (add_liquidity_well_listed self (tx_log context) a e) as [? | [? _]]; eauto.
    + destruct (swap_outcome self context σ) as (-> & _).
      apply walk_Forall. intros a e _. apply swap_well_listed.
  - intros Hclaim.
    destruct (decode_gauge_events_cases context σ)
      as [[_ ->] | [(t & _ & _ & ->) | [(t & _ & _ & _ & ->)
                                      | (t & t1 & db' & H0 & Ht & _ & _ & _ & ->)]]];
      try apply Hsame.
    cbn. apply walk_Forall. intros a e _.
    assert (t = GAUGE_DEPOSIT ∨ t = GAUGE_WITHDRAW) as Htopic.
    { apply bool_decide_eq_true in Ht. rewrite !elem_of_cons, elem_of_nil in Ht.
      destruct Ht as [-> | [-> | [-> | []]]]; [by left | by right | congruence]. }
    destruct (gauge_well_listed t (hex_or_bytes_to_address t1) (log_address (tx_log context))
                (hex_or_bytes_to_int (data (tx_log context))) a e Htopic) as [? | [? _]];
      eauto.
  - intros Hclaim.
    destruct (decode_gauge_events_cases context σ)
      as [[_ ->] | [(t & _ & _ & ->) | [(t & _ & _ & _ & ->)
                                      | (t & t1 & db' & H0 & Ht & _ & _ & _ & ->)]]];
      try apply Hsame.
    cbn. assert (t = CLAIM_REWARDS) as -> by congruence.
    apply walk_Forall. intros a e _. apply gauge_claim_not_listed.
Qed.

(** A reward claimed from the gauge: the event is WITHDRAWAL/REWARD, and
    [possible_events] has no entry for it. *)
Lemma rewritten_events_are_listed_witness :
  Forall (λ e', e' ∈ decoded_events Example.stake ∨
                (event_type e' = HistoryEventType.WITHDRAWAL ∧
                 event_subtype e' = HistoryEventSubType.REWARD ∧
                 listed_category (imports := Example.imports) e' = None))
    (decoded_events (snd (_decode_gauge_events (imports := Example.imports)
                            (Example.gauge_context CLAIM_REWARDS) Example.stake))).
Proof.
  destruct (@rewritten_events_are_listed Example.imports Example.self
              (Example.gauge_context CLAIM_REWARDS) Example.stake) as (_ & _ & H).
  apply H. reflexivity.
Defined.

(** X7.  Every event that the liquidity handlers or the gauge handler have
    rewritten carries a product that [possible_products] lists under its
    counterparty; the swap handler writes no product, so after a SWAP log
    the products are the ones the events came with. *)
Theorem rewritten_events_have_listed_products {imports : Imports} self context σ :
  (topics (tx_log context) !! 0 ≠ Some SWAP →
   Forall (λ e', e' ∈ decoded_events σ ∨ listed_product e' = true)
     (decoded_events (snd (_decode_pool_events self context σ)))) ∧
  Forall (λ e', e' ∈ decoded_events σ ∨ listed_product e' = true)
    (decoded_events (snd (_decode_gauge_events context σ))) ∧
  (topics (tx_log context) !! 0 = Some SWAP →
   map product (decoded_events (snd (_decode_pool_events self context σ)))
     ≡ₚ map product (decoded_events σ)).
Proof.
  assert (Hsame : ∀ P : EvmEvent → Prop,
            Forall (λ e', e' ∈ decoded_events σ ∨ P e') (decoded_events σ)).
  { intros P. apply Forall_forall. intros e He. by left. }
  split; [| split].
  - intros Hswap.
    destruct (decode_pool_events_cases self context σ)
      as [[_ ->] | [[_ ->] | [[_ ->] | [[H0 _] | (t & _ & _ & _ & _ & ->)]]]];
      try done; try apply Hsame.
    + destruct (remove_liquidity_outcome self (tx_log context) σ) as (-> & _).
      apply walk_Forall. intros a e _.
      destruct (remove_liquidity_well_listed self (tx_log context) a e) as [? | [_ ?]]; eauto.
    + destruct (add_liquidity_outcome self (tx_log context) σ) as (-> & _).
      apply walk_Forall. intros a e _.
      destruct (add_liquidity_well_listed self (tx_log context) a e) as [? | [_ ?]]; eauto.
  - destruct (decode_gauge_events_cases context σ)
      as [[_ ->] | [(t & _ & _ & ->) | [(t & _ & _ & _ & ->)
                                      | (t & t1 & db' & H0 & Ht & _ & _ & _ & ->)]]];
      try apply Hsame.
    cbn. apply walk_Forall. intros a e _. apply gauge_listed_product.
  - intros Hswap. rewrite decode_pool_events_swap by done.
    destruct (swap_outcome self context σ) as (-> & _).
    rewrite (walk_keeps (swap_round self) product); [done |].
    intros a e. cbn. destruct (swap_spend_candidate self e); [done |].
    by destruct (swap_receive_candidate self e).
Qed.

Lemma rewritten_events_have_listed_products_witness :
  Forall (λ e', e' ∈ decoded_events Example.deposit ∨
                listed_product (imports := Example.imports) e' = true)
    (decoded_events (snd (_decode_pool_events (imports := Example.imports) Example.self
                            Example.add_context Example.deposit))).
Proof.
  destruct (@rewritten_events_have_listed_products Example.imports Example.self
              Example.add_context Example.deposit) as (H & _).
  apply H. discriminate.
Defined.

(** X8.  [addresses_to_decoders] registers the gauge handler for every
    gauge address and the pool dispatcher for every pool address that is
    no gauge address; an address that is both gets the gauge handler
    alone, since the update overwrites the entry of the pool; and no other
    address is registered. *)
Theorem addresses_to_decoders_lookup {imports : Imports} self a :
  (a ∈ gauges self → addresses_to_decoders self !! a = Some [_decode_gauge_events]) ∧
  (a ∈ pools self → a ∉ gauges self →
   addresses_to_decoders self !! a = Some [_decode_pool_events self]) ∧
  (a ∉ pools self → a ∉ gauges self → addresses_to_decoders self !! a = None) ∧
  dom (addresses_to_decoders self) = pools self ∪ gauges self.
Proof.
  unfold addresses_to_decoders. cbn zeta. split; [| split; [| split]].
  - intros Hg. apply lookup_union_Some_l. by apply lookup_gset_to_gmap_Some.
  - intros Hp Hg. rewrite lookup_union_r by (by apply lookup_gset_to_gmap_None).
    by apply lookup_gset_to_gmap_Some.
  - intros Hp Hg. rewrite lookup_union_r by (by apply lookup_gset_to_gmap_None).
    by apply lookup_gset_to_gmap_None.
  - rewrite dom_union_L, !dom_gset_to_gmap. apply leibniz_equiv. apply union_comm.
Qed.

Lemma addresses_to_decoders_lookup_witness :
  addresses_to_decoders (imports := Example.imports) Example.self
    !! Example.WETH_USDBC_GAUGE_ADDRESS
  = Some [_decode_gauge_events (imports := Example.imports)]
  ∧ addresses_to_decoders (imports := Example.imports) Example.self
      !! Example.WETH_USDBC_POOL_ADDRESS
    = Some [_decode_pool_events (imports := Example.imports) Example.self]
  ∧ addresses_to_decoders (imports := Example.imports) Example.self !! ROUTER = None.
Proof.
  split; [| split].
  - destruct (@addresses_to_decoders_lookup Example.imports Example.self
                Example.WETH_USDBC_GAUGE_ADDRESS) as (H & _).
    apply H. vm_compute. set_solver.
  - destruct (@addresses_to_decoders_lookup Example.imports Example.self
                Example.WETH_USDBC_POOL_ADDRESS) as (_ & H & _).
    apply H; unfold Example.self, __init__; cbn; set_solver.
  - destruct (@addresses_to_decoders_lookup Example.imports Example.self ROUTER)
      as (_ & _ & H & _).
    apply H; unfold Example.self, __init__; cbn; set_solver.
Defined.

(** ** Dispatching the same log twice *)

Lemma walk_twice {L} (R : Round L) db db' events :
  (∀ id, crypto_asset_of db' id = crypto_asset_of db id) →
  (∀ a e, asset (reclassify R a e) = asset e) →
  (∀ a e, reclassify R a (reclassify R a e) = reclassify R a e) →
  (∀ a e, tags_token R a (reclassify R a e) = true → tags_token R a e = true) →
  forallb (round_ok R db) events = true →
  forallb (round_ok R db') (map (reclassified R db) events) = true ∧
  map (reclassified R db') (map (reclassified R db) events) = map (reclassified R db) events.
Proof.
  intros Hdb Hasset Hidem Htags.
  induction events as [| e rest IH]; [done |]. cbn [forallb map].
  intros [He Hrest]%andb_prop. destruct (IH Hrest) as [IH1 IH2].
  assert (∃ a, crypto_asset_of db (asset e) = Return a ∧
               reclassified R db e = reclassify R a e ∧
               implb (tags_token R a e) (bool_decide (asset_kind a = EVM_TOKEN)) = true)
    as (a & Ha & -> & Himpl).
  { unfold round_ok, reclassified in *.
    destruct (crypto_asset_of db (asset e)) as [a | x]; [by exists a | done]. }
  assert (Hok : round_ok R db' (reclassify R a e) = true).
  { unfold round_ok. rewrite Hdb, Hasset, Ha.
    destruct (tags_token R a (reclassify R a e)) eqn:Ht; [| done].
    apply Htags in Ht. by rewrite Ht in Himpl. }
  assert (Hfix : reclassified R db' (reclassify R a e) = reclassify R a e).
  { unfold reclassified. by rewrite Hdb, Hasset, Ha, Hidem. }
  by rewrite Hok, Hfix, IH1, IH2.
Qed.

Lemma is_classified_subtype e :
  event_subtype e ≠ HistoryEventSubType.NONE → is_classified e = true.
Proof.
  intros H. unfold is_classified, is_raw.
  rewrite (bool_decide_eq_false_2 (event_subtype e = HistoryEventSubType.NONE)) by done.
  by rewrite !andb_false_r.
Qed.

Section Twice.
Context {imports : Imports}.

Lemma add_liquidity_result_classified self tx_log' a e :
  reclassify (add_liquidity_round self tx_log') a e = e ∨
  is_classified (reclassify (add_liquidity_round self tx_log') a e) = true.
Proof.
  cbn. destruct (add_liquidity_deposit self e); [right; by apply is_classified_subtype |].
  destruct (add_liquidity_receive e); [right; by apply is_classified_subtype | by left].
Qed.

Lemma remove_liquidity_result_classified self tx_log' a e :
  reclassify (remove_liquidity_round self tx_log') a e = e ∨
  is_classified (reclassify (remove_liquidity_round self tx_log') a e) = true.
Proof.
  cbn. destruct (remove_liquidity_return self e); [right; by apply is_classified_subtype |].
  destruct (remove_liquidity_withdrawal self e);
    [right; by apply is_classified_subtype | by left].
Qed.

Lemma add_liquidity_twice self tx_log' db db' events :
  (∀ id, crypto_asset_of db' id = crypto_asset_of db id) →
  forallb (round_ok (add_liquidity_round self tx_log') db) events = true →
  forallb (round_ok (add_liquidity_round self tx_log') db')
    (map (reclassified (add_liquidity_round self tx_log') db) events) = true ∧
  map (reclassified (add_liquidity_round self tx_log') db')
    (map (reclassified (add_liquidity_round self tx_log') db) events)
  = map (reclassified (add_liquidity_round self tx_log') db) events.
Proof.
  intros Hdb. apply walk_twice; [done | | |].
  - intros a e. by injection (add_liquidity_keeps_upstream self tx_log' a e).
  - intros a e.
    destruct (add_liquidity_result_classified self tx_log' a e) as [Hsame | Hc]; [by rewrite !Hsame |].
    by apply add_liquidity_fixes_classified.
  - intros a e.
    destruct (add_liquidity_result_classified self tx_log' a e) as [Hsame | Hc]; [by rewrite !Hsame |].
    apply classified_not_raw in Hc as [_ Hr].
    cbn [tags_token add_liquidity_round]. unfold add_liquidity_receive at 1.
    rewrite Hr. by rewrite andb_false_r.
Qed.

Lemma remove_liquidity_twice self tx_log' db events :
  forallb (round_ok (remove_liquidity_round self tx_log') db) events = true →
  forallb (round_ok (remove_liquidity_round self tx_log') db)
    (map (reclassified (remove_liquidity_round self tx_log') db) events) = true ∧
  map (reclassified (remove_liquidity_round self tx_log') db)
    (map (reclassified (remove_liquidity_round self tx_log') db) events)
  = map (reclassified (remove_liquidity_round self tx_log') db) events.
Proof.
  apply walk_twice; [done | | | done].
  - intros a e. by injection (remove_liquidity_keeps_upstream self tx_log' a e).
  - intros a e.
    destruct (remove_liquidity_result_classified self tx_log' a e) as [Hsame | Hc]; [by rewrite !Hsame |].
    by apply remove_liquidity_fixes_classified.
Qed.

Lemma gauge_matches_upstream user gauge_address raw_amount a e e' :
  upstream_fields e' = upstream_fields e →
  gauge_matches user gauge_address raw_amount a e'
  = gauge_matches user gauge_address raw_amount a e.
Proof. unfold gauge_matches. by intros [= _ -> -> ->]. Qed.

Lemma gauge_event_upstream topic0 gauge_address sym e :
  upstream_fields (gauge_event topic0 gauge_address sym e) = upstream_fields e.
Proof. unfold gauge_event. by repeat case_bool_decide. Qed.

Lemma gauge_event_twice topic0 gauge_address sym e :
  gauge_event topic0 gauge_address sym (gauge_event topic0 gauge_address sym e)
  = gauge_event topic0 gauge_address sym e.
Proof. unfold gauge_event. by repeat case_bool_decide. Qed.

Lemma gauge_twice topic0 user gauge_address raw_amount db db' events :
  (∀ id, crypto_asset_of db' id = crypto_asset_of db id) →
  forallb (round_ok (gauge_round topic0 user gauge_address raw_amount) db) events = true →
  forallb (round_ok (gauge_round topic0 user gauge_address raw_amount) db')
    (map (reclassified (gauge_round topic0 user gauge_address raw_amount) db) events) = true ∧
  map (reclassified (gauge_round topic0 user gauge_address raw_amount) db')
    (map (reclassified (gauge_round topic0 user gauge_address raw_amount) db) events)
  = map (reclassified (gauge_round topic0 user gauge_address raw_amount) db) events.
Proof.
  intros Hdb.
  assert (Hm : ∀ a e,
    gauge_matches user gauge_address raw_amount a
      (reclassify (gauge_round topic0 user gauge_address raw_amount) a e)
    = gauge_matches user gauge_address raw_amount a e).
  { intros a e. apply gauge_matches_upstream, gauge_keeps_upstream. }
  apply walk_twice; [done | | |].
  - intros a e. by injection (gauge_keeps_upstream topic0 user gauge_address raw_amount a e).
  - intros a e. specialize (Hm a e). cbn in *.
    destruct (gauge_matches user gauge_address raw_amount a e) eqn:E.
    + rewrite Hm. apply gauge_event_twice.
    + by rewrite E.
  - intros a e. specialize (Hm a e). cbn in *. by rewrite Hm.
Qed.

(** The flag of a second gauge walk is the flag of the first. *)
Lemma gauge_hit_twice topic0 user gauge_address raw_amount db db' events :
  (∀ id, crypto_asset_of db' id = crypto_asset_of db id) →
  forallb (resolves db) events = true →
  existsb (gauge_hit user gauge_address raw_amount db')
    (map (reclassified (gauge_round topic0 user gauge_address raw_amount) db) events)
  = existsb (gauge_hit user gauge_address raw_amount db) events.
Proof.
  intros Hdb. induction events as [| e rest IH]; [done |]. cbn [forallb map existsb].
  intros [He Hrest]%andb_prop. rewrite IH by done. f_equal.
  destruct (resolves_lookup db e He) as (a & Ha & Hkind & Hcrypto).
  unfold reclassified. rewrite Hcrypto.
  assert (Hasset : asset (reclassify (gauge_round topic0 user gauge_address raw_amount)
                            (untagged a) e) = asset e)
    by (by injection (gauge_keeps_upstream topic0 user gauge_address raw_amount
                        (untagged a) e)).
  pose proof (Hdb (asset e)) as Hdb'. rewrite Hcrypto in Hdb'.
  unfold gauge_hit. rewrite Hasset, Ha.
  unfold crypto_asset_of in Hdb'.
  destruct (db' !! asset e) as [a' |]; [| done].
  destruct (asset_kind a') eqn:Hk'; try done.
  all: assert (Hu : untagged a' = untagged a) by congruence.
  all: rewrite (gauge_matches_upstream user gauge_address raw_amount a' e)
    by apply gauge_keeps_upstream.
  all: change (gauge_matches user gauge_address raw_amount a' e)
    with (gauge_matches user gauge_address raw_amount (untagged a') e).
  all: by rewrite Hu.
Qed.

End Twice.

(** X9.  Dispatching a log a second time changes no event.  After an
    ADD_LIQUIDITY or REMOVE_LIQUIDITY log that raised nothing, the same log
    dispatched on the events it left returns the default output and leaves
    every event as it is; after a gauge log that raised nothing, the same
    log matches the same events again, writes the same values, and returns
    the same refresh flag as the first time. *)
Theorem dispatching_twice_changes_no_event {imports : Imports} self context σ :
  (topics (tx_log context) !! 0 = Some ADD_LIQUIDITY_EVENT →
   raises_nothing (add_liquidity_round self (tx_log context)) σ = true →
   fst (_decode_pool_events self context (snd (_decode_pool_events self context σ)))
     = Return DEFAULT_DECODING_OUTPUT ∧
   decoded_events (snd (_decode_pool_events self context
                          (snd (_decode_pool_events self context σ))))
     = decoded_events (snd (_decode_pool_events self context σ))) ∧
  (topics (tx_log context) !! 0 = Some REMOVE_LIQUIDITY_EVENT →
   all_resolve σ = true →
   _decode_pool_events self context (snd (_decode_pool_events self context σ))
     = _decode_pool_events self context σ) ∧
  (∀ topic0 topic1,
     topics (tx_log context) !! 0 = Some topic0 →
     topics (tx_log context) !! 1 = Some topic1 →
     is_gauge_topic topic0 = true →
     raises_nothing
       (gauge_round topic0 (hex_or_bytes_to_address topic1) (log_address (tx_log context))
          (hex_or_bytes_to_int (data (tx_log context)))) σ = true →
     fst (_decode_gauge_events context (snd (_decode_gauge_events context σ)))
       = fst (_decode_gauge_events context σ) ∧
     decoded_events (snd (_decode_gauge_events context (snd (_decode_gauge_events context σ))))
       = decoded_events (snd (_decode_gauge_events context σ))).
Proof.
  split; [| split].
  - intros Htopic Hok. rewrite !decode_pool_events_add by done.
    destruct (decode_add_liquidity_run self (tx_log context) σ) as (db1 & Htag1 & ->).
    rewrite walk_ok by done. cbn zeta. cbn [fst snd].
    destruct (add_liquidity_twice self (tx_log context) (globaldb σ) db1 (decoded_events σ))
      as [Hok2 Hfix]; [intros id; by apply (crypto_asset_of_tagged _ _ _ id Htag1) | done |].
    match goal with |- context [_decode_add_liquidity_events _ _ ?s] =>
      destruct (decode_add_liquidity_run self (tx_log context) s) as (db2 & _ & ->) end.
    cbn [globaldb decoded_events error_log]. rewrite walk_ok by done. cbn zeta.
    cbn [fst snd decoded_events]. by rewrite Hfix.
  - intros Htopic Hres. rewrite !decode_pool_events_remove by done.
    rewrite <- (remove_raises_nothing self (tx_log context)) in Hres.
    rewrite (decode_remove_liquidity_run self (tx_log context) σ).
    rewrite walk_ok by done. cbn zeta. cbn [fst snd].
    destruct (remove_liquidity_twice self (tx_log context) (globaldb σ) (decoded_events σ))
      as [Hok2 Hfix]; [done |].
    rewrite decode_remove_liquidity_run. unfold set_events.
    cbn [globaldb decoded_events error_log]. rewrite walk_ok by done. cbn zeta.
    cbn [fst snd globaldb decoded_events error_log]. by rewrite Hfix.
  - intros topic0 topic1 H0 H1 Htopic Hok.
    destruct (decode_gauge_run context topic0 topic1 σ H0 H1 Htopic) as (db1 & Htag1 & ->).
    rewrite walk_ok by done. cbn zeta. cbn [fst snd].
    destruct (gauge_twice topic0 (hex_or_bytes_to_address topic1)
                (log_address (tx_log context)) (hex_or_bytes_to_int (data (tx_log context)))
                (globaldb σ) db1 (decoded_events σ))
      as [Hok2 Hfix]; [intros id; by apply (crypto_asset_of_tagged _ _ _ id Htag1) | done |].
    match goal with |- context [_decode_gauge_events _ ?s] =>
      destruct (decode_gauge_run context topic0 topic1 s H0 H1 Htopic) as (db2 & _ & ->) end.
    cbn [globaldb decoded_events error_log]. rewrite walk_ok by done. cbn zeta.
    cbn [fst snd decoded_events]. rewrite Hfix. split; [| done].
    assert (Hres : forallb (resolves (globaldb σ)) (decoded_events σ) = true).
    { unfold raises_nothing in Hok. rewrite forallb_forall in *.
      intros e He. by eapply round_ok_resolves, Hok. }
    assert (Hres2 : forallb (resolves db1)
              (map (reclassified
                      (gauge_round topic0 (hex_or_bytes_to_address topic1)
                         (log_address (tx_log context))
                         (hex_or_bytes_to_int (data (tx_log context)))) (globaldb σ))
                 (decoded_events σ)) = true).
    { rewrite forallb_forall in *. intros e He. by eapply round_ok_resolves, Hok2. }
    rewrite !gauge_walk_locals by done. cbn [orb].
    by rewrite (gauge_hit_twice topic0 _ _ _ (globaldb σ) db1)
      by (done || (intros id; by apply (crypto_asset_of_tagged _ _ _ id Htag1))).
Qed.

Lemma dispatching_twice_changes_no_event_witness :
  decoded_events
    (snd (_decode_pool_events (imports := Example.imports) Example.self Example.add_context
            (snd (_decode_pool_events (imports := Example.imports) Example.self
                    Example.add_context Example.deposit))))
  = decoded_events
      (snd (_decode_pool_events (imports := Example.imports) Example.self Example.add_context
              Example.deposit))
  ∧ fst (_decode_gauge_events (imports := Example.imports)
           (Example.gauge_context GAUGE_DEPOSIT)
           (snd (_decode_gauge_events (imports := Example.imports)
                   (Example.gauge_context GAUGE_DEPOSIT) Example.stake)))
    = fst (_decode_gauge_events (imports := Example.imports)
             (Example.gauge_context GAUGE_DEPOSIT) Example.stake).
Proof.
  split.
  - destruct (@dispatching_twice_changes_no_event Example.imports Example.self
                Example.add_context Example.deposit) as (H & _).
    apply H; [reflexivity | vm_compute; reflexivity].
  - destruct (@dispatching_twice_changes_no_event Example.imports Example.self
                (Example.gauge_context GAUGE_DEPOSIT) Example.stake) as (_ & _ & H).
    apply (H GAUGE_DEPOSIT Example.user_word);
      [reflexivity | reflexivity | vm_compute; reflexivity | vm_compute; reflexivity].
Defined.

(** X10.  Where the token of an event is to be tagged, the handler rewrites
    the event first and resolves the token afterwards.  So when the asset
    of a RECEIVE/NONE event from the zero address (add-liquidity), or of an
    event matching a GAUGE_DEPOSIT log, is a crypto asset that is no EVM
    token, the handler raises [WrongAssetType] for it after it has rewritten
    that event: the events before it and the event itself are rewritten,
    the events after it are not, and nothing is logged. *)
Theorem token_error_after_rewrite {imports : Imports} self context σ pre e post a :
  decoded_events σ = pre ++ e :: post →
  globaldb σ !! asset e = Some a →
  asset_kind a = CRYPTO_ASSET →
  (add_liquidity_deposit self e = false → add_liquidity_receive e = true →
   forallb (round_ok (add_liquidity_round self (tx_log context)) (globaldb σ)) pre = true →
   fst (_decode_add_liquidity_events self (tx_log context) σ)
     = Raise (WrongAssetType (asset e)) ∧
   decoded_events (snd (_decode_add_liquidity_events self (tx_log context) σ))
     = map (reclassified (add_liquidity_round self (tx_log context)) (globaldb σ)) pre
         ++ add_liquidity_received (tx_log context) (symbol a) e :: post ∧
   error_log (snd (_decode_add_liquidity_events self (tx_log context) σ)) = error_log σ) ∧
  (∀ topic1,
     topics (tx_log context) !! 0 = Some GAUGE_DEPOSIT →
     topics (tx_log context) !! 1 = Some topic1 →
     gauge_matches (hex_or_bytes_to_address topic1) (log_address (tx_log context))
       (hex_or_bytes_to_int (data (tx_log context))) a e = true →
     forallb (round_ok
                (gauge_round GAUGE_DEPOSIT (hex_or_bytes_to_address topic1)
                   (log_address (tx_log context))
                   (hex_or_bytes_to_int (data (tx_log context)))) (globaldb σ)) pre = true →
     fst (_decode_gauge_events context σ) = Raise (WrongAssetType (asset e)) ∧
     decoded_events (snd (_decode_gauge_events context σ))
       = map (reclassified
                (gauge_round GAUGE_DEPOSIT (hex_or_bytes_to_address topic1)
                   (log_address (tx_log context))
                   (hex_or_bytes_to_int (data (tx_log context)))) (globaldb σ)) pre
           ++ gauge_event GAUGE_DEPOSIT (log_address (tx_log context)) (symbol a) e :: post ∧
     error_log (snd (_decode_gauge_events context σ)) = error_log σ).
Proof.
  intros Hσ Ha Hkind.
  assert (Hcrypto : crypto_asset_of (globaldb σ) (asset e) = Return (untagged a)).
  { unfold crypto_asset_of. by rewrite Ha, Hkind. }
  assert (Hnot : asset_kind (untagged a) ≠ EVM_TOKEN) by (cbn; congruence).
  split.
  - intros Hd Hr Hpre.
    pose proof (walk_not_token (add_liquidity_round self (tx_log context)) (globaldb σ)
                  pre e post (untagged a) 0 tt Hpre Hcrypto) as Hwalk.
    rewrite <- Hσ in Hwalk. cbn [tags_token reclassify add_liquidity_round] in Hwalk.
    rewrite Hd, Hr in Hwalk. specialize (Hwalk eq_refl Hnot).
    destruct (add_liquidity_raises self (tx_log context) σ (WrongAssetType (asset e)))
      as (-> & -> & ->); [by rewrite Hwalk |].
    by rewrite Hwalk.
  - intros topic1 H0 H1 Hmatch Hpre.
    pose proof (walk_not_token
                  (gauge_round GAUGE_DEPOSIT (hex_or_bytes_to_address topic1)
                     (log_address (tx_log context))
                     (hex_or_bytes_to_int (data (tx_log context)))) (globaldb σ)
                  pre e post (untagged a) 0 false Hpre Hcrypto) as Hwalk.
    rewrite <- Hσ in Hwalk. cbn [tags_token reclassify gauge_round] in Hwalk.
    change (gauge_matches ?u ?g ?r (untagged a) e) with (gauge_matches u g r a e) in Hwalk.
    rewrite Hmatch in Hwalk. specialize (Hwalk eq_refl Hnot).
    destruct (gauge_raises context GAUGE_DEPOSIT topic1 H0 H1 eq_refl σ
                (WrongAssetType (asset e))) as (-> & -> & ->); [by rewrite Hwalk |].
    by rewrite Hwalk.
Qed.

(** The pool token recorded with ETH as its asset: the event is
    RECEIVE_WRAPPED after the call, and the call raised. *)
Lemma token_error_after_rewrite_witness :
  fst (_decode_add_liquidity_events (imports := Example.imports) Example.self
         (tx_log Example.add_context) Example2.mint_of_eth)
  = Raise (WrongAssetType "ETH")
  ∧ event_subtype <$>
      decoded_events
        (snd (_decode_add_liquidity_events (imports := Example.imports) Example.self
                (tx_log Example.add_context) Example2.mint_of_eth)) !! 1
    = Some HistoryEventSubType.RECEIVE_WRAPPED
  ∧ decoded_events
      (snd (_decode_add_liquidity_events (imports := Example.imports) Example.self
              (tx_log Example.add_context) Example2.mint_of_eth)) !! 2
    = Some Example.receive_lp.
Proof.
  destruct (@token_error_after_rewrite Example.imports Example.self Example.add_context
              Example2.mint_of_eth [Example.spend_usdbc] Example2.receive_eth_from_zero
              [Example.receive_lp] (mkAssetData CRYPTO_ASSET "ETH" 18 None))
    as [H _]; [reflexivity | vm_compute; reflexivity | reflexivity |].
  destruct H as (Hfst & Hevents & _);
    [vm_compute; reflexivity | vm_compute; reflexivity | vm_compute; reflexivity |].
  split; [exact Hfst |]. rewrite Hevents. split; reflexivity.
Defined.

(** ** A swap log before a liquidity log *)

Section SwapFirst.
Context {imports : Imports} (pools' gauges' : gset ChecksumEvmAddress).

Lemma pool_is_protocol_address a :
  address_in a (pools (__init__ pools' gauges')) = true →
  address_in a (protocol_addresses (__init__ pools' gauges')) = true.
Proof.
  destruct a as [x |]; [| done]. cbn. rewrite !bool_decide_eq_true. set_solver.
Qed.

Lemma no_swap_candidate_no_liquidity events :
  no_swap_candidate (__init__ pools' gauges') events = true →
  Forall (λ e, add_liquidity_deposit (__init__ pools' gauges') e = false ∧
               remove_liquidity_return (__init__ pools' gauges') e = false ∧
               remove_liquidity_withdrawal (__init__ pools' gauges') e = false) events.
Proof.
  unfold no_swap_candidate. rewrite forallb_forall, Forall_forall.
  intros H e He. apply list_elem_of_In, H, andb_prop in He as [Hs Hr].
  apply negb_true_iff in Hs, Hr.
  unfold swap_spend_candidate, swap_receive_candidate in *.
  unfold add_liquidity_deposit, remove_liquidity_return, remove_liquidity_withdrawal.
  repeat split.
  - destruct (address_in (address e) (pools (__init__ pools' gauges'))) eqn:E;
      [| by rewrite andb_false_r].
    by rewrite (pool_is_protocol_address _ E), andb_true_r in *.
  - destruct (address_in (address e) (pools (__init__ pools' gauges'))) eqn:E;
      [| by rewrite andb_false_r].
    by rewrite (pool_is_protocol_address _ E), andb_true_r in *.
  - destruct (address_in (address e) (pools (__init__ pools' gauges'))) eqn:E;
      [| by rewrite andb_false_r].
    by rewrite (pool_is_protocol_address _ E), andb_true_r in *.
Qed.

Lemma swap_leaves_no_candidate context σ :
  topics (tx_log context) !! 0 = Some SWAP →
  all_resolve σ = true →
  no_swap_candidate (__init__ pools' gauges')
    (decoded_events (snd (_decode_pool_events (__init__ pools' gauges') context σ))) = true.
Proof.
  intros Htopic Hres.
  rewrite decode_pool_events_swap, decode_swap_run, swap_walk by done. cbn zeta.
  cbn [fst snd].
  pose proof (swap_scanned_no_swap_candidate (__init__ pools' gauges') (globaldb σ)
                (decoded_events σ) Hres) as Hscanned.
  destruct (last_candidate (swap_spend_candidate _) (decoded_events σ)) as [s |];
    [| by destruct (last_candidate (swap_receive_candidate _) (decoded_events σ))].
  destruct (last_candidate (swap_receive_candidate _) (decoded_events σ)) as [r |];
    [| done].
  unfold set_events. cbn [snd decoded_events].
  by rewrite (no_swap_candidate_perm _ _ _ (splice_after_perm_any _ s r)).
Qed.

End SwapFirst.

(** X11.  Every pool address is a protocol address of a decoder built by
    [__init__], so the swap handler takes every raw event addressed to a
    pool.  After a SWAP log dispatched on events whose assets resolve, no
    event is left that add-liquidity would turn into a deposit or that
    remove-liquidity would rewrite, and a REMOVE_LIQUIDITY log dispatched
    next changes nothing at all: which handler classifies such an event
    depends on the order of the logs. *)
Theorem swap_log_first_takes_pool_events {imports : Imports} pools' gauges' context context' σ :
  topics (tx_log context) !! 0 = Some SWAP →
  all_resolve σ = true →
  Forall (λ e, add_liquidity_deposit (__init__ pools' gauges') e = false ∧
               remove_liquidity_return (__init__ pools' gauges') e = false ∧
               remove_liquidity_withdrawal (__init__ pools' gauges') e = false)
    (decoded_events (snd (_decode_pool_events (__init__ pools' gauges') context σ))) ∧
  (topics (tx_log context') !! 0 = Some REMOVE_LIQUIDITY_EVENT →
   snd (_decode_pool_events (__init__ pools' gauges') context'
          (snd (_decode_pool_events (__init__ pools' gauges') context σ)))
   = snd (_decode_pool_events (__init__ pools' gauges') context σ)).
Proof.
  intros Htopic Hres.
  pose proof (no_swap_candidate_no_liquidity pools' gauges' _
                (swap_leaves_no_candidate pools' gauges' context σ Htopic Hres)) as Hnone.
  split; [done |].
  intros Hremove. rewrite (decode_pool_events_remove _ context') by done.
  rewrite decode_remove_liquidity_run. cbn zeta. cbn [snd].
  rewrite walk_fixed.
  - unfold set_events. apply state_eta.
  - intros e a He. rewrite Forall_forall in Hnone.
    destruct (Hnone e He) as (_ & Hret & Hwd). cbn. by rewrite Hret, Hwd.
Qed.

Lemma swap_log_first_takes_pool_events_witness :
  snd (_decode_pool_events (imports := Example.imports) Example.self Example.remove_context
         (snd (_decode_pool_events (imports := Example.imports) Example.self
                 Example.swap_context Example2.deposit_and_withdrawal)))
  = snd (_decode_pool_events (imports := Example.imports) Example.self Example.swap_context
           Example2.deposit_and_withdrawal).
Proof.
  apply (@swap_log_first_takes_pool_events Example.imports
           {[Example.WETH_USDBC_POOL_ADDRESS; Example.WUSDR_USDBC_POOL_ADDRESS]}
           {[Example.WETH_USDBC_GAUGE_ADDRESS]} Example.swap_context Example.remove_context
           Example2.deposit_and_withdrawal);
    [reflexivity | vm_compute; reflexivity | reflexivity].
Defined.
